(** * Ember: sandboxed execution and messaging engine

    A shallow embedding of the host-side logic of the Ember extension
    (content classifier, dedup ledger, sandbox builder, message router,
    repair loop, cleanup, settings panel, direct HTML rendering, form
    controls) together with the properties its specification states
    and further properties of the code.

    Conventions of the embedding.
    - A JavaScript string is a [string]: a sequence of code units, here
      restricted to the code units below 256.
    - The browser platform (regular expressions, [String.prototype]
      methods, [JSON.stringify]) is modelled in the modules [JS] and
      [Regex]; what the platform decides outside the program (the clock,
      the network, the JavaScript parser behind [new Function]) enters
      as explicit inputs.
    - The DOM is modelled by the attributes the code reads and writes. *)

From Stdlib Require Import ZArith List String Ascii Bool Lia DecimalString.
From Stdlib Require DecimalFacts DecimalPos DecimalZ.
From stdpp Require Import gmap strings list.

Open Scope string_scope.

(** Let concatenation compute on a text that starts with a known code
    unit. *)
Arguments String.append !s1 s2 : simpl nomatch.

(** The double quote, written by its code so that no literal needs one. *)
Definition dq : string := String "034"%char EmptyString.
Definition bq : string := "`".

(* ===================================================================== *)
(** ** JavaScript strings *)
(* ===================================================================== *)

Module JS.

Definition code (c : ascii) : N := N_of_ascii c.

(** WhiteSpace and LineTerminator code units below 256: TAB, LF, VT, FF,
    CR, SP, NBSP.  This is the set [trim] strips and [\s] matches. *)
Definition isWhiteSpace (c : ascii) : bool :=
  let n := code c in
  ((n =? 9) || (n =? 10) || (n =? 11) || (n =? 12) || (n =? 13)
   || (n =? 32) || (n =? 160))%N.

Definition isLineTerminator (c : ascii) : bool :=
  let n := code c in ((n =? 10) || (n =? 13))%N.

Definition isDigit (c : ascii) : bool :=
  let n := code c in ((48 <=? n) && (n <=? 57))%N.

Definition isUpper (c : ascii) : bool :=
  let n := code c in ((65 <=? n) && (n <=? 90))%N.

Definition isLower (c : ascii) : bool :=
  let n := code c in ((97 <=? n) && (n <=? 122))%N.

(** [\w] : [A-Za-z0-9_] *)
Definition isWordChar (c : ascii) : bool :=
  isUpper c || isLower c || isDigit c || (code c =? 95)%N.

Fixpoint trimStart (s : string) : string :=
  match s with
  | EmptyString => EmptyString
  | String c t => if isWhiteSpace c then trimStart t else s
  end.

Fixpoint trimEnd (s : string) : string :=
  match s with
  | EmptyString => EmptyString
  | String c t =>
      match trimEnd t with
      | EmptyString => if isWhiteSpace c then EmptyString else String c EmptyString
      | t' => String c t'
      end
  end.

(** [String.prototype.trim] *)
Definition trim (s : string) : string := trimEnd (trimStart s).

(** [s.startsWith(p)] *)
Definition startsWith (s p : string) : bool := String.prefix p s.

(** [s.indexOf(p)], counted from [i]. *)
Fixpoint indexOf_from (i : nat) (s p : string) : option nat :=
  if String.prefix p s then Some i
  else match s with
       | EmptyString => None
       | String _ t => indexOf_from (S i) t p
       end.

Definition indexOf (s p : string) : option nat := indexOf_from 0 s p.

(** [s.includes(p)] *)
Definition includes (s p : string) : bool :=
  match indexOf s p with Some _ => true | None => false end.

(** [s.substring(a, b)] for [a <= b]. *)
Definition substring (a b : nat) (s : string) : string :=
  String.substring a (b - a) s.

(** [s.substring(a)] *)
Fixpoint drop (n : nat) (s : string) : string :=
  match n, s with
  | O, _ => s
  | S n', String _ t => drop n' t
  | S _, EmptyString => EmptyString
  end.

Definition take (n : nat) (s : string) : string := String.substring 0 n s.

(** ASCII letters and the Latin-1 letters with a Latin-1 lower case. *)
Definition lowerChar (c : ascii) : ascii :=
  let n := code c in
  if isUpper c then ascii_of_N (n + 32)
  else if ((192 <=? n) && (n <=? 222) && negb (n =? 215))%N
       then ascii_of_N (n + 32)
       else c.

Fixpoint toLowerCase (s : string) : string :=
  match s with
  | EmptyString => EmptyString
  | String c t => String (lowerChar c) (toLowerCase t)
  end.

(** [s.split(sep)] for a non-empty separator; [fuel] bounds the scan. *)
Fixpoint split_go (fuel : nat) (sep cur s : string) : list string :=
  match fuel with
  | O => [cur +:+ s]
  | S fuel' =>
      if String.prefix sep s
      then cur :: split_go fuel' sep EmptyString (drop (String.length sep) s)
      else match s with
           | EmptyString => [cur]
           | String c t => split_go fuel' sep (cur +:+ String c EmptyString) t
           end
  end.

Definition split (s sep : string) : list string :=
  match sep with
  | EmptyString => [s]
  | _ => split_go (S (String.length s)) sep EmptyString s
  end.

(** [arr.join(sep)] *)
Definition join (sep : string) (l : list string) : string := String.concat sep l.

(** [Number.prototype.toString] on an integer. *)
Definition toString (z : Z) : string := NilZero.string_of_int (Z.to_int z).

Definition hexDigit (n : N) : ascii :=
  if (n <? 10)%N then ascii_of_N (48 + n) else ascii_of_N (87 + n).

(** QuoteJSONString on one code unit below 256. *)
Definition quoteChar (c : ascii) : string :=
  let n := code c in
  if (n =? 8)%N then "\b"
  else if (n =? 9)%N then "\t"
  else if (n =? 10)%N then "\n"
  else if (n =? 12)%N then "\f"
  else if (n =? 13)%N then "\r"
  else if (n =? 34)%N then "\" +:+ dq
  else if (n =? 92)%N then "\\"
  else if (n <? 32)%N
       then "\u00" +:+ String (hexDigit (n / 16)) (String (hexDigit (n mod 16)) EmptyString)
       else String c EmptyString.

Fixpoint quoteBody (s : string) : string :=
  match s with
  | EmptyString => EmptyString
  | String c t => quoteChar c +:+ quoteBody t
  end.

(** [JSON.stringify(s)] for a string [s]. *)
Definition stringify (s : string) : string := dq +:+ quoteBody s +:+ dq.

(** [JSON.stringify(a)] for an array of strings [a]. *)
Definition stringifyArray (a : list string) : string :=
  "[" +:+ join "," (map stringify a) +:+ "]".

End JS.

(* ===================================================================== *)
(** ** Regular expressions *)
(* ===================================================================== *)

(** The fragment of ECMAScript regular expressions the program uses:
    a backtracking matcher in continuation-passing style, so that the
    first match found is the one the platform reports (alternatives left
    to right, greedy and lazy repetition). *)

Module Regex.

Record flags := Flags { ignoreCase : bool; dotAll : bool; multiline : bool }.

Definition noFlags : flags := Flags false false false.
Definition flag_i : flags := Flags true false false.
Definition flag_s : flags := Flags false true false.
Definition flag_im : flags := Flags true false true.

(** Members of a character class. *)
Inductive citem :=
| CChar (c : ascii)
| CRange (lo hi : ascii)
| CSpace (pos : bool)     (* \s and \S *)
| CWord (pos : bool)      (* \w and \W *)
| CDigit (pos : bool).    (* \d and \D *)

Inductive regex :=
| Empty
| Chars (neg : bool) (items : list citem)
| Dot
| Bol | Eol
| WordB (pos : bool)      (* \b and \B *)
| Seq (a b : regex)
| Alt (a b : regex)
| Star (greedy : bool) (a : regex)
| Group (n : nat) (a : regex).

Definition Lit (c : ascii) : regex := Chars false [CChar c].

(** Canonicalize without the unicode flag: the upper case of the code
    unit, except that a code unit of 128 or more never maps below 128. *)
Definition canon (c : ascii) : N :=
  let n := JS.code c in
  if JS.isLower c then (n - 32)%N
  else if ((224 <=? n) && (n <=? 254) && negb (n =? 247))%N then (n - 32)%N
  else if (n =? 255)%N then 376%N
  else if (n =? 181)%N then 924%N
  else n.

Definition sameChar (fl : flags) (a c : ascii) : bool :=
  if ignoreCase fl then (canon a =? canon c)%N else Ascii.eqb a c.

Definition inRange (lo hi c : ascii) : bool :=
  ((JS.code lo <=? JS.code c) && (JS.code c <=? JS.code hi))%N.

Fixpoint anyCode (p : ascii -> bool) (n : nat) : bool :=
  match n with
  | O => false
  | S n' => p (ascii_of_nat n') || anyCode p n'
  end.

Definition item_match (fl : flags) (c : ascii) (it : citem) : bool :=
  match it with
  | CChar a => sameChar fl a c
  | CRange lo hi =>
      if ignoreCase fl
      then anyCode (fun a => inRange lo hi a && (canon a =? canon c)%N) 256
      else inRange lo hi c
  | CSpace pos => Bool.eqb pos (JS.isWhiteSpace c)
  | CWord pos => Bool.eqb pos (JS.isWordChar c)
  | CDigit pos => Bool.eqb pos (JS.isDigit c)
  end.

Definition class_match (fl : flags) (neg : bool) (items : list citem) (c : ascii) : bool :=
  xorb neg (existsb (item_match fl c) items).

(** Matcher state: the code unit before the position, the rest of the
    input, the position, and the captures recorded so far. *)
Record mstate := MState {
  m_prev : option ascii;
  m_rest : string;
  m_pos : nat;
  m_caps : list (nat * (nat * nat))
}.

Definition wordAt (o : option ascii) : bool :=
  match o with Some c => JS.isWordChar c | None => false end.

Definition nextChar (s : mstate) : option ascii :=
  match m_rest s with String c _ => Some c | EmptyString => None end.

Definition step (s : mstate) : option (ascii * mstate) :=
  match m_rest s with
  | String c t => Some (c, MState (Some c) t (S (m_pos s)) (m_caps s))
  | EmptyString => None
  end.

Definition atBol (fl : flags) (s : mstate) : bool :=
  match m_prev s with
  | None => true
  | Some c => multiline fl && JS.isLineTerminator c
  end.

Definition atEol (fl : flags) (s : mstate) : bool :=
  match nextChar s with
  | None => true
  | Some c => multiline fl && JS.isLineTerminator c
  end.

Definition orElse {A} (x y : option A) : option A :=
  match x with Some _ => x | None => y end.

Fixpoint m (fl : flags) (r : regex) (k : mstate -> option mstate) (s : mstate)
  {struct r} : option mstate :=
  match r with
  | Empty => k s
  | Chars neg items =>
      match step s with
      | Some (c, s') => if class_match fl neg items c then k s' else None
      | None => None
      end
  | Dot =>
      match step s with
      | Some (c, s') =>
          if dotAll fl || negb (JS.isLineTerminator c) then k s' else None
      | None => None
      end
  | Bol => if atBol fl s then k s else None
  | Eol => if atEol fl s then k s else None
  | WordB pos =>
      if Bool.eqb pos (xorb (wordAt (m_prev s)) (wordAt (nextChar s)))
      then k s else None
  | Seq a b => m fl a (m fl b k) s
  | Alt a b => orElse (m fl a k s) (m fl b k s)
  | Star greedy a =>
      (fix loop (n : nat) (s : mstate) {struct n} : option mstate :=
         let again :=
           match n with
           | O => None
           | S n' =>
               m fl a (fun s' => if (m_pos s' =? m_pos s)%nat then None
                                 else loop n' s') s
           end in
         if greedy then orElse again (k s) else orElse (k s) again)
        (S (String.length (m_rest s))) s
  | Group n a =>
      m fl a (fun s' =>
                k (MState (m_prev s') (m_rest s') (m_pos s')
                          ((n, (m_pos s, m_pos s')) :: m_caps s'))) s
  end.

(** A match anchored at the state [s]. *)
Definition matchAt (fl : flags) (r : regex) (s : mstate) : option mstate :=
  m fl r Some s.

(** The leftmost match at or after the state: its start and end state. *)
Fixpoint searchFrom (fl : flags) (r : regex) (prev : option ascii)
  (rest : string) (pos : nat) : option (nat * mstate) :=
  match matchAt fl r (MState prev rest pos []) with
  | Some e => Some (pos, e)
  | None =>
      match rest with
      | EmptyString => None
      | String c t => searchFrom fl r (Some c) t (S pos)
      end
  end.

Definition search (fl : flags) (r : regex) (s : string) : option (nat * mstate) :=
  searchFrom fl r None s 0.

(** [re.test(s)] *)
Definition test (fl : flags) (r : regex) (s : string) : bool :=
  match search fl r s with Some _ => true | None => false end.

Definition lookupCap (caps : list (nat * (nat * nat))) (n : nat) : option (nat * nat) :=
  snd <$> List.find (fun p => (fst p =? n)%nat) caps.

(** The result of [s.match(re)] without the global flag: index, the
    matched text, and a way to read a capture. *)
Record result := Result {
  r_index : nat;
  r_end : nat;
  r_input : string;
  r_caps : list (nat * (nat * nat))
}.

Definition matched (r : result) : string :=
  JS.substring (r_index r) (r_end r) (r_input r).

(** [match[n]]; [None] stands for [undefined]. *)
Definition capture (r : result) (n : nat) : option string :=
  match lookupCap (r_caps r) n with
  | Some (a, b) => Some (JS.substring a b (r_input r))
  | None => None
  end.

Definition exec (fl : flags) (r : regex) (s : string) : option result :=
  match search fl r s with
  | Some (i, e) => Some (Result i (m_pos e) s (m_caps e))
  | None => None
  end.

(** *** Replacement templates and the methods built on [exec] *)

(** GetSubstitution: [$$], [$&], [$`], [$'] and the numbered captures
    [$n], [$nn]; [caps] lists the captures from 1, [None] an unset one. *)
Definition digitVal (c : ascii) : nat := N.to_nat (JS.code c - 48).

Definition capText (caps : list (option string)) (n : nat) : string :=
  match nth_error caps (n - 1) with
  | Some (Some t) => t
  | _ => EmptyString
  end.

Fixpoint expand (tmpl matchedText before after : string)
  (caps : list (option string)) : string :=
  match tmpl with
  | EmptyString => EmptyString
  | String c t =>
      if negb (Ascii.eqb c "$") then String c (expand t matchedText before after caps)
      else
        match t with
        | String d t1 =>
            if Ascii.eqb d "$" then String "$" (expand t1 matchedText before after caps)
            else if Ascii.eqb d "&" then matchedText +:+ expand t1 matchedText before after caps
            else if Ascii.eqb d "`" then before +:+ expand t1 matchedText before after caps
            else if Ascii.eqb d "'" then after +:+ expand t1 matchedText before after caps
            else if JS.isDigit d then
              let one := digitVal d in
              match t1 with
              | String d2 t2 =>
                  let two := (10 * one + digitVal d2)%nat in
                  if JS.isDigit d2 && (1 <=? two)%nat && (two <=? List.length caps)%nat
                  then capText caps two +:+ expand t2 matchedText before after caps
                  else if (1 <=? one)%nat && (one <=? List.length caps)%nat
                       then capText caps one +:+ expand t1 matchedText before after caps
                       else String c (expand t matchedText before after caps)
              | EmptyString =>
                  if (1 <=? one)%nat && (one <=? List.length caps)%nat
                  then capText caps one
                  else String c (expand t matchedText before after caps)
              end
            else String c (expand t matchedText before after caps)
        | EmptyString => String c EmptyString
        end
  end.

(** Number of capturing groups of an expression. *)
Fixpoint groups (r : regex) : nat :=
  match r with
  | Seq a b | Alt a b => Nat.max (groups a) (groups b)
  | Star _ a => groups a
  | Group n a => Nat.max n (groups a)
  | _ => 0%nat
  end.

Definition capsOf (input : string) (n : nat) (caps : list (nat * (nat * nat)))
  : list (option string) :=
  map (fun i => match lookupCap caps i with
                | Some (a, b) => Some (JS.substring a b input)
                | None => None
                end) (seq 1 n).

(** [s.replace(re, tmpl)] with the global flag. *)
Fixpoint replaceAll_go (fuel : nat) (fl : flags) (r : regex) (tmpl input : string)
  (prev : option ascii) (rest : string) (pos : nat) : string :=
  match fuel with
  | O => rest
  | S fuel' =>
      match matchAt fl r (MState prev rest pos []) with
      | Some e =>
          let out := expand tmpl (JS.substring pos (m_pos e) input)
                       (JS.take pos input) (JS.drop (m_pos e) input)
                       (capsOf input (groups r) (m_caps e)) in
          if (m_pos e =? pos)%nat
          then match rest with
               | EmptyString => out
               | String c t =>
                   out +:+ String c (replaceAll_go fuel' fl r tmpl input (Some c) t (S pos))
               end
          else out +:+ replaceAll_go fuel' fl r tmpl input (m_prev e) (m_rest e) (m_pos e)
      | None =>
          match rest with
          | EmptyString => EmptyString
          | String c t => String c (replaceAll_go fuel' fl r tmpl input (Some c) t (S pos))
          end
      end
  end.

Definition replaceAll (fl : flags) (r : regex) (tmpl s : string) : string :=
  replaceAll_go (S (String.length s)) fl r tmpl s None s 0.

(** [s.match(re)] with the global flag: the matched texts ([[]] stands
    for [null]). *)
Fixpoint matchAll_go (fuel : nat) (fl : flags) (r : regex) (input : string)
  (prev : option ascii) (rest : string) (pos : nat) : list string :=
  match fuel with
  | O => []
  | S fuel' =>
      match matchAt fl r (MState prev rest pos []) with
      | Some e =>
          let txt := JS.substring pos (m_pos e) input in
          if (m_pos e =? pos)%nat
          then match rest with
               | EmptyString => [txt]
               | String c t => txt :: matchAll_go fuel' fl r input (Some c) t (S pos)
               end
          else txt :: matchAll_go fuel' fl r input (m_prev e) (m_rest e) (m_pos e)
      | None =>
          match rest with
          | EmptyString => []
          | String c t => matchAll_go fuel' fl r input (Some c) t (S pos)
          end
      end
  end.

Definition matchAll (fl : flags) (r : regex) (s : string) : list string :=
  matchAll_go (S (String.length s)) fl r s None s 0.

(** [s.replace(pat, tmpl)] for a string pattern: the first occurrence. *)
Definition replaceString (s pat tmpl : string) : string :=
  match JS.indexOf s pat with
  | Some i =>
      let j := (i + String.length pat)%nat in
      JS.take i s +:+ expand tmpl pat (JS.take i s) (JS.drop j s) [] +:+ JS.drop j s
  | None => s
  end.

(** *** Pattern text *)

(** The parser of pattern text, for the fragment the program writes.
    [None] is a pattern outside the fragment (or a syntax error); the
    flag letters are given apart, as [flags]. *)

Definition classEscape (c : ascii) : option citem :=
  if Ascii.eqb c "s" then Some (CSpace true)
  else if Ascii.eqb c "S" then Some (CSpace false)
  else if Ascii.eqb c "w" then Some (CWord true)
  else if Ascii.eqb c "W" then Some (CWord false)
  else if Ascii.eqb c "d" then Some (CDigit true)
  else if Ascii.eqb c "D" then Some (CDigit false)
  else if Ascii.eqb c "n" then Some (CChar "010")
  else if Ascii.eqb c "r" then Some (CChar "013")
  else if Ascii.eqb c "t" then Some (CChar "009")
  else if Ascii.eqb c "v" then Some (CChar "011")
  else if Ascii.eqb c "f" then Some (CChar "012")
  else if JS.isWordChar c then None
  else Some (CChar c).

(** The items of a class, after its opening bracket, up to the closing. *)
Fixpoint p_class (s : string) : option (list citem * string) :=
  match s with
  | EmptyString => None
  | String c t =>
      if Ascii.eqb c "]" then Some ([], t)
      else if Ascii.eqb c "\" then
        match t with
        | String e t1 =>
            match classEscape e, p_class t1 with
            | Some it, Some (its, t2) => Some (it :: its, t2)
            | _, _ => None
            end
        | EmptyString => None
        end
      else
        match t with
        | String d (String hi t2) =>
            if Ascii.eqb d "-" && negb (Ascii.eqb hi "]") then
              if Ascii.eqb hi "\" then None
              else match p_class t2 with
                   | Some (its, t3) => Some (CRange c hi :: its, t3)
                   | None => None
                   end
            else match p_class t with
                 | Some (its, t3) => Some (CChar c :: its, t3)
                 | None => None
                 end
        | _ => match p_class t with
               | Some (its, t3) => Some (CChar c :: its, t3)
               | None => None
               end
        end
  end.

(** SyntaxCharacter: one of [^$\.*+?()[]{}|]. *)
Definition syntaxChar (c : ascii) : bool :=
  existsb (Ascii.eqb c) (list_ascii_of_string "^$\.*+?()[]{}|").

(** An atom escape outside a class. *)
Definition atomEscape (c : ascii) : option regex :=
  if Ascii.eqb c "b" then Some (WordB true)
  else if Ascii.eqb c "B" then Some (WordB false)
  else match classEscape c with
       | Some it => Some (Chars false [it])
       | None => None
       end.

(** A quantifier after an atom: its effect and the rest of the text. *)
Definition quantify (a : regex) (s : string) : regex * string :=
  match s with
  | String q t =>
      let lazy := match t with String "?" _ => true | _ => false end in
      let t' := if lazy then JS.drop 1 t else t in
      if Ascii.eqb q "*" then (Star (negb lazy) a, t')
      else if Ascii.eqb q "+" then (Seq a (Star (negb lazy) a), t')
      else if Ascii.eqb q "?" then ((if lazy then Alt Empty a else Alt a Empty), t')
      else (a, s)
  | EmptyString => (a, s)
  end.

Definition isAssertion (r : regex) : bool :=
  match r with Bol | Eol | WordB _ => true | _ => false end.

Fixpoint p_disj (n : nat) (s : string) (g : nat) {struct n}
  : option (regex * string * nat) :=
  match n with
  | O => None
  | S n' =>
      match p_seq n' s g with
      | Some (a, String "|" t, g1) =>
          match p_disj n' t g1 with
          | Some (b, t', g2) => Some (Alt a b, t', g2)
          | None => None
          end
      | other => other
      end
  end
with p_seq (n : nat) (s : string) (g : nat) {struct n}
  : option (regex * string * nat) :=
  match n with
  | O => None
  | S n' =>
      match s with
      | EmptyString => Some (Empty, s, g)
      | String c _ =>
          if Ascii.eqb c "|" || Ascii.eqb c ")" then Some (Empty, s, g)
          else
            match p_atom n' s g with
            | Some (a, t, g1) =>
                let '(a', t') := if isAssertion a then (a, t) else quantify a t in
                match p_seq n' t' g1 with
                | Some (b, t2, g2) => Some (Seq a' b, t2, g2)
                | None => None
                end
            | None => None
            end
      end
  end
with p_atom (n : nat) (s : string) (g : nat) {struct n}
  : option (regex * string * nat) :=
  match n with
  | O => None
  | S n' =>
      match s with
      | EmptyString => None
      | String c t =>
          if Ascii.eqb c "(" then
            match t with
            | String "?" (String ":" t1) =>
                match p_disj n' t1 g with
                | Some (a, String ")" t2, g1) => Some (a, t2, g1)
                | _ => None
                end
            | String "?" _ => None
            | _ =>
                match p_disj n' t (S g) with
                | Some (a, String ")" t2, g1) => Some (Group (S g) a, t2, g1)
                | _ => None
                end
            end
          else if Ascii.eqb c "[" then
            match t with
            | String "^" t1 =>
                match p_class t1 with
                | Some (its, t2) => Some (Chars true its, t2, g)
                | None => None
                end
            | _ =>
                match p_class t with
                | Some (its, t2) => Some (Chars false its, t2, g)
                | None => None
                end
            end
          else if Ascii.eqb c "\" then
            match t with
            | String e t1 =>
                match atomEscape e with
                | Some a => Some (a, t1, g)
                | None => None
                end
            | EmptyString => None
            end
          else if Ascii.eqb c "." then Some (Dot, t, g)
          else if Ascii.eqb c "^" then Some (Bol, t, g)
          else if Ascii.eqb c "$" then Some (Eol, t, g)
          else if syntaxChar c then None
          else Some (Lit c, t, g)
      end
  end.

(** [new RegExp(p)]: the whole pattern text must be consumed. *)
Definition parse (p : string) : option regex :=
  match p_disj (4 * String.length p + 4) p 0 with
  | Some (r, EmptyString, _) => Some r
  | _ => None
  end.

(** A regular-expression literal of the source; a pattern outside the
    fragment would match nothing. *)
Definition re (p : string) : regex :=
  match parse p with
  | Some r => r
  | None => Chars false []
  end.

End Regex.

(* ===================================================================== *)
(** ** Shared data of the variants *)
(* ===================================================================== *)

(** The source tree holds three generations of the extension: the
    classifier build (no frontmatter needed, all libraries preloaded),
    [main.js] (frontmatter blocks), and the first [javascript-live]
    build.  What they share is declared here. *)

Definition MODULE_NAME : string := "Ember".

Record library := { alias : string; file : string }.

Definition BUILT_IN_LIBRARIES : list library :=
  [ {| alias := "d3";      file := "d3.v7.min.js" |};
    {| alias := "three";   file := "three.r128.min.js" |};
    {| alias := "p5";      file := "p5.v1.4.0.min.js" |};
    {| alias := "anime";   file := "anime.v3.2.1.min.js" |};
    {| alias := "chartjs"; file := "chart.umd.js" |};
    {| alias := "matter";  file := "matter.v0.18.0.min.js" |} ].

(** [BUILT_IN_LIBRARIES.find(lib => lib.alias === alias)] *)
Definition findLibrary (a : string) : option library :=
  List.find (fun lib => String.eqb (alias lib) a) BUILT_IN_LIBRARIES.

(** The local URL of a bundle; [origin] is [location.origin]. *)
Definition libUrl (origin : string) (lib : library) : string :=
  origin +:+ "/scripts/extensions/third-party/" +:+ MODULE_NAME +:+ "/lib/" +:+ file lib.

(** What the platform decides while one fragment is processed:
    [Date.now()] and the outcome of [fetch(url)] ([None]: the request
    failed or the response was not ok). *)
Record env := { now : Z; fetch : string -> option string }.

(** [Promise.all(urls.map(fetch))]: all texts, or the first failure. *)
Fixpoint fetchAll (e : env) (urls : list string) : option (list string) :=
  match urls with
  | [] => Some []
  | u :: us =>
      match fetch e u, fetchAll e us with
      | Some t, Some ts => Some (t :: ts)
      | _, _ => None
      end
  end.

(** The element properties the source sets through
    [Object.assign(element, { ... })].  [Object.assign] copies the keys of
    its second argument in order with an assignment that throws when it
    fails.  [className], [innerHTML] and [sandbox] can be assigned and
    [style] forwards the text to [cssText]; [dataset] is a read-only
    attribute with nothing to forward to, so assigning it raises a
    TypeError.  ([x.dataset.frameId = ...], as the other two builds write
    it, sets a key of the existing map and is no such assignment.) *)
Inductive elementProperty := className_ | innerHTML_ | sandbox_ | style_ | dataset_.

Definition writable (p : elementProperty) : bool :=
  match p with
  | dataset_ => false
  | _ => true
  end.

(** [Object.assign(element, source)] returns; [keys]: the keys of
    [source]. *)
Definition assignable (keys : list elementProperty) : bool := forallb writable keys.

(** An execution context: the sandboxed iframe appended to a container. *)
Record frame := { frameId : string; userCode : string; libraryCodes : list string }.

(** The two containers a context owns, as the router reads them. *)
Record loadingContainer := {
  l_frameId : option string;
  l_innerHTML : string;
  l_color : string;
  l_display : string
}.

Record finalContainer := {
  c_frameId : string;
  c_display : string;
  c_height : option Z;
  c_frame : option frame
}.

(** A rendered [pre > code] block with the attributes the code uses. *)
Record codeBlock := {
  className : string;
  innerText : string;
  emberProcessed : option string;   (* parentPre.dataset.emberProcessed *)
  display : string                  (* parentPre.style.display *)
}.

Definition setProcessed (v : string) (b : codeBlock) : codeBlock :=
  {| className := className b; innerText := innerText b;
     emberProcessed := Some v; display := display b |}.

Definition setDisplay (v : string) (b : codeBlock) : codeBlock :=
  {| className := className b; innerText := innerText b;
     emberProcessed := emberProcessed b; display := v |}.

(** JavaScript truthiness of a string. *)
Definition truthy (s : string) : bool := negb (String.eqb s EmptyString).

Definition spinner (text : string) : string :=
  "<i class=" +:+ dq +:+ "fa-solid fa-spinner fa-spin" +:+ dq +:+ "></i> <span>"
  +:+ text +:+ "</span>".

Definition errorBanner (text : string) : string :=
  "<i class=" +:+ dq +:+ "fa-solid fa-triangle-exclamation" +:+ dq
  +:+ "></i> <span><b>Ember JS Error:</b> " +:+ text +:+ "</span>".

(** The [console.error] and [console.warn] reports of the processors. *)
Inductive consoleEntry :=
| ScriptSyntaxError (code : string)
| JavaScriptSyntaxError (code : string)
| ScriptSandboxError
| SandboxError
| UnknownLibraryWarning (alias : string).

(** The state threaded through one processing pass; the dedup ledger is
    used by the classifier build only. *)
Record pass := {
  processedScriptHashes : gset string;
  processedByEmberJs : bool;
  created : list frame;                     (* iframes appended, oldest first *)
  loadings : list loadingContainer;         (* containers inserted, oldest first *)
  finals : list finalContainer;
  console : list consoleEntry
}.

Definition startPass : pass :=
  {| processedScriptHashes := ∅; processedByEmberJs := false; created := [];
     loadings := []; finals := []; console := [] |}.

Definition addHash (h : string) (st : pass) : pass :=
  {| processedScriptHashes := {[h]} ∪ processedScriptHashes st;
     processedByEmberJs := processedByEmberJs st; created := created st;
     loadings := loadings st; finals := finals st; console := console st |}.

Definition setProcessedByEmberJs (st : pass) : pass :=
  {| processedScriptHashes := processedScriptHashes st;
     processedByEmberJs := true; created := created st;
     loadings := loadings st; finals := finals st; console := console st |}.

Definition logError (c : consoleEntry) (st : pass) : pass :=
  {| processedScriptHashes := processedScriptHashes st;
     processedByEmberJs := processedByEmberJs st; created := created st;
     loadings := loadings st; finals := finals st; console := console st ++ [c] |}.

Definition addLoading (l : loadingContainer) (st : pass) : pass :=
  {| processedScriptHashes := processedScriptHashes st;
     processedByEmberJs := processedByEmberJs st; created := created st;
     loadings := loadings st ++ [l]; finals := finals st; console := console st |}.

(** A final container with its iframe appended. *)
Definition addFrame (f : frame) (st : pass) : pass :=
  {| processedScriptHashes := processedScriptHashes st;
     processedByEmberJs := processedByEmberJs st; created := created st ++ [f];
     loadings := loadings st;
     finals := finals st ++ [ {| c_frameId := frameId f; c_display := "none";
                                 c_height := None; c_frame := Some f |} ];
     console := console st |}.

(* ===================================================================== *)
(** ** Message router *)
(* ===================================================================== *)

(** The [message] listener of the host window.  The builds share its
    [ember-error], [ember-success] and [ember-inject-js] cases; the
    [ember-resize] case differs by the ceiling, which the classifier
    build sets to 600 and [main.js] does not have. *)

(** An injection request whose [content] is a string (the listener
    checks that) and whose [id] is one too.  [inj_depth] is the text
    that [${injection.depth}] puts into the command; how a Number is
    printed there is left to the caller. *)
Record injection := {
  inj_id : string; inj_depth : string; inj_content : string; inj_ephemeral : bool
}.

(** [event.data].  The listener checks none of the fields but [type];
    the events described here are those whose [frameId] and [message]
    are strings and whose [height] is an integer Number.  (Any window
    may post other values: a [height] that is a string, say, is
    concatenated with 15 and compared as text.) *)
Record eventData := {
  type : string;
  ev_frameId : string;
  message : string;
  height : Z;
  ev_injection : option injection
}.

(** The host page as the listener reads and writes it: the containers in
    document order, the table of maxima, and the calls it sends out. *)
Record host := {
  h_loadings : list loadingContainer;
  h_finals : list finalContainer;
  emberMaxHeights : gmap string Z;
  processedCode : string -> bool;     (* the message holds a processed code element *)
  healCalls : list (string * string); (* attemptSelfHeal(msgIdErr, _, message) *)
  commands : list string              (* SlashCommands.executeCommand *)
}.

(** The listener finds the containers of a frame with
    [querySelector(`.ember-loading-container[data-frame-id="${frameId}"]`)]
    and the like: the identifier is spliced into the text of a selector.
    Inside the quoted attribute value a double quote ends the value, a
    backslash starts an escape, a line break makes the selector
    invalid and a NUL is replaced; every other code unit stands for
    itself.  For an identifier without these the selector is the
    attribute test that [isLoading] and [isFinal] compute.  Any other
    identifier is read as selector text of its own making (it may name
    other containers, or make [querySelector] throw): the listener is
    described for plain identifiers only. *)
Definition plainChar (c : ascii) : bool :=
  negb (existsb (Ascii.eqb c) ["034"; "092"; "010"; "013"; "012"; "000"]%char).

Fixpoint plainId (frameId : string) : bool :=
  match frameId with
  | EmptyString => true
  | String c rest => plainChar c && plainId rest
  end.

Definition isLoading (fid : string) (l : loadingContainer) : bool :=
  bool_decide (l_frameId l = Some fid).

Definition isFinal (fid : string) (c : finalContainer) : bool :=
  String.eqb (c_frameId c) fid.

(** Apply [f] to the element [querySelector] returns: the first match. *)
Fixpoint updateFirst {A} (p : A -> bool) (f : A -> A) (l : list A) : list A :=
  match l with
  | [] => []
  | x :: t => if p x then f x :: t else x :: updateFirst p f t
  end.

(** The error case assigns the banner, with the first line of the
    reported text spliced in, to [innerHTML]: the text is parsed as
    markup.  [l_innerHTML] keeps the string assigned; it is the content
    of the container when the line opens no tag, that is, holds no
    less-than sign ([markupFree]). *)
Fixpoint markupFree (text : string) : bool :=
  match text with
  | EmptyString => true
  | String c rest => negb (Ascii.eqb c "<") && markupFree rest
  end.

Definition showError (text : string) (l : loadingContainer) : loadingContainer :=
  {| l_frameId := l_frameId l; l_innerHTML := errorBanner text;
     l_color := "var(--text-color-error)"; l_display := "flex" |}.

Definition setLoadingDisplay (v : string) (l : loadingContainer) : loadingContainer :=
  {| l_frameId := l_frameId l; l_innerHTML := l_innerHTML l;
     l_color := l_color l; l_display := v |}.

Definition setFinalDisplay (v : string) (c : finalContainer) : finalContainer :=
  {| c_frameId := c_frameId c; c_display := v; c_height := c_height c;
     c_frame := c_frame c |}.

Definition setFinalHeight (v : Z) (c : finalContainer) : finalContainer :=
  {| c_frameId := c_frameId c; c_display := c_display c; c_height := Some v;
     c_frame := c_frame c |}.

Definition eol : string := String "010"%char EmptyString.

(** The command text of an injection. *)
Definition injectCommand (i : injection) : string :=
  let quote := Regex.replaceAll Regex.noFlags (Regex.re dq) ("\" +:+ dq) in
  "/inject id=" +:+ dq +:+ quote (inj_id i) +:+ dq +:+ " depth="
  +:+ inj_depth i +:+ " content=" +:+ dq +:+ quote (inj_content i) +:+ dq
  +:+ (if inj_ephemeral i then " ephemeral=true" else EmptyString).

Section Router.

(** The ceiling of the build, if it has one. *)
Variable maxAllowedHeight : option Z.

(** The listener.  [attemptSelfHeal], which the error case starts
    without waiting for it, is recorded as a call in [healCalls]; what
    the repair then does to the message is [Repair.attemptSelfHeal]. *)
Definition onMessage (h : host) (d : eventData) : host :=
  if negb (JS.startsWith (type d) "ember-") then h
  else
    let frameId := ev_frameId d in
    let loadingContainer := List.find (isLoading frameId) (h_loadings h) in
    let finalContainer := List.find (isFinal frameId) (h_finals h) in
    if String.eqb (type d) "ember-error" then
      match loadingContainer with
      | None => h
      | Some _ =>
          let firstLine := hd EmptyString (JS.split (message d) eol) in
          let msgIdErr := nth 2 (JS.split frameId "-") EmptyString in
          {| h_loadings := updateFirst (isLoading frameId) (showError firstLine) (h_loadings h);
             h_finals := updateFirst (isFinal frameId) (setFinalDisplay "none") (h_finals h);
             emberMaxHeights := emberMaxHeights h;
             processedCode := processedCode h;
             healCalls :=
               if processedCode h msgIdErr
                  && JS.startsWith (message d) "Ember Execution Error:"
               then healCalls h ++ [(msgIdErr, message d)]
               else healCalls h;
             commands := commands h |}
      end
    else if String.eqb (type d) "ember-success" then
      {| h_loadings := updateFirst (isLoading frameId) (setLoadingDisplay "none") (h_loadings h);
         h_finals := updateFirst (isFinal frameId) (setFinalDisplay "block") (h_finals h);
         emberMaxHeights := emberMaxHeights h;
         processedCode := processedCode h;
         healCalls := healCalls h;
         commands := commands h |}
    else if String.eqb (type d) "ember-resize" then
      match finalContainer with
      | None => h
      | Some _ =>
          if (height d <=? 0)%Z then h
          else
            let currentMax := default 0%Z (emberMaxHeights h !! frameId) in
            let newHeight := (height d + 15)%Z in
            let newHeight :=
              match maxAllowedHeight with
              | Some cap => if (cap <? newHeight)%Z then cap else newHeight
              | None => newHeight
              end in
            if (currentMax <? newHeight)%Z then
              {| h_loadings := h_loadings h;
                 h_finals := updateFirst (isFinal frameId) (setFinalHeight newHeight) (h_finals h);
                 emberMaxHeights := <[frameId := newHeight]> (emberMaxHeights h);
                 processedCode := processedCode h;
                 healCalls := healCalls h;
                 commands := commands h |}
            else h
      end
    else if String.eqb (type d) "ember-inject-js" then
      match ev_injection d with
      | Some i =>
          {| h_loadings := h_loadings h; h_finals := h_finals h;
             emberMaxHeights := emberMaxHeights h;
             processedCode := processedCode h;
             healCalls := healCalls h;
             commands := commands h ++ [injectCommand i] |}
      | None => h
      end
    else h.

(** The listener run over the messages in their order of arrival. *)
Definition deliver (h : host) (ds : list eventData) : host := fold_left onMessage ds h.

End Router.

(* ===================================================================== *)
(** ** The classifier build *)
(* ===================================================================== *)

Module Current.

(** *** Dedup fingerprint *)

(** ToInt32 *)
Definition toInt32 (z : Z) : Z := ((z + 2 ^ 31) mod 2 ^ 32 - 2 ^ 31)%Z.

Definition charCode (c : ascii) : Z := Z.of_N (JS.code c).

(** One round of the loop: [hash = ((hash << 5) - hash) + char] and
    [hash = hash & hash]. *)
Definition hashStep (hash : Z) (c : ascii) : Z :=
  toInt32 (toInt32 (Z.shiftl hash 5) - hash + charCode c)%Z.

Fixpoint hashLoop (hash : Z) (str : string) : Z :=
  match str with
  | EmptyString => hash
  | String c t => hashLoop (hashStep hash c) t
  end.

Definition simpleHash (str : string) : Z :=
  if (String.length str =? 0)%nat then 0%Z else Z.abs (hashLoop 0 str).

(** [simpleHash(x).toString().substring(0, 10)] *)
Definition hashKey (str : string) : string :=
  JS.substring 0 10 (JS.toString (simpleHash str)).

(** *** Content classifier *)

Definition re_scriptTags := Regex.re "<script\b[^>]*>[\s\S]*?<\/script>".
Definition re_ES6Imports :=
  Regex.re ("\bimport\s+.*\s+from\s+['" +:+ dq +:+ "][^'" +:+ dq +:+ "]+['" +:+ dq +:+ "]").
Definition re_JSInHTML :=
  Regex.re "\b(const|let|var|function|=>\||addEventListener|document\.)\b".
Definition re_JSKeywords :=
  Regex.re "\b(const|let|var|function|class|if|else|for|while|return|new|this|try|catch|finally|async|await|export|import)\b".
Definition re_DOMManipulation :=
  Regex.re "\b(document\.|window\.|\.getElementById|\.querySelector|\.createElement|\.appendChild|\.addEventListener)\b".
Definition re_JSMethods :=
  Regex.re "\b(\.push|\.pop|\.map|\.filter|\.forEach|\.reduce|\.find|\.some|\.every|console\.log|JSON\.|Math\.)\b".
Definition re_ArrowFunctions := Regex.re "=>\s*[\{\(]".
Definition re_JSOperators := Regex.re "[=!]==|&&|\|\||\.\.\.|\?\?|\?\.".
Definition re_RegexLiterals := Regex.re "\/[^\/\n]+\/[gimuy]*".
Definition re_TemplateLiterals := Regex.re "`[^`]*\$\{[^}]*\}[^`]*`".
Definition re_startsHtmlTag := Regex.re "^\s*<[a-zA-Z]".
Definition re_startsCssRule := Regex.re "^\s*[a-zA-Z#.][^{]*\{".

Record detection := {
  isJavaScript : bool;
  isDirectJavaScript : bool;
  isHtmlWithJavaScript : bool;
  isContentBasedJavaScript : bool;
  hasScriptTags : bool;
  contentBasedScore : nat
}.

(** The seven content signals, in the order of the source's array. *)
Definition signals (codeContent : string) : list bool :=
  [ Regex.test Regex.noFlags re_JSKeywords codeContent;
    Regex.test Regex.noFlags re_DOMManipulation codeContent;
    Regex.test Regex.noFlags re_JSMethods codeContent;
    Regex.test Regex.noFlags re_ArrowFunctions codeContent;
    Regex.test Regex.noFlags re_JSOperators codeContent;
    Regex.test Regex.noFlags re_RegexLiterals codeContent;
    Regex.test Regex.noFlags re_TemplateLiterals codeContent ].

Definition detectJavaScriptContent (className codeContent : string) : detection :=
  let isDirectJavaScript :=
    JS.includes className "javascript" || JS.includes className "lang-js"
    || JS.includes className "js" in
  let hasScriptTags := Regex.test Regex.flag_i re_scriptTags codeContent in
  let hasES6Imports := Regex.test Regex.noFlags re_ES6Imports codeContent in
  let hasJSInHTML := Regex.test Regex.noFlags re_JSInHTML codeContent in
  let isHtmlWithJavaScript :=
    (JS.includes className "html" || JS.includes className "xml")
    && (hasScriptTags || hasES6Imports || hasJSInHTML) in
  let contentBasedScore := List.length (List.filter id (signals codeContent)) in
  let isContentBasedJavaScript :=
    negb (JS.includes className "html") && negb (JS.includes className "xml")
    && negb (JS.includes className "css")
    && negb isDirectJavaScript && negb isHtmlWithJavaScript
    && (2 <=? contentBasedScore)%nat
    && negb (Regex.test Regex.noFlags re_startsHtmlTag codeContent)
    && negb (Regex.test Regex.noFlags re_startsCssRule codeContent) in
  let isJavaScript :=
    isDirectJavaScript || isHtmlWithJavaScript || isContentBasedJavaScript in
  {| isJavaScript := isJavaScript;
     isDirectJavaScript := isDirectJavaScript;
     isHtmlWithJavaScript := isHtmlWithJavaScript;
     isContentBasedJavaScript := isContentBasedJavaScript;
     hasScriptTags := hasScriptTags;
     contentBasedScore := contentBasedScore |}.

(** *** Source extraction *)

(** The chain of entity replacements applied to every extracted text. *)
Definition decodeEntities (s : string) : string :=
  let s := Regex.replaceAll Regex.noFlags (Regex.re "&lt;") "<" s in
  let s := Regex.replaceAll Regex.noFlags (Regex.re "&gt;") ">" s in
  let s := Regex.replaceAll Regex.noFlags (Regex.re "&amp;") "&" s in
  let s := Regex.replaceAll Regex.noFlags (Regex.re "&quot;") dq s in
  let s := Regex.replaceAll Regex.noFlags (Regex.re "&#x27;") "'" s in
  let s := Regex.replaceAll Regex.noFlags (Regex.re "&#39;") "'" s in
  Regex.replaceAll Regex.noFlags (Regex.re "&nbsp;") " " s.

Definition re_scriptBlock := Regex.re "<script\b[^>]*>([\s\S]*?)<\/script>".
Definition re_scriptTag := Regex.re "<script\b[^>]*>|<\/script>".
Definition re_scriptSection := Regex.re "<script[^>]*>([\s\S]*?)(?:<\/script>|$)".
Definition re_jsStart :=
  Regex.re "^\s*(import\s+.*from|\/\/\s*Import|const\s+\w+\s*=|let\s+\w+\s*=|var\s+\w+\s*=|function\s+\w+|class\s+\w+)".
Definition re_cssRuleLine := Regex.re "^\s*[a-zA-Z#.][^{]*\{[\s\S]*\}?\s*$".
Definition re_cssPropertyLine := Regex.re "^\s*[a-zA-Z-]+\s*:\s*[^;]+;\s*$".
Definition re_htmlTagLine := Regex.re "^\s*<\/?[a-zA-Z]".
Definition re_jsLine :=
  Regex.re "\b(import|export|const|let|var|function|class|if|for|while|return|=>\||\.addEventListener|\.querySelector|new\s+\w+|console\.|document\.|window\.)\b".
Definition re_commentLine := Regex.re "^\s*\/\/".
Definition re_closingBraceLine := Regex.re "^\s*\}[,;]?\s*$".

Fixpoint findIndex {A} (p : A -> bool) (l : list A) (i : nat) : option nat :=
  match l with
  | [] => None
  | x :: t => if p x then Some i else findIndex p t (S i)
  end.

(** The fallback line filter of the extraction. *)
Definition keepJsLine (line : string) : bool :=
  let trimmedLine := JS.trim line in
  if Regex.test Regex.noFlags re_cssRuleLine trimmedLine then false
  else if Regex.test Regex.noFlags re_cssPropertyLine trimmedLine then false
  else if Regex.test Regex.noFlags re_htmlTagLine trimmedLine then false
  else Regex.test Regex.noFlags re_jsLine trimmedLine
       || Regex.test Regex.noFlags re_commentLine trimmedLine
       || Regex.test Regex.noFlags re_closingBraceLine trimmedLine.

Definition extractJavaScriptFromHTML (codeContent : string) (jsDetection : detection)
  : string :=
  if hasScriptTags jsDetection then
    match Regex.matchAll Regex.flag_i re_scriptBlock codeContent with
    | [] => codeContent
    | scriptMatches =>
        JS.join (eol +:+ eol)
          (List.filter (fun content => (0 <? String.length content)%nat)
             (map (fun mt =>
                     JS.trim (decodeEntities
                                (Regex.replaceAll Regex.flag_i re_scriptTag EmptyString mt)))
                  scriptMatches))
    end
  else
    let scriptContent :=
      match Regex.exec Regex.flag_i re_scriptSection codeContent with
      | Some scriptSectionMatch => default EmptyString (Regex.capture scriptSectionMatch 1)
      | None =>
          let lines := JS.split codeContent eol in
          match findIndex (fun l => Regex.test Regex.noFlags re_jsStart (JS.trim l)) lines 0 with
          | Some jsStartIndex => JS.join eol (List.skipn jsStartIndex lines)
          | None => JS.join eol (List.filter keepJsLine lines)
          end
      end in
    decodeEntities scriptContent.

(** *** Sandbox builder *)

(** The document up to the frame identifier. *)
Definition docHead : string :=
  "<html><head><style>
        html, body { 
            font-family: var(--mainFontFamily, sans-serif); 
            color: var(--text-color, #000); 
            background-color: transparent; 
            margin: 0; 
            padding: 8px; 
            overflow: auto;
            max-height: 600px;
            box-sizing: border-box;
        }
        #root { 
            width: 100%; 
            max-width: 100%; 
            box-sizing: border-box;
            overflow: auto;
            max-height: 580px;
        }
        /* Ensure form elements fit properly */
        input, button, textarea, select {
            max-width: 100%;
            box-sizing: border-box;
        }
    </style></head><body><div id=" +:+
  dq +:+
  "root" +:+
  dq +:+
  "></div><script>(()=>{
        const e=" +:+
  dq.

(** The bootstrap runtime between the identifier and the library array. *)
Definition docAfterFrameId : string :=
  dq +:+
  ";
        const t=o=>window.parent.postMessage({type:" +:+
  dq +:+
  "ember-error" +:+
  dq +:+
  ",frameId:e,message:o}," +:+
  dq +:+
  "*" +:+
  dq +:+
  ");
        const n=()=>window.parent.postMessage({type:" +:+
  dq +:+
  "ember-success" +:+
  dq +:+
  ",frameId:e}," +:+
  dq +:+
  "*" +:+
  dq +:+
  ");

        // Smart DOM redirection - intercept common DOM operations and redirect to root
        const rootElement = document.getElementById(" +:+
  dq +:+
  "root" +:+
  dq +:+
  ");
        const createdElements = {}; // Track elements we create
        
        // Smart element creation - create missing elements on demand
        function createMissingElement(id) {
            if (createdElements[id]) {
                return createdElements[id];
            }
            
            console.log(" +:+
  dq +:+
  "[Ember Smart Create] Creating missing element with ID: " +:+
  dq +:+
  " + id);
            let element;
            
            // Create appropriate element types based on common ID patterns
            if (id.toLowerCase().includes('input') || id.toLowerCase().includes('text') || id.toLowerCase().includes('field')) {
                element = document.createElement('input');
                element.type = 'text';
                element.placeholder = 'Enter text...';
                element.style.cssText = 'padding: 8px; margin: 4px; border: 1px solid #ccc; border-radius: 4px; width: 200px;';
            } else if (id.toLowerCase().includes('button') || id.toLowerCase().includes('btn')) {
                element = document.createElement('button');
                element.textContent = id.replace(/([A-Z])/g, ' $1').replace(/^./, str => str.toUpperCase());
                element.style.cssText = 'padding: 8px 16px; margin: 4px; background: #007bff; color: white; border: none; border-radius: 4px; cursor: pointer;';
            } else if (id.toLowerCase().includes('display') || id.toLowerCase().includes('output') || id.toLowerCase().includes('result')) {
                element = document.createElement('div');
                element.textContent = 'Output will appear here...';
                element.style.cssText = 'padding: 12px; margin: 8px; border: 1px dashed #ccc; background: #f9f9f9; border-radius: 4px; min-height: 30px;';
            } else if (id.toLowerCase().includes('message') || id.toLowerCase().includes('msg')) {
                element = document.createElement('div');
                element.style.cssText = 'padding: 8px; margin: 4px; border: 1px solid #ddd; border-radius: 4px; min-height: 20px;';
            } else {
                // Default to div for unknown elements
                element = document.createElement('div');
                element.style.cssText = 'padding: 4px; margin: 2px; border: 1px solid #eee; border-radius: 2px;';
            }
            
            element.id = id;
            createdElements[id] = element;
            rootElement.appendChild(element);
            console.log(" +:+
  dq +:+
  "[Ember Smart Create] Created and appended " +:+
  dq +:+
  " + element.tagName + " +:+
  dq +:+
  " with ID: " +:+
  dq +:+
  " + id);
            return element;
        }
        
        // Override document.getElementById to create missing elements
        const originalGetElementById = document.getElementById;
        document.getElementById = function(id) {
            const element = originalGetElementById.call(document, id);
            if (!element && id !== 'root') {
                console.log(" +:+
  dq +:+
  "[Ember Smart Redirect] Element '" +:+
  dq +:+
  " + id + " +:+
  dq +:+
  "' not found, creating it..." +:+
  dq +:+
  ");
                return createMissingElement(id);
            }
            return element;
        };
        
        // Override document.querySelector to create missing elements for ID selectors
        const originalQuerySelector = document.querySelector;
        document.querySelector = function(selector) {
            const element = originalQuerySelector.call(document, selector);
            if (!element && selector !== '#root' && selector !== 'body' && selector !== 'html') {
                console.log(" +:+
  dq +:+
  "[Ember Smart Redirect] Selector '" +:+
  dq +:+
  " + selector + " +:+
  dq +:+
  "' not found" +:+
  dq +:+
  ");
                // If it's an ID selector (#something), create the element
                if (selector.startsWith('#')) {
                    const id = selector.substring(1);
                    console.log(" +:+
  dq +:+
  "[Ember Smart Redirect] Creating element for ID selector: " +:+
  dq +:+
  " + id);
                    return createMissingElement(id);
                }
                // For other selectors, return root as fallback
                console.log(" +:+
  dq +:+
  "[Ember Smart Redirect] Using root as fallback for selector: " +:+
  dq +:+
  " + selector);
                return rootElement;
            }
            return element;
        };
        
        // Override document.body to redirect appendChild calls to root
        const originalBodyAppendChild = document.body.appendChild;
        document.body.appendChild = function(element) {
            console.log(" +:+
  dq +:+
  "[Ember Smart Redirect] Redirecting document.body.appendChild to root.appendChild" +:+
  dq +:+
  ");
            return rootElement.appendChild(element);
        };
        
        // Override document.appendChild to redirect to root (if it exists)
        if (document.appendChild) {
            const originalDocAppendChild = document.appendChild;
            document.appendChild = function(element) {
                console.log(" +:+
  dq +:+
  "[Ember Smart Redirect] Redirecting document.appendChild to root.appendChild" +:+
  dq +:+
  ");
                return rootElement.appendChild(element);
            };
        }

        window.ember = {
            inject: function(options) {
                if (!options || typeof options.content !== 'string') {
                    t(" +:+
  dq +:+
  "Ember Internal Error: ember.inject called with invalid options. 'content' (string) is required." +:+
  dq +:+
  ");
                    return;
                }
                const injectionData = {
                    id: typeof options.id === 'string' ? options.id : 'ember_js_block',
                    depth: typeof options.depth === 'number' ? options.depth : 0,
                    content: options.content,
                    ephemeral: typeof options.ephemeral === 'boolean' ? options.ephemeral : false
                };
                window.parent.postMessage({ type: " +:+
  dq +:+
  "ember-inject-js" +:+
  dq +:+
  ", frameId: e, injection: injectionData }, " +:+
  dq +:+
  "*" +:+
  dq +:+
  ");
            }
        };

        let o=!1;
        const s=()=>{if(o)return;o=!0,clearTimeout(d),i&&i.disconnect(), setTimeout(n, 50);};
        const d=setTimeout(()=>{o||t(" +:+
  dq +:+
  "Ember Warning: Script produced no visual output within 7 seconds." +:+
  dq +:+
  ")},7000);
        const i=new MutationObserver(()=>{ if(document.getElementById(" +:+
  dq +:+
  "root" +:+
  dq +:+
  ")?.hasChildNodes()){ s(); } });
        const rootElementForObserver = document.getElementById(" +:+
  dq +:+
  "root" +:+
  dq +:+
  ");
        if(rootElementForObserver) {
             i.observe(rootElementForObserver,{childList:!0,subtree:!0});
             if (rootElementForObserver.hasChildNodes()) { s(); }
        } else {
            t(" +:+
  dq +:+
  "Ember Internal Error: #root element not found in iframe for MutationObserver." +:+
  dq +:+
  ");
        }

        new ResizeObserver(()=>{
            const o=Math.ceil(document.documentElement.scrollHeight);
            if(o>0) window.parent.postMessage({type:" +:+
  dq +:+
  "ember-resize" +:+
  dq +:+
  ",frameId:e,height:o}," +:+
  dq +:+
  "*" +:+
  dq +:+
  ");
        }).observe(document.documentElement);

        try{
            console.log(" +:+
  dq +:+
  "[Ember Iframe] Starting execution..." +:+
  dq +:+
  ");
            
            // Load all libraries automatically
            const libraryScripts = ".

(** The text between the library array and the user code. *)
Definition docAfterLibraries : string :=
  ";
            console.log(" +:+
  dq +:+
  "[Ember Iframe] Loading" +:+
  dq +:+
  ", libraryScripts.length, " +:+
  dq +:+
  "libraries..." +:+
  dq +:+
  ");
            for(const scriptContent of libraryScripts){
                const scriptEl = document.createElement(" +:+
  dq +:+
  "script" +:+
  dq +:+
  ");
                scriptEl.textContent = scriptContent;
                document.head.appendChild(scriptEl);
            }
            console.log(" +:+
  dq +:+
  "[Ember Iframe] Libraries loaded" +:+
  dq +:+
  ");
            
            // Make libraries available globally for easy access
            if (window.Chart) { window.Chart = window.Chart; }
            
            const userCodeToRun = ".

(** The rest of the document after the user code. *)
Definition docTail : string :=
  ";
            console.log(" +:+
  dq +:+
  "[Ember Iframe] User code length:" +:+
  dq +:+
  ", userCodeToRun.length);
            console.log(" +:+
  dq +:+
  "[Ember Iframe] User code preview:" +:+
  dq +:+
  ", userCodeToRun.substring(0, 200) + " +:+
  dq +:+
  "..." +:+
  dq +:+
  ");
            
            const rootElement = document.getElementById(" +:+
  dq +:+
  "root" +:+
  dq +:+
  ");
            if (!rootElement) { t(" +:+
  dq +:+
  "Ember Internal Error: #root element not found in iframe." +:+
  dq +:+
  "); return; }
            console.log(" +:+
  dq +:+
  "[Ember Iframe] Root element found:" +:+
  dq +:+
  ", rootElement);
            
            // Execute user code with root element available
            console.log(" +:+
  dq +:+
  "[Ember Iframe] Executing user code..." +:+
  dq +:+
  ");
            new Function('root', userCodeToRun)(rootElement);
            console.log(" +:+
  dq +:+
  "[Ember Iframe] User code executed successfully" +:+
  dq +:+
  ");
            setTimeout(s, 1000);
        }catch(err){
            console.error(" +:+
  dq +:+
  "[Ember Iframe] Execution error:" +:+
  dq +:+
  ", err);
            t(" +:+
  dq +:+
  "Ember Execution Error: " +:+
  dq +:+
  "+(err.stack||err.message));
        }})();</script></body></html>".

(** The text written into the iframe. *)
Definition iframeContent (code : string) (libraryCodes : list string) (frameId : string)
  : string :=
  let safeCodeString := JS.stringify code in
  docHead +:+ frameId +:+ docAfterFrameId +:+ JS.stringifyArray libraryCodes
  +:+ docAfterLibraries +:+ safeCodeString +:+ docTail.

Definition createSandboxedFrame (code : string) (libraryCodes : list string)
  (frameId : string) : frame :=
  {| frameId := frameId; userCode := code; libraryCodes := libraryCodes |}.

(** *** Message processor *)

(** A [script] element found by [DOMParser] in the raw message. *)
Record script := { s_innerHTML : string; s_src : option string }.

Definition requestedLibs : list string := ["d3"; "three"; "p5"; "anime"; "chartjs"; "matter"].

Section Processor.

(** [syntaxOk code]: [new Function(code)] does not throw. *)
Variable syntaxOk : string -> bool.
Variable origin : string.
Variable messageId : string.

(** [requestedLibs.map(find).filter(Boolean)] and the URLs of the result. *)
Definition libUrls (requested : list string) : list string :=
  map (libUrl origin) (omap findLibrary requested).

(** One round of the loop of [processScriptTagsInHTML]; the flag tells
    whether [processedAnyScripts] was set. *)
Definition processScript (st : pass) (sc : script) (e : env) : pass * bool :=
  let scriptContent := JS.trim (s_innerHTML sc) in
  let scriptSrc := s_src sc in
  let scriptHash := hashKey scriptContent in
  if decide (scriptHash ∈ processedScriptHashes st) then (st, false)
  else if negb (truthy scriptContent) && negb (from_option truthy false scriptSrc)
  then (st, false)
  else if from_option truthy false scriptSrc then (st, false)
  else if negb (truthy (JS.trim scriptContent)) then (st, false)
  else
    let st := addHash scriptHash st in
    if negb (syntaxOk scriptContent)
    then (logError (ScriptSyntaxError scriptContent) st, false)
    else
      let frameId := "ember-frame-" +:+ messageId +:+ "-script-" +:+ JS.toString (now e) in
      match fetchAll e (libUrls requestedLibs) with
      | Some libCodes =>
          let loadingContainer :=
            {| l_frameId := Some frameId;
               l_innerHTML := spinner "Ember JS preparing script...";
               l_color := EmptyString; l_display := EmptyString |} in
          (addFrame (createSandboxedFrame scriptContent libCodes frameId)
             (addLoading loadingContainer st), true)
      | None =>
          let errorContainer :=
            {| l_frameId := None;
               l_innerHTML := errorBanner "Could not create sandbox for script. Check console.";
               l_color := "var(--text-color-error)"; l_display := EmptyString |} in
          (addLoading errorContainer (logError ScriptSandboxError st), false)
      end.

Fixpoint processScripts (st : pass) (any : bool) (scripts : list (script * env))
  : pass * bool :=
  match scripts with
  | [] => (st, any)
  | (sc, e) :: rest =>
      let '(st', b) := processScript st sc e in
      processScripts st' (any || b) rest
  end.

(** [processScriptTagsInHTML]: the scripts are those of the parsed raw
    content, each with the platform's answers at its turn. *)
Definition processScriptTagsInHTML (scripts : list (script * env)) (st : pass)
  : pass * bool :=
  match scripts with
  | [] => (st, false)
  | _ => processScripts st false scripts
  end.

(** One round of the code-block loop of [processMessage]. *)
Definition processCodeBlock (st : pass) (b : codeBlock) (e : env) : pass * codeBlock :=
  let className := className b in
  let codeContent := JS.trim (innerText b) in
  let jsDetection := detectJavaScriptContent className codeContent in
  if negb (isJavaScript jsDetection) then (st, b)
  else if bool_decide (emberProcessed b = Some "true") then (setProcessedByEmberJs st, b)
  else if negb (truthy (JS.trim codeContent)) then (st, setProcessed "skipped" b)
  else
    let javascriptCode :=
      if isHtmlWithJavaScript jsDetection
      then extractJavaScriptFromHTML codeContent jsDetection
      else decodeEntities codeContent in
    let codeHash := hashKey (JS.trim javascriptCode) in
    if decide (codeHash ∈ processedScriptHashes st)
    then (st, setDisplay "none" (setProcessed "duplicate" b))
    else
      let st := addHash codeHash st in
      if negb (syntaxOk javascriptCode)
      then (logError (JavaScriptSyntaxError javascriptCode) st, setProcessed "syntax-error" b)
      else
        let st := setProcessedByEmberJs st in
        let b := setProcessed "true" b in
        let frameId :=
          "ember-frame-" +:+ messageId +:+ "-codeblock-" +:+ JS.toString (now e) in
        let loadingContainer :=
          {| l_frameId := Some frameId; l_innerHTML := spinner "Ember JS preparing...";
             l_color := EmptyString; l_display := EmptyString |} in
        match fetchAll e (libUrls requestedLibs) with
        | Some libCodes =>
            (addFrame (createSandboxedFrame javascriptCode libCodes frameId)
               (addLoading loadingContainer st),
             setDisplay "none" b)
        | None =>
            let failed :=
              {| l_frameId := Some frameId;
                 l_innerHTML :=
                   errorBanner "Could not create sandbox or load libraries. Check console.";
                 l_color := "var(--text-color-error)"; l_display := EmptyString |} in
            (addLoading failed (logError SandboxError st), setProcessed "false" b)
        end.

Fixpoint processCodeBlocks (st : pass) (blocks : list (codeBlock * env))
  : pass * list codeBlock :=
  match blocks with
  | [] => (st, [])
  | (b, e) :: rest =>
      let '(st1, b') := processCodeBlock st b e in
      let '(st2, bs') := processCodeBlocks st1 rest in
      (st2, b' :: bs')
  end.

(** After the raw scripts ran: hide the HTML blocks that show them. *)
Definition hideAfterScripts (b : codeBlock) : codeBlock :=
  if (JS.includes (className b) "html" || JS.includes (className b) "xml")
     && Regex.test Regex.flag_i re_scriptTags (JS.trim (innerText b))
  then setProcessed "hidden-after-script-processing" (setDisplay "none" b)
  else b.

(** A chat message as [processMessage] finds it. *)
Record message := {
  ready : bool;      (* the text element exists and holds no iframe or edit area *)
  rawMessageContent : option string;
  rawScripts : list (script * env);
  codeBlocks : list (codeBlock * env)
}.

(** [processMessage], up to the point where it returns because a
    fragment was handled; the raw-HTML fallback after it is left out. *)
Definition processMessage (msg : message) : pass * list codeBlock :=
  if negb (ready msg) then (startPass, map fst (codeBlocks msg))
  else
    let '(st, blocks) :=
      if from_option truthy false (rawMessageContent msg) then
        let '(st, any) := processScriptTagsInHTML (rawScripts msg) startPass in
        if any
        then (setProcessedByEmberJs st,
              map (fun be => (hideAfterScripts (fst be), snd be)) (codeBlocks msg))
        else (st, codeBlocks msg)
      else (startPass, codeBlocks msg) in
    processCodeBlocks st blocks.

End Processor.

(** The listener of this build caps the height at 600. *)
Definition onMessage : host -> eventData -> host := onMessage (Some 600%Z).

End Current.

(* ===================================================================== *)
(** ** The frontmatter build ([main.js]) *)
(* ===================================================================== *)

Module Main.

(** *** Sandbox builder *)

(** [createSandboxedFrame] begins by creating the iframe with
    [Object.assign(document.createElement('iframe'),
      { className, sandbox, dataset: { frameId } })]
    (lines 511-513).  The [dataset] key makes that call raise a TypeError
    (see [assignable]), so the function is left before [safeCodeString]
    and the document text are built: [None]. *)
Definition createSandboxedFrame (code : string) (libraryCodes : list string)
  (frameId : string) : option frame :=
  if assignable [className_; sandbox_; dataset_]
  then Some {| frameId := frameId; userCode := code; libraryCodes := libraryCodes |}
  else None.

(** *** Message processor *)

Definition re_frontmatter := Regex.re "^---\s*([\s\S]*?)\s*---\s*([\s\S]*)$".

(** The aliases named by the frontmatter. *)
Definition parseLibs (frontmatter : string) : list string :=
  flat_map
    (fun line =>
       let trimmedLine := JS.trim line in
       if JS.startsWith (JS.toLowerCase trimmedLine) "libs:" then []
       else if JS.startsWith trimmedLine "-" then
         let libAlias := JS.trim (JS.drop 1 trimmedLine) in
         if truthy libAlias then [libAlias] else []
       else [])
    (JS.split (JS.trim frontmatter) eol).

(** How one round of the loop ends: the loop goes on to the next block,
    or an exception leaves [processMessage]. *)
Inductive round :=
| Next (st : pass) (b : codeBlock)
| Raise (st : pass) (b : codeBlock).

Section Processor.

Variable origin : string.
Variable messageId : string.

(** [requestedLibs.map(find).filter(Boolean).map(url)] *)
Definition libUrls (requestedLibs : list string) : list string :=
  map (libUrl origin) (omap findLibrary requestedLibs).

(** The [try] block of the loop (lines 617-628): resolve, fetch, build;
    the [catch] takes a failed fetch and whatever [createSandboxedFrame]
    raises.  It stands behind the two [Object.assign] calls of lines
    612-613. *)
Definition buildSandbox (st : pass) (b : codeBlock) (e : env)
  (requestedLibs : list string) (codeWithoutFrontmatter frameId : string)
  : pass * codeBlock :=
  let loadingContainer :=
    {| l_frameId := Some frameId; l_innerHTML := spinner "Ember JS preparing...";
       l_color := EmptyString; l_display := EmptyString |} in
  let failed :=
    {| l_frameId := Some frameId;
       l_innerHTML :=
         errorBanner "Could not create sandbox or load libraries. Check console.";
       l_color := "var(--text-color-error)"; l_display := EmptyString |} in
  match fetchAll e (libUrls requestedLibs) with
  | Some libCodes =>
      match createSandboxedFrame codeWithoutFrontmatter libCodes frameId with
      | Some f => (addFrame f (addLoading loadingContainer st), setDisplay "none" b)
      | None => (addLoading failed (logError SandboxError st), setProcessed "false" b)
      end
  | None => (addLoading failed (logError SandboxError st), setProcessed "false" b)
  end.

(** One round of the loop over the [javascript] blocks.  A block with a
    frontmatter and code is marked ['true'] (line 598); the loading
    container is then created with
    [Object.assign(document.createElement('div'),
      { className, innerHTML, dataset: { frameId } })] (line 612), outside
    any [try]: when that call raises, the round ends there, with the mark
    set and nothing inserted. *)
Definition codeBlockRound (st : pass) (b : codeBlock) (e : env) : round :=
  if negb (JS.includes (className b) "language-javascript"
           || JS.includes (className b) "lang-javascript")
  then Next st b
  else if bool_decide (emberProcessed b = Some "true") then Next (setProcessedByEmberJs st) b
  else
    let rawCode := JS.trim (innerText b) in
    match Regex.exec Regex.noFlags re_frontmatter rawCode with
    | None => Next st b
    | Some frontmatterMatch =>
        let frontmatter := default EmptyString (Regex.capture frontmatterMatch 1) in
        let codeWithoutFrontmatter :=
          default EmptyString (Regex.capture frontmatterMatch 2) in
        if negb (truthy (JS.trim codeWithoutFrontmatter))
        then Next st (setProcessed "skipped" b)
        else
          let st := setProcessedByEmberJs st in
          let b := setProcessed "true" b in
          let requestedLibs := parseLibs frontmatter in
          let frameId := "ember-frame-" +:+ messageId +:+ "-" +:+ JS.toString (now e) in
          if assignable [className_; innerHTML_; dataset_]
             && assignable [className_; style_; dataset_]
          then
            let '(st, b) := buildSandbox st b e requestedLibs codeWithoutFrontmatter frameId in
            Next st b
          else Raise st b
    end.

(** The pass state and the block as the round leaves them. *)
Definition processCodeBlock (st : pass) (b : codeBlock) (e : env) : pass * codeBlock :=
  match codeBlockRound st b e with
  | Next st b | Raise st b => (st, b)
  end.

(** The loop: an exception ends it, and the blocks after the one that
    raised are not visited. *)
Fixpoint processCodeBlocks (st : pass) (blocks : list (codeBlock * env))
  : pass * list codeBlock :=
  match blocks with
  | [] => (st, [])
  | (b, e) :: rest =>
      match codeBlockRound st b e with
      | Next st1 b' =>
          let '(st2, bs') := processCodeBlocks st1 rest in
          (st2, b' :: bs')
      | Raise st1 b' => (st1, b' :: map fst rest)
      end
  end.

(** Whether the loop is left by an exception, which then rejects the
    promise of [processMessage]. *)
Fixpoint raises (st : pass) (blocks : list (codeBlock * env)) : bool :=
  match blocks with
  | [] => false
  | (b, e) :: rest =>
      match codeBlockRound st b e with
      | Next st1 _ => raises st1 rest
      | Raise _ _ => true
      end
  end.

(** [processMessage], up to the point where it returns because a block
    was handled or is left by an exception; [ready]: the text element
    exists and holds no iframe or edit area. *)
Definition processMessage (ready : bool) (blocks : list (codeBlock * env))
  : pass * list codeBlock :=
  if negb ready then (startPass, map fst blocks)
  else processCodeBlocks startPass blocks.

End Processor.

(** The listener of this build has no ceiling. *)
Definition onMessage : host -> eventData -> host := onMessage None.

End Main.

(* ===================================================================== *)
(** ** The first build ([javascript-live]) *)
(* ===================================================================== *)

Module Legacy.

(** The document up to the frame identifier. *)
Definition docHead : string :=
  "
        <html>
            <head>
                <style>
                    body { 
                        font-family: var(--mainFontFamily, sans-serif); 
                        color: var(--text-color, #000); 
                        background-color: transparent; 
                        margin: 0; 
                        padding: 5px; 
                        overflow: hidden; 
                    }
                </style>
            </head>
            <body>
                <div id=" +:+
  dq +:+
  "ember-root" +:+
  dq +:+
  "></div>
                <script>
                    (() => {
                        const frameId = " +:+
  dq.

(** The bootstrap runtime between the identifier and the library array. *)
Definition docAfterFrameId : string :=
  dq +:+
  ";
                        const postLog = (message) => window.parent.postMessage({ type: 'ember-log', frameId, message }, '*');
                        const postError = (message) => window.parent.postMessage({ type: 'ember-error', frameId, message }, '*');
                        const postSuccess = () => window.parent.postMessage({ type: 'ember-success', frameId }, '*');

                        let debounceTimer;
                        let lastHeight = 0;
                        const postResize = () => {
                            clearTimeout(debounceTimer);
                            debounceTimer = setTimeout(() => {
                                const newHeight = Math.ceil(document.documentElement.scrollHeight);
                                if (newHeight > 0 && newHeight !== lastHeight) {
                                    lastHeight = newHeight;
                                    window.parent.postMessage({ type: 'ember-resize', frameId, height: newHeight }, '*');
                                }
                            }, 100); // 100ms is a safe and stable value
                        };

                        try {
                            const libraryCodes = ".

(** The text between the library array and the user code. *)
Definition docAfterLibraries : string :=
  ";
                            
                            if (libraryCodes.length > 0) {
                                for (const libCode of libraryCodes) {
                                    const script = document.createElement('script');
                                    script.textContent = libCode;
                                    document.head.appendChild(script);
                                }
                            }

                            const render = () => { ".

(** The rest of the document after the user code. *)
Definition docTail : string :=
  " };
                            const result = render();
                            
                            if (result instanceof HTMLElement) {
                                document.getElementById('ember-root').appendChild(result);
                                postSuccess();
                                const resizeObserver = new ResizeObserver(postResize);
                                resizeObserver.observe(document.body);
                                postResize();

                            } else {
                                postError('Ember Warning: User code did not return an HTMLElement. This is required.');
                            }
                        } catch (err) {
                            postError('Ember Execution Error: ' + (err.stack || err.message));
                        }
                    })();
                </script>
            </body>
        </html>".

(** The text written into the iframe: the code becomes the body of
    [render]. *)
Definition iframeContent (code : string) (libraryCodes : list string) (frameId : string)
  : string :=
  docHead +:+ frameId +:+ docAfterFrameId +:+ JS.stringifyArray libraryCodes
  +:+ docAfterLibraries +:+ code +:+ docTail.

Definition createSandboxedFrame (code : string) (libraryCodes : list string)
  (frameId : string) : frame :=
  {| frameId := frameId; userCode := code; libraryCodes := libraryCodes |}.

(** The aliases of the frontmatter: the dash lines after [libs:]. *)
Fixpoint parseLines (inLibs : bool) (lines : list string) : list string :=
  match lines with
  | [] => []
  | line :: rest =>
      let trimmedLine := JS.trim line in
      if JS.startsWith trimmedLine "libs:" then parseLines true rest
      else if inLibs && JS.startsWith trimmedLine "-"
           then JS.trim (JS.drop 1 trimmedLine) :: parseLines inLibs rest
           else parseLines inLibs rest
  end.

Section Processor.

Variable origin : string.
Variable messageId : string.

(** The [forEach] over the requested aliases: the approved URLs and the
    warnings, both in order. *)
Fixpoint approve (requestedLibs : list string) : list string * list consoleEntry :=
  match requestedLibs with
  | [] => ([], [])
  | a :: rest =>
      let '(urls, warns) := approve rest in
      match findLibrary a with
      | Some foundLib => (libUrl origin foundLib :: urls, warns)
      | None => (urls, UnknownLibraryWarning a :: warns)
      end
  end.

(** The part of the loop after the frontmatter was read.  The two
    containers are in the message by then.  When a bundle fails to
    load, the [catch] writes the error into the loading container that
    [document.querySelector] finds for the identifier, the first one in
    the document (among the containers of the pass: the own one, unless
    an earlier block got the same identifier), and the final container
    stays, hidden and empty. *)
Definition buildSandbox (st : pass) (b : codeBlock) (e : env)
  (requestedLibs : list string) (finalCode frameId : string) : pass * codeBlock :=
  let '(approvedLibraryUrls, warns) := approve requestedLibs in
  let st := fold_left (fun s w => logError w s) warns st in
  let loadingContainer (text : string) :=
    {| l_frameId := Some frameId; l_innerHTML := text;
       l_color := EmptyString; l_display := EmptyString |} in
  match fetchAll e approvedLibraryUrls with
  | Some libraryCodes =>
      (addFrame (createSandboxedFrame finalCode libraryCodes frameId)
         (addLoading (loadingContainer
                        (spinner "Ember is building the sandbox...")) st),
       setDisplay "none" b)
  | None =>
      let st := logError SandboxError st in
      let errorText :=
        "<i class=" +:+ dq +:+ "fa-solid fa-triangle-exclamation" +:+ dq
        +:+ "></i> <span><b>Ember Error:</b> Could not download required libraries. Check console.</span>" in
      ({| processedScriptHashes := processedScriptHashes st;
          processedByEmberJs := processedByEmberJs st;
          created := created st;
          loadings :=
            updateFirst (isLoading frameId)
              (fun l => {| l_frameId := l_frameId l; l_innerHTML := errorText;
                           l_color := l_color l; l_display := l_display l |})
              (loadings st
               ++ [loadingContainer (spinner "Ember is downloading libraries...")]);
          finals :=
            finals st ++ [ {| c_frameId := frameId; c_display := "none";
                              c_height := None; c_frame := None |} ];
          console := console st |}, b)
  end.

(** One round of the loop over the [javascript-live] blocks; [rawCode]
    is the text of the block's text nodes. *)
Definition processCodeBlock (st : pass) (b : codeBlock) (e : env) : pass * codeBlock :=
  if negb (JS.includes (className b) "javascript-live") then (st, b)
  else if bool_decide (emberProcessed b = Some "true") then (st, b)
  else
    let b := setProcessed "true" b in
    let frameId := "ember-frame-" +:+ messageId +:+ "-" +:+ JS.toString (now e) in
    let rawCode := innerText b in
    let parts := JS.split rawCode "---" in
    let '(finalCode, requestedLibs) :=
      if (1 <? List.length parts)%nat
      then (JS.trim (JS.join "---" (List.skipn 1 parts)),
            parseLines false (JS.split (JS.trim (hd EmptyString parts)) eol))
      else (JS.trim rawCode, []) in
    buildSandbox st b e requestedLibs finalCode frameId.

End Processor.

End Legacy.

(* ===================================================================== *)
(** ** Repair loop *)
(* ===================================================================== *)

(** [attemptSelfHeal] and [escapeRegExp], which [main.js] and the
    classifier build hold in the same words. *)

Module Repair.

Definition re_syntaxCharacters := Regex.re "[.*+?^${}()|[\]\\]".

Definition escapeRegExp (s : string) : string :=
  Regex.replaceAll Regex.noFlags re_syntaxCharacters "\$&" s.

Definition fence : string := "```".

Definition re_codeMatch := Regex.re "```javascript\s*([\s\S]*?)\s*```".
Definition re_originalFrontmatter := Regex.re "^---\s*([\s\S]*?)\s*---".

(** The fix read out of the reply of the repair service. *)
Definition parseFix (correctedText : string) : string :=
  match Regex.exec Regex.noFlags re_codeMatch correctedText with
  | Some codeMatch => JS.trim (default EmptyString (Regex.capture codeMatch 1))
  | None => JS.trim correctedText
  end.

(** The answer to the request sent to the repair service. *)
Inductive response :=
| NetworkError
| Response (ok : bool) (status : Z) (text : string).

Inductive effect :=
| Alert (text : string)
| Log (text : string)
| Rerender (mes : string).   (* clean up, format, render, emit MESSAGE_EDITED *)

(** What one invocation finds. *)
Record healInput := {
  healButton : option bool;          (* the button, and whether it spins *)
  originalCode : string;             (* codeElement.innerText *)
  errorMessage : string;
  reply : response;
  mes : option string;               (* core.chat[messageId].mes *)
  processedPre : bool;               (* a pre marked processed exists *)
  preTexts : list (option string);   (* the code text of every pre of the message *)
  msgEl : bool                       (* the text element of the message exists *)
}.

Record healOutput := {
  newMes : option string;
  effects : list effect;
  newHealButton : option bool
}.

Inductive outcome :=
| Done (mes : option string) (fx : list effect)
| Throw (err : string).

Definition correctedMarkdownOf (originalCode correctedCode : string) : string :=
  (match Regex.exec Regex.noFlags re_originalFrontmatter originalCode with
   | Some originalFrontmatterMatch => JS.trim (Regex.matched originalFrontmatterMatch) +:+ eol
   | None => "---" +:+ eol +:+ "---" +:+ eol
   end)
  +:+ eol +:+ fence +:+ "javascript" +:+ eol +:+ correctedCode +:+ eol +:+ fence.

(** The body of the [try] block. *)
Definition tryHeal (messageId : string) (w : healInput) : outcome :=
  match reply w with
  | NetworkError => Throw "Failed to fetch"
  | Response ok status correctedText =>
      if negb ok then Throw ("AI Heal API failed: " +:+ JS.toString status)
      else
        let correctedCode := parseFix correctedText in
        if truthy correctedCode
           && negb (String.eqb (JS.trim correctedCode) (JS.trim (originalCode w)))
        then
          match mes w with
          | None => Throw ("Message " +:+ messageId +:+ " not found in chat context.")
          | Some msg_mes =>
              if negb (processedPre w
                       || existsb (fun t => match t with
                                            | Some x => String.eqb (JS.trim x)
                                                          (JS.trim (originalCode w))
                                            | None => false
                                            end) (preTexts w))
              then Throw ("Could not find the original code block for message "
                          +:+ messageId +:+ " to replace.")
              else
                let correctedMarkdown := correctedMarkdownOf (originalCode w) correctedCode in
                match Regex.parse ("(```javascript\s*" +:+ escapeRegExp (originalCode w)
                                   +:+ "\s*```)") with
                | None => Throw "Invalid regular expression"
                | Some blockRe =>
                    match Regex.exec Regex.flag_s blockRe msg_mes with
                    | None =>
                        Throw "Could not find the original code block markdown in message text."
                    | Some originalMarkdownBlockMatch =>
                        let fullOriginalBlock :=
                          default EmptyString (Regex.capture originalMarkdownBlockMatch 1) in
                        match Regex.parse ("(---\s*[\s\S]*?\s*---\s*)?"
                                           +:+ escapeRegExp fullOriginalBlock) with
                        | None => Throw "Invalid regular expression"
                        | Some wholeRe =>
                            match Regex.exec Regex.flag_s wholeRe msg_mes with
                            | None =>
                                Throw "Could not find original markdown block structure in message text."
                            | Some m =>
                                let fullOriginalMarkdown := Regex.matched m in
                                let mes' :=
                                  Regex.replaceString msg_mes fullOriginalMarkdown
                                    correctedMarkdown in
                                if msgEl w then Done (Some mes') [Rerender mes']
                                else Done (Some mes')
                                       [Alert "Ember: Message content updated in chat, but DOM element not found to re-render."]
                            end
                        end
                    end
                end
          end
        else Done (mes w) [Log "[Ember Self-Heal] AI provided identical or empty code. No fix applied."]
  end.

Definition attemptSelfHeal (messageId : string) (w : healInput) : healOutput :=
  match healButton w with
  | Some true => {| newMes := mes w; effects := []; newHealButton := healButton w |}
  | _ =>
      let stopped := match healButton w with Some _ => Some false | None => None end in
      match tryHeal messageId w with
      | Done m fx => {| newMes := m; effects := fx; newHealButton := stopped |}
      | Throw err =>
          {| newMes := mes w;
             effects := [Alert ("Ember Self-Heal failed for message " +:+ messageId
                                +:+ ": " +:+ err)];
             newHealButton := stopped |}
      end
  end.

End Repair.

(* ===================================================================== *)
(** ** Cleanup *)
(* ===================================================================== *)

(** [cleanupEmberElements], which [main.js] and the classifier build
    hold in the same words.  It is run before a message is rendered
    again. *)

(** A message element of the chat, by what the cleanup reads and writes
    in it. *)
Record mesElement := {
  mesid : string;
  m_loadings : list loadingContainer;    (* .ember-loading-container *)
  m_finals : list finalContainer;        (* .ember-container *)
  m_genericIframes : nat;                (* .ember-generic-html-iframe *)
  m_runButtons : nat;                    (* .ember-run-html-button *)
  m_pres : list codeBlock;               (* the pre elements, in order *)
  m_mesText : option (option string);    (* .mes_text and its genericHtmlRendered *)
  m_clickable : list bool                (* elements, marked data-ember-clickable or not *)
}.

(** The chat and the table of maxima the listener keeps. *)
Record page := { messages : list mesElement; maxHeights : gmap string Z }.

Definition hasMesid (messageId : string) (m : mesElement) : bool :=
  String.eqb (mesid m) messageId.

(** A [pre] that carries the processed mark is shown again and loses
    the mark. *)
Definition cleanPre (b : codeBlock) : codeBlock :=
  match emberProcessed b with
  | Some _ => {| className := className b; innerText := innerText b;
                 emberProcessed := None; display := EmptyString |}
  | None => b
  end.

(** What the cleanup does inside the message element. *)
Definition cleanMes (m : mesElement) : mesElement :=
  {| mesid := mesid m;
     m_loadings := []; m_finals := []; m_genericIframes := 0; m_runButtons := 0;
     m_pres := map cleanPre (m_pres m);
     m_mesText := match m_mesText m with Some _ => Some None | None => None end;
     m_clickable := map (fun _ => false) (m_clickable m) |}.

Definition cleanupEmberElements (messageId : string) (p : page) : page :=
  match List.find (hasMesid messageId) (messages p) with
  | None => p
  | Some _ =>
      {| messages := updateFirst (hasMesid messageId) cleanMes (messages p);
         maxHeights :=
           filter (fun kv => JS.startsWith (fst kv) ("ember-frame-" +:+ messageId +:+ "-")
                             = false)
                  (maxHeights p) |}
  end.

(* ===================================================================== *)
(** ** Settings panel *)
(* ===================================================================== *)

(** [emberSettings], the slot of the host's [extension_settings] that
    keeps it between sessions, the host's extension prompts, and the
    controls of the settings panel.  Both builds share the code, except
    for [updateEmberPromptInjection].  The handlers of the first three
    controls also reprocess the messages on the page; that acts on the
    chat, not on the state modelled here. *)

Module Settings.

(** The values a settings object can hold.  Numbers are restricted to
    integers; arrays and objects are not looked into. *)
Inductive value :=
| VUndefined
| VNull
| VBool (b : bool)
| VNum (z : Z)
| VStr (s : string)
| VObject.

(** ToBoolean *)
Definition truthy (v : value) : bool :=
  match v with
  | VUndefined | VNull => false
  | VBool b => b
  | VNum z => negb (z =? 0)%Z
  | VStr s => negb (String.length s =? 0)%nat
  | VObject => true
  end.

(** [o[k]] *)
Definition prop (o : gmap string value) (k : string) : value := default VUndefined (o !! k).

Inductive promptType := IN_PROMPT | SYSTEM_PROMPT | BEFORE_PROMPT.

(** The arguments of one [setExtensionPrompt(id, value, position, depth)]
    after the id. *)
Record promptCall := {
  pc_value : value;
  pc_position : option promptType;
  pc_depth : option Z
}.

Record panel := {
  emberSettings : gmap string value;
  (** [global_extension_settings[MODULE_NAME]]: an object, or nothing *)
  global_extension_settings : option (gmap string value);
  (** the last [setExtensionPrompt] call of every prompt id *)
  extensionPrompts : gmap string promptCall;
  (** calls of [saveSettingsDebounced] *)
  saveRequests : nat;
  (** [#ember-direct-html-enabled] *)
  directHtmlChecked : bool;
  (** [#ember-direct-html-processing-mode] *)
  modeVal : value;
  (** [#ember-clickable-inputs-enabled] *)
  clickableChecked : bool;
  (** [#ember-clickable-inputs-prompt-enabled] *)
  promptEnabledChecked : bool;
  promptEnabledDisabled : bool;
  (** [#ember-clickable-inputs-prompt] *)
  promptVal : value;
  promptDisabled : bool;
  (** [#ember-clickable-inputs-prompt-restore]: [pointer-events: none]
      and [opacity: 0.5] *)
  restoreInert : bool
}.

Definition promptId : string := "emberinstructions".
Definition promptDepth : Z := 4.

Definition setExtensionPrompt (id : string) (c : promptCall) (p : panel) : panel :=
  {| emberSettings := emberSettings p;
     global_extension_settings := global_extension_settings p;
     extensionPrompts := <[id := c]> (extensionPrompts p);
     saveRequests := saveRequests p;
     directHtmlChecked := directHtmlChecked p;
     modeVal := modeVal p;
     clickableChecked := clickableChecked p;
     promptEnabledChecked := promptEnabledChecked p;
     promptEnabledDisabled := promptEnabledDisabled p;
     promptVal := promptVal p;
     promptDisabled := promptDisabled p;
     restoreInert := restoreInert p |}.

(** [setExtensionPrompt] with the prompt id and the empty text. *)
Definition cleared : promptCall :=
  {| pc_value := VStr EmptyString; pc_position := None; pc_depth := None |}.

(** [backups] tells the builds apart.  [main.js] writes one prompt
    ([None]).  The classifier build also writes the prompts with the
    suffixes [_system] and [_before], each when the host defines the
    prompt type of that name ([Some (hasSystem, hasBefore)]), and clears
    all three. *)
Definition updateEmberPromptInjection (backups : option (bool * bool)) (p : panel) : panel :=
  let s := emberSettings p in
  let text := prop s "clickableInputsPrompt" in
  let call ty := {| pc_value := text; pc_position := Some ty; pc_depth := Some promptDepth |} in
  if truthy (prop s "clickableInputsEnabled") && truthy (prop s "clickableInputsPromptEnabled")
  then
    let p1 := setExtensionPrompt promptId (call IN_PROMPT) p in
    match backups with
    | None => p1
    | Some (hasSystem, hasBefore) =>
        let p2 := if hasSystem
                  then setExtensionPrompt (promptId +:+ "_system") (call SYSTEM_PROMPT) p1
                  else p1 in
        if hasBefore
        then setExtensionPrompt (promptId +:+ "_before") (call BEFORE_PROMPT) p2
        else p2
    end
  else
    let p1 := setExtensionPrompt promptId cleared p in
    match backups with
    | None => p1
    | Some _ =>
        setExtensionPrompt (promptId +:+ "_before") cleared
          (setExtensionPrompt (promptId +:+ "_system") cleared p1)
    end.

Section Panel.

Variable DEFAULT_EMBER_JS_INSTRUCTIONS : string.
Variable backups : option (bool * bool).

(** The module-level [emberSettings]. *)
Definition initialSettings : gmap string value :=
  <["directHtmlEnabled" := VBool true]>
  (<["directHtmlProcessingMode" := VStr "both"]>
  (<["clickableInputsEnabled" := VBool true]>
  (<["clickableInputsPromptEnabled" := VBool true]>
  (<["clickableInputsPrompt" := VStr DEFAULT_EMBER_JS_INSTRUCTIONS]> ∅)))).

(** The state when the script is loaded and the panel of
    [settings.html] has been added to the page. *)
Definition startup (stored : option (gmap string value)) (prompts : gmap string promptCall) : panel :=
  {| emberSettings := initialSettings;
     global_extension_settings := stored;
     extensionPrompts := prompts;
     saveRequests := 0;
     directHtmlChecked := false;
     modeVal := VStr "off";
     clickableChecked := false;
     promptEnabledChecked := false;
     promptEnabledDisabled := false;
     promptVal := VStr EmptyString;
     promptDisabled := false;
     restoreInert := false |}.

Definition loadSettings (p : panel) : panel :=
  let s1 := match global_extension_settings p with
            | Some o => o ∪ emberSettings p
            | None => emberSettings p
            end in
  let s2 := <["clickableInputsPrompt" :=
               if truthy (prop s1 "clickableInputsPrompt")
               then prop s1 "clickableInputsPrompt"
               else VStr DEFAULT_EMBER_JS_INSTRUCTIONS]> s1 in
  let rawHtmlFeatureEnabled := prop s2 "clickableInputsEnabled" in
  let promptInjectionEnabled := prop s2 "clickableInputsPromptEnabled" in
  let promptTextareaDisabled :=
    negb (truthy rawHtmlFeatureEnabled) || negb (truthy promptInjectionEnabled) in
  updateEmberPromptInjection backups
    {| emberSettings := s2;
       global_extension_settings := global_extension_settings p;
       extensionPrompts := extensionPrompts p;
       saveRequests := saveRequests p;
       directHtmlChecked := truthy (prop s2 "directHtmlEnabled");
       modeVal := prop s2 "directHtmlProcessingMode";
       clickableChecked := truthy (prop s2 "clickableInputsEnabled");
       promptEnabledChecked := truthy (prop s2 "clickableInputsPromptEnabled");
       promptEnabledDisabled := negb (truthy rawHtmlFeatureEnabled);
       promptVal := prop s2 "clickableInputsPrompt";
       promptDisabled := promptTextareaDisabled;
       restoreInert := promptTextareaDisabled |}.

Definition saveSettings (p : panel) : panel :=
  let slot := default ∅ (global_extension_settings p) in
  updateEmberPromptInjection backups
    {| emberSettings := emberSettings p;
       global_extension_settings := Some (emberSettings p ∪ slot);
       extensionPrompts := extensionPrompts p;
       saveRequests := S (saveRequests p);
       directHtmlChecked := directHtmlChecked p;
       modeVal := modeVal p;
       clickableChecked := clickableChecked p;
       promptEnabledChecked := promptEnabledChecked p;
       promptEnabledDisabled := promptEnabledDisabled p;
       promptVal := promptVal p;
       promptDisabled := promptDisabled p;
       restoreInert := restoreInert p |}.

(** What the user does in the panel.  A change event carries the new
    state of its control. *)
Inductive panelEvent :=
| DirectHtmlChange (checked : bool)
| ProcessingModeChange (val : string)
| ClickableChange (checked : bool)
| PromptEnabledChange (checked : bool)
| PromptInput (val : string)
| RestoreClick.

(** The handlers registered in [$(document).ready]. *)
Definition handle (e : panelEvent) (p : panel) : panel :=
  match e with
  | DirectHtmlChange checked =>
      saveSettings
        {| emberSettings := <["directHtmlEnabled" := VBool checked]> (emberSettings p);
           global_extension_settings := global_extension_settings p;
           extensionPrompts := extensionPrompts p;
           saveRequests := saveRequests p;
           directHtmlChecked := checked;
           modeVal := modeVal p;
           clickableChecked := clickableChecked p;
           promptEnabledChecked := promptEnabledChecked p;
           promptEnabledDisabled := promptEnabledDisabled p;
           promptVal := promptVal p;
           promptDisabled := promptDisabled p;
           restoreInert := restoreInert p |}
  | ProcessingModeChange val =>
      saveSettings
        {| emberSettings := <["directHtmlProcessingMode" := VStr val]> (emberSettings p);
           global_extension_settings := global_extension_settings p;
           extensionPrompts := extensionPrompts p;
           saveRequests := saveRequests p;
           directHtmlChecked := directHtmlChecked p;
           modeVal := VStr val;
           clickableChecked := clickableChecked p;
           promptEnabledChecked := promptEnabledChecked p;
           promptEnabledDisabled := promptEnabledDisabled p;
           promptVal := promptVal p;
           promptDisabled := promptDisabled p;
           restoreInert := restoreInert p |}
  | ClickableChange checked =>
      let s1 := <["clickableInputsEnabled" := VBool checked]> (emberSettings p) in
      let rawHtmlFeatureEnabled := checked in
      let promptInjectionEnabled := promptEnabledChecked p in
      let promptTextareaDisabled :=
        negb rawHtmlFeatureEnabled || negb promptInjectionEnabled in
      saveSettings
        {| emberSettings :=
             if rawHtmlFeatureEnabled then s1
             else <["clickableInputsPromptEnabled" := VBool false]> s1;
           global_extension_settings := global_extension_settings p;
           extensionPrompts := extensionPrompts p;
           saveRequests := saveRequests p;
           directHtmlChecked := directHtmlChecked p;
           modeVal := modeVal p;
           clickableChecked := checked;
           promptEnabledChecked :=
             if rawHtmlFeatureEnabled then promptEnabledChecked p else false;
           promptEnabledDisabled := negb rawHtmlFeatureEnabled;
           promptVal := promptVal p;
           promptDisabled := promptTextareaDisabled;
           restoreInert := promptTextareaDisabled |}
  | PromptEnabledChange checked =>
      let s1 := <["clickableInputsPromptEnabled" := VBool checked]> (emberSettings p) in
      let rawHtmlFeatureEnabled := prop s1 "clickableInputsEnabled" in
      let promptInjectionEnabled := prop s1 "clickableInputsPromptEnabled" in
      let promptTextareaDisabled :=
        negb (truthy rawHtmlFeatureEnabled) || negb (truthy promptInjectionEnabled) in
      saveSettings
        {| emberSettings := s1;
           global_extension_settings := global_extension_settings p;
           extensionPrompts := extensionPrompts p;
           saveRequests := saveRequests p;
           directHtmlChecked := directHtmlChecked p;
           modeVal := modeVal p;
           clickableChecked := clickableChecked p;
           promptEnabledChecked := checked;
           promptEnabledDisabled := promptEnabledDisabled p;
           promptVal := promptVal p;
           promptDisabled := promptTextareaDisabled;
           restoreInert := promptTextareaDisabled |}
  | PromptInput val =>
      saveSettings
        {| emberSettings := <["clickableInputsPrompt" := VStr val]> (emberSettings p);
           global_extension_settings := global_extension_settings p;
           extensionPrompts := extensionPrompts p;
           saveRequests := saveRequests p;
           directHtmlChecked := directHtmlChecked p;
           modeVal := modeVal p;
           clickableChecked := clickableChecked p;
           promptEnabledChecked := promptEnabledChecked p;
           promptEnabledDisabled := promptEnabledDisabled p;
           promptVal := VStr val;
           promptDisabled := promptDisabled p;
           restoreInert := restoreInert p |}
  | RestoreClick =>
      if negb (truthy (prop (emberSettings p) "clickableInputsEnabled"))
         || negb (truthy (prop (emberSettings p) "clickableInputsPromptEnabled"))
      then p
      else
        saveSettings
          {| emberSettings :=
               <["clickableInputsPrompt" := VStr DEFAULT_EMBER_JS_INSTRUCTIONS]>
                 (emberSettings p);
             global_extension_settings := global_extension_settings p;
             extensionPrompts := extensionPrompts p;
             saveRequests := saveRequests p;
             directHtmlChecked := directHtmlChecked p;
             modeVal := modeVal p;
             clickableChecked := clickableChecked p;
             promptEnabledChecked := promptEnabledChecked p;
             promptEnabledDisabled := promptEnabledDisabled p;
             promptVal := VStr DEFAULT_EMBER_JS_INSTRUCTIONS;
             promptDisabled := promptDisabled p;
             restoreInert := restoreInert p |}
  end.

(** The panel after a sequence of events. *)
Definition run (evs : list panelEvent) (p : panel) : panel :=
  fold_left (fun q e => handle e q) evs p.

(** A session: the script is loaded, [loadSettings] runs, then the user
    works in the panel. *)
Definition session (stored : option (gmap string value)) (prompts : gmap string promptCall)
  (evs : list panelEvent) : panel :=
  run evs (loadSettings (startup stored prompts)).

End Panel.

End Settings.

(* ===================================================================== *)
(** ** Direct HTML rendering *)
(* ===================================================================== *)

(** The end of [processMessage] in the classifier build and in
    [main.js], reached when the pass over the code blocks ran none of
    them.  The page enters by what the code asks of it: whether the
    message text holds a frame. *)

Definition re_htmlCodeBlock := Regex.re "^```html\s*\n([\s\S]*?)\n```\s*$".

Definition complexHtmlRegex :=
  Regex.re ("<\s*(div|table|form|canvas|svg|section|article|header|footer|nav|aside|dl|dt|dd"
            +:+ "|figure|figcaption|summary|dialog|menu|input|select|button|textarea)\b"
            +:+ "|<[a-z]+\s+[^>]*style=[" +:+ dq +:+ "']").

(** What the end of the pass does with the message. *)
Inductive htmlCall :=
| RenderFrame (html : string)   (* renderGenericHtmlInFrame, then return *)
| RunButton (html : string)     (* addGenericHtmlRunButton *)
| ClickableInputs               (* processClickableInputs *)
| NoCall.

(** [htmlForProcessing] before it is used; [None] stands for
    [undefined], a chat entry without a text. *)
Definition htmlForProcessing (rawMessageContent : option string) : option string :=
  match rawMessageContent with
  | None => None
  | Some raw =>
      if (String.length raw =? 0)%nat then Some raw
      else
        match Regex.exec Regex.flag_im re_htmlCodeBlock raw with
        | Some htmlCodeBlockMatch =>
            match Regex.capture htmlCodeBlockMatch 1 with
            | Some inner =>
                if (String.length inner =? 0)%nat then Some raw else Some (JS.trim inner)
            | None => Some raw
            end
        | None => Some raw
        end
  end.

(** [v === text] *)
Definition strictEq (v : Settings.value) (text : string) : bool :=
  match v with
  | Settings.VStr s => String.eqb s text
  | _ => false
  end.

Definition directHtml (emberSettings : gmap string Settings.value) (isUserMessage : bool)
  (rawMessageContent : option string) (hasGenericFrame hasFrame : bool) : htmlCall :=
  let rest :=
    if negb hasFrame && Settings.truthy (Settings.prop emberSettings "clickableInputsEnabled")
    then ClickableInputs else NoCall in
  if Settings.truthy (Settings.prop emberSettings "directHtmlEnabled") && negb hasGenericFrame
  then
    match htmlForProcessing rawMessageContent with
    | Some html =>
        if negb (String.length html =? 0)%nat
           && Regex.test Regex.flag_i complexHtmlRegex html
        then
          let mode := Settings.prop emberSettings "directHtmlProcessingMode" in
          let autoActivateUser := strictEq mode "both" in
          let autoActivateResponse := strictEq mode "responses" || autoActivateUser in
          if (isUserMessage && autoActivateUser) || (negb isUserMessage && autoActivateResponse)
          then RenderFrame html
          else RunButton html
        else rest
    | None => rest
    end
  else rest.

(* ===================================================================== *)
(** ** Form controls *)
(* ===================================================================== *)

(** What [inputToString] reads of a control of the message ([main.js]
    and the classifier build share the code).  The label is the text
    [findLabelForInput] finds for the control on the page. *)
Record control := {
  c_tagName : string;               (* tagName *)
  c_type : option string;           (* getAttribute("type") *)
  c_checked : bool;
  c_value : string;
  c_selectedText : option string;   (* options[selectedIndex], its text *)
  c_max : option string;            (* getAttribute("max") *)
  c_label : string;                 (* findLabelForInput(el, logicalParent) *)
  c_inIframe : bool                 (* el.closest('iframe') *)
}.

(** [s.endsWith(p)] *)
Definition endsWith (s p : string) : bool :=
  (String.length p <=? String.length s)%nat
  && String.eqb (JS.drop (String.length s - String.length p) s) p.

Definition nonEmpty (s : string) : bool := negb (String.length s =? 0)%nat.

(** The [type] the function goes by: the attribute in lower case, or
    the tag name when the attribute is missing or empty. *)
Definition typeOf (el : control) : string :=
  match c_type el with
  | Some t => if nonEmpty t then JS.toLowerCase t else JS.toLowerCase (c_tagName el)
  | None => JS.toLowerCase (c_tagName el)
  end.

Definition isButtonType (type : string) : bool :=
  String.eqb type "button" || String.eqb type "submit" || String.eqb type "reset".

(** [None]: the TypeError of a [select] without a selected option. *)
Definition inputToString (el : control) : option string :=
  let type := typeOf el in
  if String.eqb type "radio" && negb (c_checked el) then Some EmptyString
  else
    let modifier :=
      if String.eqb type "range"
      then "/" +:+ match c_max el with
                   | Some m => if nonEmpty m then m else "100"
                   | None => "100"
                   end
      else EmptyString in
    let selected :=
      if String.eqb (c_tagName el) "SELECT"
      then c_selectedText el
      else Some (c_value el) in
    match selected with
    | None => None
    | Some v =>
        let value := if String.eqb type "checkbox"
                     then (if c_checked el then "on" else "off")
                     else v in
        let labelForInput := c_label el in
        if negb (nonEmpty labelForInput) && negb (isButtonType type) then Some EmptyString
        else
          let labelPrefix :=
            if nonEmpty labelForInput
            then labelForInput +:+ (if endsWith labelForInput ":" then EmptyString else ":")
                 +:+ " "
            else EmptyString in
          Some (labelPrefix +:+ value +:+ modifier +:+ eol)
    end.

(** The loop of [extractDataFromInputs] over the controls the selector
    finds, in document order. *)
Fixpoint collectInputs (output : string) (els : list control) : option string :=
  match els with
  | [] => Some output
  | el :: rest =>
      if c_inIframe el then collectInputs output rest
      else match inputToString el with
           | Some line => collectInputs (output +:+ line) rest
           | None => None
           end
  end.

Definition extractDataFromInputs (els : list control) : option string :=
  JS.trim <$> collectInputs EmptyString els.

(* ===================================================================== *)
(** ** Notions used by the properties *)
(* ===================================================================== *)

(** The height applied to the container [querySelector] finds for a
    frame identifier. *)
Definition heightOf (h : host) (fid : string) : option Z :=
  match List.find (isFinal fid) (h_finals h) with
  | Some c => c_height c
  | None => None
  end.

(** The displayed state of the host: its containers. *)
Definition ui (h : host) : list loadingContainer * list finalContainer :=
  (h_loadings h, h_finals h).

(** [message.split('\n')[0]], the line the error banner shows. *)
Definition firstLine (text : string) : string := hd EmptyString (JS.split text eol).

(** [frameId.split('-')[2]], the message the listener takes for the
    owner of a frame. *)
Definition owner (frameId : string) : string := nth 2 (JS.split frameId "-") EmptyString.

(** The error report [d] makes the listener call [attemptSelfHeal]. *)
Definition repairs (h : host) (d : eventData) : bool :=
  processedCode h (owner (ev_frameId d))
  && JS.startsWith (message d) "Ember Execution Error:".

(** Order on applied heights; no height yet is below every height. *)
Definition optLe (a b : option Z) : Prop :=
  match a, b with
  | None, _ => True
  | Some x, Some y => (x <= y)%Z
  | Some _, None => False
  end.

Definition capped (cap : option Z) (v : Z) : Prop :=
  match cap with Some c => (v <= c)%Z | None => True end.

(** What the listener keeps true of one frame: the applied height is
    the recorded maximum, and within the ceiling when there is one. *)
Definition heightInv (cap : option Z) (fid : string) (h : host) : Prop :=
  heightOf h fid = emberMaxHeights h !! fid
  /\ forall v, heightOf h fid = Some v -> capped cap v.

(** The aliases of a request that the registry knows, and the others. *)
Definition isKnown (a : string) : bool :=
  match findLibrary a with Some _ => true | None => false end.

Definition knownAliases (l : list string) : list string := List.filter isKnown l.

Definition unknownAliases (l : list string) : list string :=
  List.filter (fun a => negb (isKnown a)) l.

(** The source a code block hands to the ledger and to the sandbox. *)
Definition blockCode (b : codeBlock) : string :=
  let codeContent := JS.trim (innerText b) in
  let jsDetection := Current.detectJavaScriptContent (className b) codeContent in
  if Current.isHtmlWithJavaScript jsDetection
  then Current.extractJavaScriptFromHTML codeContent jsDetection
  else Current.decodeEntities codeContent.

(** Its normalized form and its fingerprint. *)
Definition normalizedSource (b : codeBlock) : string := JS.trim (blockCode b).
Definition blockKey (b : codeBlock) : string := Current.hashKey (normalizedSource b).

(** The block gets as far as the ledger: the classifier accepts it, it
    is not marked processed, and it is not empty. *)
Definition reachesLedger (b : codeBlock) : bool :=
  Current.isJavaScript
    (Current.detectJavaScriptContent (className b) (JS.trim (innerText b)))
  && negb (bool_decide (emberProcessed b = Some "true"))
  && truthy (JS.trim (JS.trim (innerText b))).

(** An inline script of the raw message: it has text and no source URL. *)
Definition inlineScript (sc : Current.script) : bool :=
  negb (from_option truthy false (Current.s_src sc))
  && truthy (JS.trim (Current.s_innerHTML sc)).

(** The markup of a block was hidden as a duplicate. *)
Definition hiddenDuplicate (b : codeBlock) : Prop :=
  emberProcessed b = Some "duplicate" /\ display b = "none".

(** The fingerprint under which the ledger knows the code of a frame. *)
Definition frameKey (f : frame) : string := Current.hashKey (JS.trim (userCode f)).

(** The ledger covers the contexts of the pass, one fingerprint each. *)
Definition ledgerInv (st : pass) : Prop :=
  NoDup (map frameKey (created st))
  /\ forall f, In f (created st) -> frameKey f ∈ processedScriptHashes st.

Definition scriptKey (sc : Current.script) : string :=
  Current.hashKey (JS.trim (Current.s_innerHTML sc)).

(** Every context of the pass runs code that passed the syntax check. *)
Definition checkedInv (syntaxOk : string -> bool) (st : pass) : Prop :=
  Forall (fun f => syntaxOk (userCode f) = true) (created st).

(** The expression that matches a text literally, one atom per code
    unit. *)
Fixpoint lits (s : string) : Regex.regex :=
  match s with
  | EmptyString => Regex.Empty
  | String c t => Regex.Seq (Regex.Lit c) (lits t)
  end.

(** A code unit with a backslash before it when it is a SyntaxCharacter. *)
Definition escapeChar (c : ascii) : string :=
  if Regex.syntaxChar c then String "\" (String c EmptyString) else String c EmptyString.

Fixpoint escapeChars (s : string) : string :=
  match s with
  | EmptyString => EmptyString
  | String c t => escapeChar c +:+ escapeChars t
  end.

(** The matcher state after the text [s] was read from [st]. *)
Fixpoint advance (st : Regex.mstate) (s : string) : Regex.mstate :=
  match s with
  | EmptyString => st
  | String c t =>
      advance (Regex.MState (Some c) (JS.drop 1 (Regex.m_rest st)) (S (Regex.m_pos st))
                 (Regex.m_caps st)) t
  end.

(** Reading a double-quoted string literal as the JavaScript lexer
    does: the value of the literal and the text after its closing
    quote.  [None]: the text does not start with a well-formed literal
    (a raw line break ends it in an error), or uses an escape this
    reading leaves out (octal, hexadecimal, line continuation, code
    points of 256 and more). *)
Definition hexVal (c : ascii) : option N :=
  let n := JS.code c in
  if JS.isDigit c then Some (n - 48)%N
  else if ((97 <=? n) && (n <=? 102))%N then Some (n - 87)%N
  else if ((65 <=? n) && (n <=? 70))%N then Some (n - 55)%N
  else None.

Definition singleEscape (e : ascii) : option ascii :=
  if Ascii.eqb e "b" then Some "008"%char
  else if Ascii.eqb e "t" then Some "009"%char
  else if Ascii.eqb e "n" then Some "010"%char
  else if Ascii.eqb e "v" then Some "011"%char
  else if Ascii.eqb e "f" then Some "012"%char
  else if Ascii.eqb e "r" then Some "013"%char
  else if JS.isDigit e || Ascii.eqb e "x" || Ascii.eqb e "u" || JS.isLineTerminator e
       then None
       else Some e.

Fixpoint readBody (s : string) : option (string * string) :=
  match s with
  | EmptyString => None
  | String c t =>
      if Ascii.eqb c "034" then Some (EmptyString, t)
      else if JS.isLineTerminator c then None
      else if Ascii.eqb c "\" then
        match t with
        | String e t1 =>
            if Ascii.eqb e "u" then
              match t1 with
              | String h1 (String h2 (String h3 (String h4 t2))) =>
                  match hexVal h1, hexVal h2, hexVal h3, hexVal h4, readBody t2 with
                  | Some a, Some b, Some c', Some d, Some (v, rest) =>
                      let n := (((a * 16 + b) * 16 + c') * 16 + d)%N in
                      if (n <? 256)%N then Some (String (ascii_of_N n) v, rest) else None
                  | _, _, _, _, _ => None
                  end
              | _ => None
              end
            else
              match singleEscape e, readBody t1 with
              | Some x, Some (v, rest) => Some (String x v, rest)
              | _, _ => None
              end
        | EmptyString => None
        end
      else
        match readBody t with
        | Some (v, rest) => Some (String c v, rest)
        | None => None
        end
  end.

Definition readStringLiteral (s : string) : option (string * string) :=
  match s with
  | String q t => if Ascii.eqb q "034" then readBody t else None
  | EmptyString => None
  end.

(** The sandbox document goes through the HTML parser before any of
    its script runs.  Inside a script element the parser reads text up
    to [</script] followed by white space, [/] or [>], in any letter
    case and wherever that stands; [<!--] changes how the end is
    looked for.  [scriptData s] is the text of a script element whose
    content starts at [s], with the document from its end tag on.
    [None]: the element is never closed (it is not run then), or its
    text holds [<!--], which this reading leaves out. *)
Definition tagEnd (c : ascii) : bool :=
  existsb (Ascii.eqb c) ["009"; "010"; "012"; "013"; " "; "/"; ">"]%char.

(** [s] starts with [p], letter case aside; [p] is in lower case. *)
Fixpoint prefixCI (p s : string) : bool :=
  match p with
  | EmptyString => true
  | String a p' =>
      match s with
      | EmptyString => false
      | String b s' => Ascii.eqb a (JS.lowerChar b) && prefixCI p' s'
      end
  end.

Definition closesScript (s : string) : bool :=
  prefixCI "</script" s
  && match JS.drop 8 s with
     | String c _ => tagEnd c
     | EmptyString => false
     end.

Fixpoint scriptData (s : string) : option (string * string) :=
  match s with
  | EmptyString => None
  | String c rest =>
      if String.prefix "<!--" (String c rest) then None
      else if closesScript (String c rest) then Some (EmptyString, String c rest)
      else match scriptData rest with
           | Some (text, after) => Some (String c text, after)
           | None => None
           end
  end.

(** The sandbox templates open their one script element with the text
    [<script>], and nothing before it is raw text that could hold the
    same. *)
Fixpoint afterScriptTag (doc : string) : option string :=
  match doc with
  | EmptyString => None
  | String c rest =>
      if String.prefix "<script>" (String c rest) then Some (JS.drop 8 (String c rest))
      else afterScriptTag rest
  end.

(** The script of a sandbox document as the JavaScript lexer gets it,
    and the rest of the document. *)
Definition scriptOf (doc : string) : option (string * string) :=
  match afterScriptTag doc with
  | Some s => scriptData s
  | None => None
  end.

(** The text holds neither [<!--] nor [</script], in any letter
    case. *)
Definition opens (s : string) : bool := prefixCI "<!--" s || prefixCI "</script" s.

Fixpoint scriptFree (s : string) : bool :=
  match s with
  | EmptyString => true
  | String c rest => negb (opens (String c rest)) && scriptFree rest
  end.

(** No code unit of [p] is [h], letter case aside. *)
Fixpoint avoids (p : string) (h : ascii) : bool :=
  match p with
  | EmptyString => true
  | String a p' => negb (Ascii.eqb a (JS.lowerChar h)) && avoids p' h
  end.

(** A code unit that is part of neither [<!--] nor [</script]. *)
Definition inert (h : ascii) : bool := avoids "<!--" h && avoids "</script" h.

(** The text holds no less-than sign. *)
Fixpoint noLt (s : string) : bool :=
  match s with
  | EmptyString => true
  | String c rest => negb (Ascii.eqb "<" (JS.lowerChar c)) && noLt rest
  end.

(** [a] put before the text of the script element. *)
Definition before (a : string) (r : option (string * string)) : option (string * string) :=
  match r with
  | Some (text, after) => Some (a +:+ text, after)
  | None => None
  end.

(** The text with a backslash before every double quote. *)
Fixpoint escapeQuotes (s : string) : string :=
  match s with
  | EmptyString => EmptyString
  | String c t =>
      if Ascii.eqb c "034" then String "\" (String c (escapeQuotes t))
      else String c (escapeQuotes t)
  end.

(** Every double quote of the text comes right after a backslash;
    [prev] is the code unit before the text. *)
Fixpoint quotesEscaped (prev : option ascii) (s : string) : bool :=
  match s with
  | EmptyString => true
  | String c t =>
      (negb (Ascii.eqb c "034") || bool_decide (prev = Some "\"%char))
      && quotesEscaped (Some c) t
  end.

(** No code unit of the text is the dash: the shape of a message
    identifier, which is the index of the message in the chat. *)
Fixpoint dashFree (s : string) : bool :=
  match s with
  | EmptyString => true
  | String c t => negb (Ascii.eqb c "-") && dashFree t
  end.

(** The final container a context is created with. *)
Definition containerOf (f : frame) : finalContainer :=
  {| c_frameId := frameId f; c_display := "none"; c_height := None; c_frame := Some f |}.

(** Every context of the pass has its two containers: the final
    container that holds its frame, and a loading container labelled
    with its identifier. *)
Definition containersInv (st : pass) : Prop :=
  Forall (fun f => In (containerOf f) (finals st)
                   /\ exists l, In l (loadings st) /\ l_frameId l = Some (frameId f))
         (created st).

(** The page right after a pass over its only message: the containers
    of the pass. *)
Definition pageAfter (st : pass) : host :=
  {| h_loadings := loadings st; h_finals := finals st; emberMaxHeights := ∅;
     processedCode := fun _ => true; healCalls := []; commands := [] |}.

(** The entity texts the extraction decodes. *)
Definition entities : list string :=
  ["&lt;"; "&gt;"; "&amp;"; "&quot;"; "&#x27;"; "&#39;"; "&nbsp;"].

Definition entityFree (s : string) : bool :=
  forallb (fun ent => negb (JS.includes s ent)) entities.

(** The message element after a pass: the containers of the pass are in
    it, and its blocks are as the pass left them. *)
Definition afterPass (m : mesElement) (r : pass * list codeBlock) : mesElement :=
  {| mesid := mesid m;
     m_loadings := m_loadings m ++ loadings (fst r);
     m_finals := m_finals m ++ finals (fst r);
     m_genericIframes := m_genericIframes m; m_runButtons := m_runButtons m;
     m_pres := snd r;
     m_mesText := m_mesText m;
     m_clickable := m_clickable m |}.

(** A message element that no pass has touched. *)
Definition untouched (m : mesElement) : Prop :=
  m_loadings m = [] /\ m_finals m = [] /\ m_genericIframes m = 0%nat
  /\ m_runButtons m = 0%nat
  /\ Forall (fun b => emberProcessed b = None /\ display b = EmptyString) (m_pres m)
  /\ (m_mesText m = None \/ m_mesText m = Some None)
  /\ Forall (fun c => c = false) (m_clickable m).

(** A block as a pass may leave it: as it was, or with the same code
    and a processed mark. *)
Definition marks (b b' : codeBlock) : Prop :=
  b' = b
  \/ (className b' = className b /\ innerText b' = innerText b
      /\ emberProcessed b' <> None).

(** The leading digit of the numeral is not zero. *)
Definition leads (d : Decimal.uint) : bool :=
  match d with
  | Decimal.Nil | Decimal.D0 _ => false
  | _ => true
  end.

(** Prompt injection is on: both switches are set. *)
Definition injectionOn (s : gmap string Settings.value) : bool :=
  Settings.truthy (Settings.prop s "clickableInputsEnabled")
  && Settings.truthy (Settings.prop s "clickableInputsPromptEnabled").

(** The call of [setExtensionPrompt] that fits the settings. *)
Definition promptFor (s : gmap string Settings.value) : Settings.promptCall :=
  if injectionOn s
  then {| Settings.pc_value := Settings.prop s "clickableInputsPrompt";
          Settings.pc_position := Some Settings.IN_PROMPT;
          Settings.pc_depth := Some 4%Z |}
  else Settings.cleared.

(** The prompt ids a build writes. *)
Definition promptIds (backups : option (bool * bool)) : list string :=
  match backups with
  | None => ["emberinstructions"]
  | Some _ => ["emberinstructions"; "emberinstructions_system"; "emberinstructions_before"]
  end.

(** [v || DEFAULT_EMBER_JS_INSTRUCTIONS] *)
Definition orDefault (DEFAULT_EMBER_JS_INSTRUCTIONS : string) (v : Settings.value)
  : Settings.value :=
  if Settings.truthy v then v else Settings.VStr DEFAULT_EMBER_JS_INSTRUCTIONS.

(** The controls of the panel show the settings. *)
Definition controlsShow (p : Settings.panel) : Prop :=
  let s := Settings.emberSettings p in
  Settings.directHtmlChecked p = Settings.truthy (Settings.prop s "directHtmlEnabled")
  /\ Settings.modeVal p = Settings.prop s "directHtmlProcessingMode"
  /\ Settings.clickableChecked p = Settings.truthy (Settings.prop s "clickableInputsEnabled")
  /\ Settings.promptEnabledChecked p
     = Settings.truthy (Settings.prop s "clickableInputsPromptEnabled")
  /\ Settings.promptVal p = Settings.prop s "clickableInputsPrompt".

(** [{...emberSettings, ...stored}] on the module-level settings. *)
Definition merged (DEFAULT_EMBER_JS_INSTRUCTIONS : string) (stored : option (gmap string Settings.value))
  : gmap string Settings.value :=
  match stored with
  | Some o => o ∪ Settings.initialSettings DEFAULT_EMBER_JS_INSTRUCTIONS
  | None => Settings.initialSettings DEFAULT_EMBER_JS_INSTRUCTIONS
  end.

(** The settings with a missing or empty prompt replaced by the default. *)
Definition withPrompt (DEFAULT_EMBER_JS_INSTRUCTIONS : string) (s : gmap string Settings.value)
  : gmap string Settings.value :=
  <["clickableInputsPrompt" :=
     orDefault DEFAULT_EMBER_JS_INSTRUCTIONS (Settings.prop s "clickableInputsPrompt")]> s.

(** The script is loaded again, as after a reload of the page. *)
Definition reload (DEFAULT_EMBER_JS_INSTRUCTIONS : string) (backups : option (bool * bool))
  (prompts : gmap string Settings.promptCall) (p : Settings.panel) : Settings.panel :=
  Settings.loadSettings DEFAULT_EMBER_JS_INSTRUCTIONS backups
    (Settings.startup DEFAULT_EMBER_JS_INSTRUCTIONS (Settings.global_extension_settings p)
       prompts).

(** What a session keeps true of the panel. *)
Record inSession (DEFAULT_EMBER_JS_INSTRUCTIONS : string) (p : Settings.panel) : Prop := {
  is_prompt :
    Settings.extensionPrompts p !! "emberinstructions"
    = Some (promptFor (Settings.emberSettings p));
  is_controls : controlsShow p;
  is_toggle :
    Settings.promptEnabledDisabled p
    = negb (Settings.truthy (Settings.prop (Settings.emberSettings p) "clickableInputsEnabled"));
  is_text : Settings.promptDisabled p = negb (injectionOn (Settings.emberSettings p));
  is_restore : Settings.restoreInert p = negb (injectionOn (Settings.emberSettings p));
  is_keys :
    dom (Settings.initialSettings DEFAULT_EMBER_JS_INSTRUCTIONS)
    ⊆ dom (Settings.emberSettings p);
  is_slot :
    dom (default ∅ (Settings.global_extension_settings p)) ⊆ dom (Settings.emberSettings p);
  is_saved :
    Settings.saveRequests p = 0%nat
    \/ Settings.global_extension_settings p = Some (Settings.emberSettings p);
  is_reload :
    withPrompt DEFAULT_EMBER_JS_INSTRUCTIONS
      (merged DEFAULT_EMBER_JS_INSTRUCTIONS (Settings.global_extension_settings p))
    = withPrompt DEFAULT_EMBER_JS_INSTRUCTIONS (Settings.emberSettings p)
}.

(** The prompt switch is off, in the settings, in the stored copy and
    at the host. *)
Definition switchedOff (backups : option (bool * bool)) (p : Settings.panel) : Prop :=
  Settings.emberSettings p !! "clickableInputsPromptEnabled" = Some (Settings.VBool false)
  /\ (exists o, Settings.global_extension_settings p = Some o
                /\ o !! "clickableInputsPromptEnabled" = Some (Settings.VBool false))
  /\ Forall (fun id => Settings.extensionPrompts p !! id = Some Settings.cleared)
            (promptIds backups).

(** The loop of [Regex.Star], by name. *)
Fixpoint starLoop (fl : Regex.flags) (a : Regex.regex) (greedy : bool)
  (k : Regex.mstate -> option Regex.mstate) (n : nat) (s : Regex.mstate)
  : option Regex.mstate :=
  let again :=
    match n with
    | O => None
    | S n' =>
        Regex.m fl a (fun s' => if (Regex.m_pos s' =? Regex.m_pos s)%nat then None
                                else starLoop fl a greedy k n' s') s
    end in
  if greedy then Regex.orElse again (k s) else Regex.orElse (k s) again.

(** The code unit [c] occurs in the text. *)
Fixpoint occurs (c : ascii) (s : string) : bool :=
  match s with
  | EmptyString => false
  | String d t => Ascii.eqb c d || occurs c t
  end.

(** Text before a fence: nothing, or lines that end with a line
    feed; and text after it. *)
Definition linesBefore (intro : option string) : string :=
  match intro with
  | Some t => t +:+ eol
  | None => EmptyString
  end.

Definition linesAfter (outro : option string) : string :=
  match outro with
  | Some t => eol +:+ t
  | None => EmptyString
  end.

(** A message with an [html] fence on lines of its own. *)
Definition fenced (intro : option string) (body : string) (outro : option string) : string :=
  linesBefore intro +:+ "```html" +:+ eol +:+ body +:+ eol +:+ "```" +:+ linesAfter outro.

(** The character classes [\s] and [[\s\S]], and the closing fence
    [\n```\s*$] as the parser reads it. *)
Definition reSpace : Regex.regex := Regex.Chars false [Regex.CSpace true].
Definition reAny : Regex.regex := Regex.Chars false [Regex.CSpace true; Regex.CSpace false].

Definition fenceClose : Regex.regex :=
  Regex.Seq (Regex.Lit "010")
    (Regex.Seq (Regex.Lit "`") (Regex.Seq (Regex.Lit "`") (Regex.Seq (Regex.Lit "`")
       (Regex.Seq (Regex.Star true reSpace) (Regex.Seq Regex.Eol Regex.Empty))))).

Definition fenceBody : Regex.regex :=
  Regex.Seq (Regex.Lit "010")
    (Regex.Seq (Regex.Group 1 (Regex.Seq (Regex.Star false reAny) Regex.Empty)) fenceClose).

(** The control with another label text. *)
Definition withLabel (label : string) (el : control) : control :=
  {| c_tagName := c_tagName el;
     c_type := c_type el;
     c_checked := c_checked el;
     c_value := c_value el;
     c_selectedText := c_selectedText el;
     c_max := c_max el;
     c_label := label;
     c_inIframe := c_inIframe el |}.









(* ===================================================================== *)
(** ** Sample data *)
(* ===================================================================== *)

Definition host0 : host :=
  {| h_loadings := [ {| l_frameId := Some "ember-frame-5-codeblock-17";
                        l_innerHTML := spinner "Ember JS preparing...";
                        l_color := EmptyString; l_display := EmptyString |} ];
     h_finals := [ {| c_frameId := "ember-frame-5-codeblock-17"; c_display := "none";
                      c_height := None; c_frame := None |} ];
     emberMaxHeights := ∅;
     processedCode := fun _ => true;
     healCalls := [];
     commands := [] |}.

Definition resizeReport (fid : string) (v : Z) : eventData :=
  {| type := "ember-resize"; ev_frameId := fid; message := EmptyString;
     height := v; ev_injection := None |}.

Definition successReport (fid : string) : eventData :=
  {| type := "ember-success"; ev_frameId := fid; message := EmptyString;
     height := 0; ev_injection := None |}.

Definition errorReport (fid text : string) : eventData :=
  {| type := "ember-error"; ev_frameId := fid; message := text;
     height := 0; ev_injection := None |}.

Definition sampleEnv (t : Z) : env :=
  {| now := t; fetch := fun url => Some ("/* " +:+ url +:+ " */") |}.

Definition sampleBlock (c t : string) : codeBlock :=
  {| className := c; innerText := t; emberProcessed := None; display := EmptyString |}.

(** Scenario B: a block asking for an unknown alias and for d3. *)
Definition scenarioB : codeBlock :=
  sampleBlock "language-javascript"
    ("---" +:+ eol +:+ "libs:" +:+ eol +:+ "  - nonexistent" +:+ eol +:+ "  - d3" +:+ eol
     +:+ "---" +:+ eol +:+ "root.appendChild(d3.create('svg').node());").

(** Two fenced blocks of one message, reached 50 ms apart, and the
    page after the classifier build went over them. *)
Definition twoPlainBlocks : Current.message :=
  {| Current.ready := true;
     Current.rawMessageContent := None;
     Current.rawScripts := [];
     Current.codeBlocks :=
       [ (sampleBlock "language-javascript" "root.textContent = 'one';",
          sampleEnv 1700000000000);
         (sampleBlock "language-javascript" "root.textContent = 'two';",
          sampleEnv 1700000000050) ] |}.

Definition host3 : host :=
  pageAfter (fst (Current.processMessage (fun _ => true) "http://localhost:8000" "5"
                    twoPlainBlocks)).

(** A failed run whose reply repeats the original code. *)
Definition healSame : Repair.healInput :=
  {| Repair.healButton := Some false;
     Repair.originalCode := "throw new Error('boom')";
     Repair.errorMessage := "Ember Execution Error: Error: boom";
     Repair.reply :=
       Repair.Response true 200
         (Repair.fence +:+ "javascript" +:+ eol +:+ "throw new Error('boom')" +:+ eol
          +:+ Repair.fence);
     Repair.mes :=
       Some (Repair.fence +:+ "javascript" +:+ eol +:+ "throw new Error('boom')" +:+ eol
             +:+ Repair.fence);
     Repair.processedPre := true;
     Repair.preTexts := [];
     Repair.msgEl := true |}.

(** Scenario D with a twist: the same block twice, once in a message
    whose code parses and once where it does not. *)
Definition sameBlockTwice : Current.message :=
  {| Current.ready := true;
     Current.rawMessageContent := None;
     Current.rawScripts := [];
     Current.codeBlocks :=
       [ (sampleBlock "language-javascript" "root.textContent = 'hi';", sampleEnv 1700000000000);
         (sampleBlock "language-javascript" "  root.textContent = 'hi';  ",
          sampleEnv 1700000000050) ] |}.

Definition brokenBlockTwice : Current.message :=
  {| Current.ready := true;
     Current.rawMessageContent := None;
     Current.rawScripts := [];
     Current.codeBlocks :=
       [ (sampleBlock "language-javascript" "root.textContent = ;", sampleEnv 1700000000000);
         (sampleBlock "language-javascript" "root.textContent = ;", sampleEnv 1700000000050) ] |}.

(** A stand-in for the parser behind [new Function]: it rejects the one
    broken text of the samples. *)
Definition sampleSyntaxOk (code : string) : bool :=
  negb (String.eqb code "root.textContent = ;").

(** Two user sources: one writes markup that holds a script element,
    one closes the function body it is spliced into. *)
Definition markupWriter : string :=
  "root.innerHTML = '<p>hi</p><script>render()</script>';".

Definition bodyCloser : string := "}; postSuccess(); (() => {".

(** Scenario A: one direct-script block without dependencies. *)
Definition scenarioA : Current.message :=
  {| Current.ready := true;
     Current.rawMessageContent := None;
     Current.rawScripts := [];
     Current.codeBlocks :=
       [ (sampleBlock "language-javascript"
            "const d=document.createElement('div');d.textContent='hi';root.appendChild(d);",
          sampleEnv 1700000000000) ] |}.

(** A failed run whose reply brings a new version of the code. *)
Definition healNew : Repair.healInput :=
  {| Repair.healButton := Some false;
     Repair.originalCode := "throw new Error('boom')";
     Repair.errorMessage := "Ember Execution Error: Error: boom";
     Repair.reply :=
       Repair.Response true 200
         (Repair.fence +:+ "javascript" +:+ eol +:+ "root.textContent = 'fixed';" +:+ eol
          +:+ Repair.fence);
     Repair.mes :=
       Some ("Look:" +:+ eol +:+ Repair.fence +:+ "javascript" +:+ eol
             +:+ "throw new Error('boom')" +:+ eol +:+ Repair.fence);
     Repair.processedPre := true;
     Repair.preTexts := [];
     Repair.msgEl := true |}.

(** A message whose raw text holds a script element that the rendered
    markup block shows again. *)
Definition scriptAndBlock : Current.message :=
  {| Current.ready := true;
     Current.rawMessageContent := Some "<div id='out'></div><script> draw(); </script>";
     Current.rawScripts :=
       [ ({| Current.s_innerHTML := " draw(); "; Current.s_src := None |},
          sampleEnv 1700000000000) ];
     Current.codeBlocks :=
       [ (sampleBlock "language-html" "<div id='out'></div><script> draw(); </script>",
          sampleEnv 1700000000040) ] |}.

(** A page with the containers of two contexts of two messages. *)
Definition host2 : host :=
  {| h_loadings := [ {| l_frameId := Some "ember-frame-5-1700000000000";
                        l_innerHTML := spinner "Ember JS preparing...";
                        l_color := EmptyString; l_display := EmptyString |};
                     {| l_frameId := Some "ember-frame-6-1700000000900";
                        l_innerHTML := spinner "Ember JS preparing...";
                        l_color := EmptyString; l_display := EmptyString |} ];
     h_finals := [ {| c_frameId := "ember-frame-5-1700000000000"; c_display := "none";
                      c_height := None; c_frame := None |};
                   {| c_frameId := "ember-frame-6-1700000000900"; c_display := "none";
                      c_height := None; c_frame := None |} ];
     emberMaxHeights := ∅;
     processedCode := fun _ => true;
     healCalls := [];
     commands := [] |}.

(** One fenced block with an empty frontmatter. *)
Definition oneBlock : list (codeBlock * env) :=
  [ (sampleBlock "language-javascript"
       ("---" +:+ eol +:+ "---" +:+ eol +:+ "root.textContent = 'one';"),
     sampleEnv 1700000000000) ].

(** The network with one bundle missing. *)
Definition envWithout (missing : string) (t : Z) : env :=
  {| now := t;
     fetch := fun url => if String.eqb url missing then None
                         else Some ("/* " +:+ url +:+ " */") |}.

(** Two blocks whose sources differ and whose fingerprints agree. *)
Definition collidingBlocks : list (codeBlock * env) :=
  [ (sampleBlock "language-javascript" "Aa();", sampleEnv 1700000000000);
    (sampleBlock "language-javascript" "BB();", sampleEnv 1700000000050) ].

(** A block of the first build whose code holds the separator. *)
Definition countdownBlock : codeBlock :=
  sampleBlock "language-javascript-live"
    ("let n = 3;" +:+ eol +:+ "root.textContent = n---1;").

(** Two messages, 1 and 12, with a recorded maximum each. *)
Definition samplePage : page :=
  {| messages :=
       [ {| mesid := "1"; m_loadings := []; m_finals := []; m_genericIframes := 0;
            m_runButtons := 0; m_pres := []; m_mesText := Some None; m_clickable := [] |};
         {| mesid := "12"; m_loadings := []; m_finals := []; m_genericIframes := 0;
            m_runButtons := 0; m_pres := []; m_mesText := Some None; m_clickable := [] |} ];
     maxHeights := {[ "ember-frame-1-1700000000000" := 215%Z;
                      "ember-frame-12-1700000000900" := 115%Z ]} |}.

(** A message as it is rendered, before any pass. *)
Definition freshMessage : mesElement :=
  {| mesid := "5"; m_loadings := []; m_finals := []; m_genericIframes := 0;
     m_runButtons := 0;
     m_pres := [ sampleBlock "language-javascript"
                   ("---" +:+ eol +:+ "---" +:+ eol +:+ "root.textContent = 'one';") ];
     m_mesText := Some None; m_clickable := [false] |}.

(** A reply of the repair service whose fix holds a dollar sign before
    a quote. *)
Definition healDollar : Repair.healInput :=
  {| Repair.healButton := Some false;
     Repair.originalCode := "throw new Error('boom')";
     Repair.errorMessage := "Ember Execution Error: Error: boom";
     Repair.reply :=
       Repair.Response true 200
         (Repair.fence +:+ "javascript" +:+ eol +:+ "root.textContent = '$' + 5;" +:+ eol
          +:+ Repair.fence);
     Repair.mes :=
       Some ("Look:" +:+ eol +:+ Repair.fence +:+ "javascript" +:+ eol
             +:+ "throw new Error('boom')" +:+ eol +:+ Repair.fence +:+ eol +:+ "Done.");
     Repair.processedPre := true;
     Repair.preTexts := [];
     Repair.msgEl := true |}.

(** A default prompt text, and a store left by an earlier session. *)
Definition samplePrompt : string := "Use the root element.".

Definition oldStore : gmap string Settings.value :=
  <["directHtmlProcessingMode" := Settings.VStr "responses"]>
  (<["clickableInputsPrompt" := Settings.VStr EmptyString]> ∅).

(** A slider and a text field without a label. *)
Definition volumeSlider : control :=
  {| c_tagName := "INPUT"; c_type := Some "range"; c_checked := false; c_value := "7";
     c_selectedText := None; c_max := Some "10"; c_label := "Volume"; c_inIframe := false |}.

Definition bareField : control :=
  {| c_tagName := "INPUT"; c_type := Some "text"; c_checked := false; c_value := "Mira";
     c_selectedText := None; c_max := None; c_label := EmptyString; c_inIframe := false |}.

(* ===================================================================== *)
(** ** Properties: message router *)
(* ===================================================================== *)

Lemma optLe_refl a : optLe a a.
Proof. destruct a; simpl; lia. Qed.

Lemma optLe_trans a b c : optLe a b -> optLe b c -> optLe a c.
Proof. destruct a, b, c; simpl; try tauto; lia. Qed.

Section UpdateFirst.
Context {A : Type}.
Variables (p q : A -> bool) (f : A -> A).

Lemma find_updateFirst_same (l : list A) :
  (forall x, p (f x) = p x) ->
  List.find p (updateFirst p f l) = f <$> List.find p l.
Proof.
  intros Hp. induction l as [|x t IH]; simpl; [reflexivity|].
  destruct (p x) eqn:E; simpl.
  - rewrite Hp, E. reflexivity.
  - rewrite E. exact IH.
Qed.

Lemma find_updateFirst_other (l : list A) :
  (forall x, p (f x) = p x) ->
  (forall x, q x = true -> p x = false) ->
  List.find p (updateFirst q f l) = List.find p l.
Proof.
  intros Hp Hq. induction l as [|x t IH]; simpl; [reflexivity|].
  destruct (q x) eqn:E; simpl.
  - rewrite Hp, (Hq x E). reflexivity.
  - destruct (p x); [reflexivity | exact IH].
Qed.

Lemma updateFirst_idem (l : list A) :
  (forall x, p (f x) = p x) ->
  (forall x, f (f x) = f x) ->
  updateFirst p f (updateFirst p f l) = updateFirst p f l.
Proof.
  intros Hp Hf. induction l as [|x t IH]; simpl; [reflexivity|].
  destruct (p x) eqn:E; simpl.
  - rewrite Hp, E, Hf. reflexivity.
  - rewrite E, IH. reflexivity.
Qed.

End UpdateFirst.

Lemma isFinal_other fid fid' c : fid <> fid' -> isFinal fid' c = true -> isFinal fid c = false.
Proof.
  unfold isFinal. intros Hne H. apply String.eqb_eq in H.
  apply String.eqb_neq. congruence.
Qed.

(** A display change keeps the height of every container. *)
Lemma heightOf_setFinalDisplay h fid fid' v :
  match List.find (isFinal fid)
          (updateFirst (isFinal fid') (setFinalDisplay v) (h_finals h)) with
  | Some c => c_height c
  | None => None
  end = heightOf h fid.
Proof.
  unfold heightOf. destruct (String.eqb_spec fid fid') as [->|Hne].
  - rewrite find_updateFirst_same by reflexivity.
    destruct (List.find _ _); reflexivity.
  - rewrite (find_updateFirst_other (isFinal fid) (isFinal fid')); [reflexivity | reflexivity |].
    intros x. apply isFinal_other. exact Hne.
Qed.

Section RouterProperties.

Variable cap : option Z.

Lemma onMessage_height (fid : string) (h : host) (d : eventData) :
  heightInv cap fid h ->
  heightInv cap fid (onMessage cap h d)
  /\ optLe (heightOf h fid) (heightOf (onMessage cap h d) fid).
Proof.
  intros [Hinv Hb]. unfold onMessage.
  destruct (negb _); [split; [split; assumption | apply optLe_refl]|].
  destruct (String.eqb (type d) "ember-error").
  { destruct (List.find (isLoading _) _); [|split; [split; assumption | apply optLe_refl]].
    unfold heightInv, heightOf at 1 2 4; simpl.
    rewrite !heightOf_setFinalDisplay.
    split; [split; assumption | apply optLe_refl]. }
  destruct (String.eqb (type d) "ember-success").
  { unfold heightInv, heightOf at 1 2 4; simpl.
    rewrite !heightOf_setFinalDisplay.
    split; [split; assumption | apply optLe_refl]. }
  destruct (String.eqb (type d) "ember-resize").
  { destruct (List.find (isFinal (ev_frameId d)) (h_finals h)) as [c0|] eqn:Ef;
      [|split; [split; assumption | apply optLe_refl]].
    destruct (height d <=? 0)%Z eqn:Eh; [split; [split; assumption | apply optLe_refl]|].
    apply Z.leb_gt in Eh.
    set (nh := match cap with
               | Some c => if (c <? height d + 15)%Z then c else (height d + 15)%Z
               | None => (height d + 15)%Z
               end).
    destruct (_ <? nh)%Z eqn:Elt; [|split; [split; assumption | apply optLe_refl]].
    apply Z.ltb_lt in Elt.
    unfold heightInv, heightOf at 1 2 4; simpl.
    destruct (String.eqb_spec fid (ev_frameId d)) as [->|Hne].
    - rewrite find_updateFirst_same by reflexivity.
      rewrite Ef. simpl. rewrite lookup_insert_eq.
      split; [split; [reflexivity|]|].
      + intros v [= <-]. unfold capped, nh. destruct cap as [c|]; [|exact I].
        destruct (c <? height d + 15)%Z eqn:E; [lia|]. apply Z.ltb_ge in E. lia.
      + unfold heightOf. rewrite Ef.
        unfold heightOf in Hinv. rewrite Ef in Hinv.
        destruct (c_height c0) as [v0|]; simpl; [|exact I].
        rewrite <- Hinv in Elt. simpl in Elt. lia.
    - rewrite (find_updateFirst_other (isFinal fid) (isFinal (ev_frameId d)));
        [| reflexivity | intros x; apply isFinal_other; exact Hne].
      rewrite lookup_insert_ne by congruence.
      split; [split; assumption | apply optLe_refl]. }
  destruct (String.eqb (type d) "ember-inject-js").
  { destruct (ev_injection d); split; try (split; assumption); apply optLe_refl. }
  split; [split; assumption | apply optLe_refl].
Qed.

Lemma deliver_app (h : host) (ds1 ds2 : list eventData) :
  deliver cap h (ds1 ++ ds2) = deliver cap (deliver cap h ds1) ds2.
Proof. unfold deliver. apply fold_left_app. Qed.

Lemma deliver_height (fid : string) (ds : list eventData) :
  forall h, heightInv cap fid h ->
  heightInv cap fid (deliver cap h ds)
  /\ optLe (heightOf h fid) (heightOf (deliver cap h ds) fid).
Proof.
  induction ds as [|d ds IH]; intros h Hinv.
  - split; [exact Hinv | apply optLe_refl].
  - destruct (onMessage_height fid h d Hinv) as [H1 H2].
    destruct (IH _ H1) as [H3 H4]. split; [exact H3|].
    eapply optLe_trans; [exact H2 | exact H4].
Qed.

End RouterProperties.

(** X29.  Resize reports with integer heights, on a page whose
    frames have plain identifiers.  Over any sequence of such reports
    the height applied to the container of a context that starts
    without a height never decreases; a report that does not exceed the
    recorded maximum leaves the host unchanged; and in a build with a
    ceiling (600 in the classifier build) the height never exceeds
    it. *)
Theorem resize_height_monotone_capped (cap : option Z) (h : host) (fid : string)
  (ds1 ds2 : list eventData) :
  plainId fid = true ->
  Forall (fun d => plainId (ev_frameId d) = true) (ds1 ++ ds2) ->
  emberMaxHeights h !! fid = None ->
  heightOf h fid = None ->
  optLe (heightOf (deliver cap h ds1) fid) (heightOf (deliver cap h (ds1 ++ ds2)) fid)
  /\ (forall c v, cap = Some c -> heightOf (deliver cap h ds1) fid = Some v -> (v <= c)%Z)
  /\ (forall d, type d = "ember-resize" -> ev_frameId d = fid ->
        (height d + 15 <= default 0 (emberMaxHeights (deliver cap h ds1) !! fid))%Z ->
        onMessage cap (deliver cap h ds1) d = deliver cap h ds1).
Proof.
  intros _ _ Hmax Hh.
  assert (Hinv : heightInv cap fid h).
  { split; [congruence | intros v Hv; congruence]. }
  destruct (deliver_height cap fid ds1 h Hinv) as [Hinv1 _].
  destruct (deliver_height cap fid ds2 _ Hinv1) as [_ Hle].
  rewrite deliver_app. split; [exact Hle|]. split.
  - intros c v -> Hv. destruct Hinv1 as [_ Hb]. exact (Hb v Hv).
  - intros d Ht Hf Hsmall. unfold onMessage. rewrite Ht. simpl.
    destruct (List.find _ _); [|reflexivity].
    destruct (height d <=? 0)%Z eqn:Eh; [reflexivity|]. apply Z.leb_gt in Eh.
    rewrite Hf.
    match goal with |- (if ?b then _ else _) = _ => destruct b eqn:E end; [|reflexivity].
    apply Z.ltb_lt in E. destruct cap as [c|].
    + destruct (c <? height d + 15)%Z eqn:Ec; [|lia].
      apply Z.ltb_lt in Ec. lia.
    + lia.
Qed.

Lemma resize_height_monotone_capped_witness :
  let fid := "ember-frame-5-codeblock-17" in
  let ds1 := [resizeReport fid 100; resizeReport fid 50] in
  let ds2 := [resizeReport fid 1000] in
  optLe (heightOf (deliver (Some 600%Z) host0 ds1) fid)
        (heightOf (deliver (Some 600%Z) host0 (ds1 ++ ds2)) fid)
  /\ (forall c v, Some 600%Z = Some c ->
        heightOf (deliver (Some 600%Z) host0 ds1) fid = Some v -> (v <= c)%Z)
  /\ (forall d, type d = "ember-resize" -> ev_frameId d = fid ->
        (height d + 15
         <= default 0 (emberMaxHeights (deliver (Some 600%Z) host0 ds1) !! fid))%Z ->
        onMessage (Some 600%Z) (deliver (Some 600%Z) host0 ds1) d
        = deliver (Some 600%Z) host0 ds1).
Proof.
  intros fid ds1 ds2.
  apply (resize_height_monotone_capped (Some 600%Z) host0 fid ds1 ds2).
  - reflexivity.
  - repeat constructor.
  - reflexivity.
  - reflexivity.
Defined.

(** C8 (as amended).  A report that repeats the one just handled, for a
    frame with a plain identifier, the page being as the first report
    left it.  A second success leaves the page and everything else the
    listener keeps as it is; so does a second error with the same
    text, when its first line opens no tag and it starts no repair.  A
    second execution error of a message that has a processed code
    element leaves the containers as they are and calls
    [attemptSelfHeal] once more. *)
Theorem repeated_report_keeps_ui (cap : option Z) (h : host) (d : eventData) :
  plainId (ev_frameId d) = true ->
  (type d = "ember-success" ->
     onMessage cap (onMessage cap h d) d = onMessage cap h d)
  /\ (type d = "ember-error" ->
      markupFree (firstLine (message d)) = true ->
      (repairs h d = false ->
         onMessage cap (onMessage cap h d) d = onMessage cap h d)
      /\ (repairs h d = true ->
          List.find (isLoading (ev_frameId d)) (h_loadings h) <> None ->
          ui (onMessage cap (onMessage cap h d) d) = ui (onMessage cap h d)
          /\ healCalls (onMessage cap (onMessage cap h d) d)
             = (healCalls (onMessage cap h d) ++ [(owner (ev_frameId d), message d)])%list)).
Proof.
  intros _. split.
  - intros Ht. unfold onMessage. rewrite !Ht. simpl.
    rewrite !updateFirst_idem; reflexivity.
  - intros Ht _. unfold repairs, owner. unfold onMessage. rewrite !Ht.
    remember (JS.split (ev_frameId d) "-") as parts eqn:Hparts. clear Hparts.
    remember (JS.split (message d) eol) as lines eqn:Hlines. clear Hlines.
    split.
    + intros Hr. simpl.
      destruct (List.find (isLoading (ev_frameId d)) (h_loadings h)) as [l0|] eqn:E.
      * simpl. rewrite find_updateFirst_same by reflexivity. rewrite E. simpl.
        rewrite Hr. rewrite !updateFirst_idem; reflexivity.
      * rewrite E. reflexivity.
    + intros Hr Hl. simpl.
      destruct (List.find (isLoading (ev_frameId d)) (h_loadings h)) as [l0|] eqn:E;
        [|contradiction].
      simpl. rewrite find_updateFirst_same by reflexivity. rewrite E. simpl.
      rewrite Hr. unfold ui; simpl.
      rewrite !updateFirst_idem; split; reflexivity.
Qed.

Lemma repeated_report_keeps_ui_witness :
  let d := errorReport "ember-frame-5-codeblock-17" "Ember Execution Error: boom" in
  let s := successReport "ember-frame-5-codeblock-17" in
  onMessage (Some 600%Z) (onMessage (Some 600%Z) host0 s) s = onMessage (Some 600%Z) host0 s
  /\ ui (onMessage (Some 600%Z) (onMessage (Some 600%Z) host0 d) d)
     = ui (onMessage (Some 600%Z) host0 d)
  /\ healCalls (onMessage (Some 600%Z) (onMessage (Some 600%Z) host0 d) d)
     = [("5", "Ember Execution Error: boom"); ("5", "Ember Execution Error: boom")].
Proof.
  intros d s. split.
  - apply (proj1 (repeated_report_keeps_ui (Some 600%Z) host0 s eq_refl)). reflexivity.
  - apply (proj2 (repeated_report_keeps_ui (Some 600%Z) host0 d eq_refl)).
    + reflexivity.
    + reflexivity.
    + reflexivity.
    + vm_compute. intros H. discriminate H.
Defined.

(** C8, the claim as stated fails in the listener of the classifier
    build: an error report that arrives after the success of the same
    context was handled replaces the displayed state, and so does a
    success after an error. *)
Lemma later_report_changes_ui :
  let fid := "ember-frame-5-codeblock-17" in
  let ok := successReport fid in
  let ko := errorReport fid "Ember Execution Error: boom" in
  ui (Current.onMessage (Current.onMessage host0 ok) ko) <> ui (Current.onMessage host0 ok)
  /\ ui (Current.onMessage (Current.onMessage host0 ko) ok) <> ui (Current.onMessage host0 ko).
Proof. repeat split; vm_compute; intros H; discriminate H. Qed.

(* ===================================================================== *)
(** ** Properties: content classifier *)
(* ===================================================================== *)

(** C9, evaluated where it fails.  The test for the script language
    by class name ends with [className.includes('js')], which every
    class that holds these two letters passes, whatever the content.  A
    fence tagged [json] names neither the script language nor a markup
    or style language, and the array in it shows none of the seven
    signals; the classifier reports it as JavaScript by its class, and
    the pass runs it in a context. *)
Theorem json_fence_runs_without_signals :
  (forall className codeContent,
     JS.includes className "js" = true ->
     Current.isJavaScript (Current.detectJavaScriptContent className codeContent) = true)
  /\ (let d := Current.detectJavaScriptContent "language-json" "[1, 2, 3]" in
      JS.includes "language-json" "javascript" = false
      /\ JS.includes "language-json" "lang-js" = false
      /\ Current.signals "[1, 2, 3]" = [false; false; false; false; false; false; false]
      /\ Current.contentBasedScore d = 0%nat
      /\ Current.isContentBasedJavaScript d = false
      /\ Current.isDirectJavaScript d = true
      /\ Current.isJavaScript d = true)
  /\ map userCode
       (created (fst (Current.processMessage (fun _ => true) "http://localhost:8000" "5"
                        {| Current.ready := true; Current.rawMessageContent := None;
                           Current.rawScripts := [];
                           Current.codeBlocks :=
                             [ (sampleBlock "language-json" "[1, 2, 3]",
                                sampleEnv 1700000000000) ] |})))
     = ["[1, 2, 3]"].
Proof.
  split.
  - intros className codeContent H. unfold Current.detectJavaScriptContent.
    cbn [Current.isJavaScript]. rewrite H, !orb_true_r. reflexivity.
  - vm_compute. repeat split.
Qed.

(* ===================================================================== *)
(** ** Properties: repair loop *)
(* ===================================================================== *)

Lemma truthy_true (s : string) : truthy s = true <-> s <> EmptyString.
Proof.
  unfold truthy. rewrite negb_true_iff. apply String.eqb_neq.
Qed.

(** The guard of the repair: it holds exactly for a non-empty fix that
    differs from the original under trimmed comparison. *)
Lemma fix_guard (correctedCode originalCode : string) :
  truthy correctedCode
  && negb (String.eqb (JS.trim correctedCode) (JS.trim originalCode)) = true
  <-> correctedCode <> EmptyString /\ JS.trim correctedCode <> JS.trim originalCode.
Proof.
  rewrite andb_true_iff, truthy_true, negb_true_iff, String.eqb_neq. tauto.
Qed.

(** C4.  When the fix parsed from the reply is empty or equals the
    original code after trimming, the persisted source of the message
    is left as it was and no re-render is triggered; and the source
    changes only if the reply was received and its fix is non-empty and
    differs from the original under trimmed comparison. *)
Theorem heal_mutates_only_on_new_fix (messageId : string) (w : Repair.healInput) :
  (forall status text,
      Repair.reply w = Repair.Response true status text ->
      Repair.parseFix text = EmptyString
      \/ JS.trim (Repair.parseFix text) = JS.trim (Repair.originalCode w) ->
      Repair.newMes (Repair.attemptSelfHeal messageId w) = Repair.mes w
      /\ forall m, ~ In (Repair.Rerender m)
                     (Repair.effects (Repair.attemptSelfHeal messageId w)))
  /\ (Repair.newMes (Repair.attemptSelfHeal messageId w) <> Repair.mes w ->
      exists status text,
        Repair.reply w = Repair.Response true status text
        /\ Repair.parseFix text <> EmptyString
        /\ JS.trim (Repair.parseFix text) <> JS.trim (Repair.originalCode w)).
Proof.
  split.
  - intros status text Hr Hfix.
    assert (Hg : truthy (Repair.parseFix text)
                 && negb (String.eqb (JS.trim (Repair.parseFix text))
                            (JS.trim (Repair.originalCode w))) = false).
    { apply not_true_is_false. rewrite fix_guard. tauto. }
    unfold Repair.attemptSelfHeal, Repair.tryHeal.
    destruct (Repair.healButton w) as [[|]|]; simpl;
      [split; [reflexivity | intros m []] | |];
      rewrite Hr; cbn [negb]; rewrite Hg; simpl;
      (split; [reflexivity | intros m [H|[]]; discriminate H]).
  - intros Hchg. unfold Repair.attemptSelfHeal in Hchg.
    destruct (Repair.reply w) as [|ok status text] eqn:Hr.
    { exfalso. apply Hchg. unfold Repair.tryHeal. rewrite Hr.
      destruct (Repair.healButton w) as [[|]|]; reflexivity. }
    destruct ok.
    2:{ exfalso. apply Hchg. unfold Repair.tryHeal. rewrite Hr.
        destruct (Repair.healButton w) as [[|]|]; reflexivity. }
    exists status, text. split; [reflexivity|].
    apply fix_guard.
    destruct (truthy (Repair.parseFix text)
              && negb (String.eqb (JS.trim (Repair.parseFix text))
                         (JS.trim (Repair.originalCode w)))) eqn:Hg; [reflexivity|].
    exfalso. apply Hchg. unfold Repair.tryHeal. rewrite Hr. cbn [negb]. rewrite Hg.
    destruct (Repair.healButton w) as [[|]|]; reflexivity.
Qed.

Lemma heal_mutates_only_on_new_fix_witness :
  Repair.newMes (Repair.attemptSelfHeal "5" healSame) = Repair.mes healSame
  /\ forall m, ~ In (Repair.Rerender m)
                 (Repair.effects (Repair.attemptSelfHeal "5" healSame)).
Proof.
  apply (proj1 (heal_mutates_only_on_new_fix "5" healSame) 200%Z
           (Repair.fence +:+ "javascript" +:+ eol +:+ "throw new Error('boom')" +:+ eol
            +:+ Repair.fence)).
  - reflexivity.
  - right. reflexivity.
Defined.

(* ===================================================================== *)
(** ** Properties: dependency resolver *)
(* ===================================================================== *)

Lemma omap_findLibrary_known (l : list string) :
  omap findLibrary (knownAliases l) = omap findLibrary l.
Proof.
  induction l as [|a l IH]; [reflexivity|].
  unfold knownAliases in *. cbn [List.filter]. unfold isKnown at 1.
  destruct (findLibrary a) eqn:E; cbn [omap list_omap]; rewrite ?E;
    fold (omap findLibrary (List.filter isKnown l)); fold (omap findLibrary l);
    rewrite IH; reflexivity.
Qed.

Lemma libUrls_known (origin : string) (l : list string) :
  Main.libUrls origin (knownAliases l) = Main.libUrls origin l.
Proof. unfold Main.libUrls. rewrite omap_findLibrary_known. reflexivity. Qed.

Lemma approve_spec (origin : string) (l : list string) :
  Legacy.approve origin l
  = (map (libUrl origin) (omap findLibrary l), map UnknownLibraryWarning (unknownAliases l)).
Proof.
  induction l as [|a l IH]; [reflexivity|].
  cbn [Legacy.approve]. rewrite IH. unfold unknownAliases.
  cbn [List.filter omap list_omap].
  assert (Hk : isKnown a = match findLibrary a with Some _ => true | None => false end)
    by reflexivity.
  rewrite Hk. destruct (findLibrary a); reflexivity.
Qed.

Lemma known_length (l : list string) :
  List.length (omap findLibrary l) = List.length (knownAliases l).
Proof.
  unfold knownAliases.
  induction l as [|a l IH]; [reflexivity|].
  cbn [List.filter omap list_omap]. unfold isKnown at 1.
  fold (omap findLibrary l).
  destruct (findLibrary a); cbn [List.length]; rewrite IH; reflexivity.
Qed.

Lemma unknown_of_known (l : list string) : unknownAliases (knownAliases l) = [].
Proof.
  unfold unknownAliases, knownAliases.
  induction l as [|a l IH]; [reflexivity|].
  cbn [List.filter]. destruct (isKnown a) eqn:E; [|exact IH].
  cbn [List.filter]. rewrite E. exact IH.
Qed.

(** X30.  The resolver of the first build drops the aliases the
    registry does not know, with one warning for each, and resolves
    every known alias, in order: the approved URLs are those of the
    request without its unknown aliases, one for each known alias, and
    that request raises no warning.  When the bundles of the known
    aliases load, the context is created with their texts, the unknown
    aliases notwithstanding. *)
Theorem legacy_resolver_drops_unknown (origin : string) (requestedLibs : list string) :
  fst (Legacy.approve origin requestedLibs)
  = fst (Legacy.approve origin (knownAliases requestedLibs))
  /\ snd (Legacy.approve origin (knownAliases requestedLibs)) = []
  /\ List.length (fst (Legacy.approve origin requestedLibs))
     = List.length (knownAliases requestedLibs)
  /\ snd (Legacy.approve origin requestedLibs)
     = map UnknownLibraryWarning (unknownAliases requestedLibs)
  /\ (forall st b e code fid texts,
        fetchAll e (fst (Legacy.approve origin (knownAliases requestedLibs))) = Some texts ->
        created (fst (Legacy.buildSandbox origin st b e requestedLibs code fid))
        = (created st ++ [Legacy.createSandboxedFrame code texts fid])%list
        /\ console (fst (Legacy.buildSandbox origin st b e requestedLibs code fid))
           = (console st ++ map UnknownLibraryWarning (unknownAliases requestedLibs))%list).
Proof.
  rewrite !approve_spec. cbn [fst snd]. rewrite omap_findLibrary_known.
  split; [reflexivity|].
  split; [rewrite unknown_of_known; reflexivity|].
  split; [rewrite length_map; apply known_length|].
  split; [reflexivity|].
  intros st b e code fid texts Hf.
  unfold Legacy.buildSandbox.
  rewrite approve_spec, Hf. simpl.
  assert (Hc : forall ws s, created (fold_left (fun s w => logError w s) ws s) = created s).
  { induction ws as [|x ws IH]; intros s0; simpl; [reflexivity | rewrite IH; reflexivity]. }
  assert (Hl : forall ws s, console (fold_left (fun s w => logError w s) ws s)
                            = (console s ++ ws)%list).
  { induction ws as [|x ws IH]; intros s0; simpl;
      [rewrite app_nil_r; reflexivity | rewrite IH; simpl; rewrite <- app_assoc; reflexivity]. }
  rewrite Hc, Hl. split; reflexivity.
Qed.

Lemma main_round_creates_nothing (origin messageId : string) (st : pass) (b : codeBlock)
  (e : env) :
  created (fst (Main.processCodeBlock origin messageId st b e)) = created st
  /\ loadings (fst (Main.processCodeBlock origin messageId st b e)) = loadings st
  /\ finals (fst (Main.processCodeBlock origin messageId st b e)) = finals st
  /\ console (fst (Main.processCodeBlock origin messageId st b e)) = console st.
Proof.
  unfold Main.processCodeBlock, Main.codeBlockRound.
  destruct (negb _); [auto|].
  destruct (bool_decide _); [auto|].
  destruct (Regex.exec _ _ _); [|auto].
  destruct (negb _); [auto|].
  change (assignable [className_; innerHTML_; dataset_]) with false.
  cbn [andb]. auto.
Qed.

(** C6, evaluated where it fails.  In main.js no round of the block
    loop resolves an alias: whatever the block, the round creates no
    context and no container and logs nothing.  On scenario B, which
    asks for an unknown alias and for d3, the round ends in the
    exception of line 612, before the resolver of line 618: the block
    stays visible with the mark ['true'], and the block after it is
    not visited.  The first build, on the same request, warns about the
    unknown alias and builds the context with d3. *)
Theorem main_stops_before_the_resolver :
  (forall origin messageId st b e,
     created (fst (Main.processCodeBlock origin messageId st b e)) = created st
     /\ loadings (fst (Main.processCodeBlock origin messageId st b e)) = loadings st
     /\ console (fst (Main.processCodeBlock origin messageId st b e)) = console st)
  /\ (let blocks := (scenarioB, sampleEnv 1700000000000) :: oneBlock in
      Main.raises "http://localhost:8000" "5" startPass blocks = true
      /\ fst (Main.processMessage "http://localhost:8000" "5" true blocks)
         = setProcessedByEmberJs startPass
      /\ snd (Main.processMessage "http://localhost:8000" "5" true blocks)
         = setProcessed "true" scenarioB :: map fst oneBlock)
  /\ (let run := Legacy.buildSandbox "http://localhost:8000" startPass scenarioB
                   (sampleEnv 1700000000000) ["nonexistent"; "d3"]
                   "root.appendChild(d3.create('svg').node());" "ember-frame-5-1700000000000" in
      map libraryCodes (created (fst run))
      = [[ "/* http://localhost:8000/scripts/extensions/third-party/Ember/lib/d3.v7.min.js */" ]]
      /\ console (fst run) = [UnknownLibraryWarning "nonexistent"]).
Proof.
  split.
  - intros origin messageId st b e.
    destruct (main_round_creates_nothing origin messageId st b e) as (H1 & H2 & _ & H4).
    auto.
  - vm_compute. repeat split.
Qed.

(* ===================================================================== *)
(** ** Properties: one processing pass of the classifier build *)
(* ===================================================================== *)

Lemma trimEnd_idem (s : string) : JS.trimEnd (JS.trimEnd s) = JS.trimEnd s.
Proof.
  induction s as [|c t IH]; [reflexivity|].
  cbn [JS.trimEnd]. destruct (JS.trimEnd t) as [|c' t'] eqn:E.
  - destruct (JS.isWhiteSpace c) eqn:W; [reflexivity|].
    cbn [JS.trimEnd]. rewrite W. reflexivity.
  - cbn [JS.trimEnd]. cbn [JS.trimEnd] in IH. rewrite IH. reflexivity.
Qed.

Lemma trimEnd_head (c : ascii) (t : string) :
  JS.isWhiteSpace c = false -> exists t', JS.trimEnd (String c t) = String c t'.
Proof.
  intros W. cbn [JS.trimEnd]. rewrite W.
  destruct (JS.trimEnd t); eexists; reflexivity.
Qed.

Lemma trimStart_head (s : string) :
  JS.trimStart s = EmptyString
  \/ exists c t, JS.trimStart s = String c t /\ JS.isWhiteSpace c = false.
Proof.
  induction s as [|c t IH]; [left; reflexivity|].
  cbn [JS.trimStart]. destruct (JS.isWhiteSpace c) eqn:W; [exact IH|].
  right. exists c, t. split; [reflexivity | exact W].
Qed.

(** [trim] is idempotent: a trimmed text is its own normal form. *)
Lemma trim_idem (s : string) : JS.trim (JS.trim s) = JS.trim s.
Proof.
  unfold JS.trim. destruct (trimStart_head s) as [E|(c & t & E & W)]; rewrite E.
  - reflexivity.
  - destruct (trimEnd_head c t W) as [t' E']. rewrite E'.
    cbn [JS.trimStart]. rewrite W. rewrite <- E'. apply trimEnd_idem.
Qed.

Lemma lookup_map {A B} (f : A -> B) (l : list A) (j : nat) :
  map f l !! j = f <$> l !! j.
Proof.
  revert j. induction l as [|x l IH]; intros [|j]; simpl; auto.
Qed.

Lemma hideAfterScripts_same (b : codeBlock) :
  blockKey (Current.hideAfterScripts b) = blockKey b
  /\ (reachesLedger b = true -> reachesLedger (Current.hideAfterScripts b) = true).
Proof.
  unfold Current.hideAfterScripts.
  destruct (_ && _); [|split; [reflexivity | tauto]].
  split; [reflexivity|]. unfold reachesLedger. cbn [className innerText emberProcessed
    setProcessed setDisplay].
  intros H. apply andb_true_iff in H as [H H3]. apply andb_true_iff in H as [H1 _].
  rewrite H1, H3. reflexivity.
Qed.

Section PassProperties.

Variable syntaxOk : string -> bool.
Variable origin : string.
Variable messageId : string.

Local Abbreviation processCodeBlock := (Current.processCodeBlock syntaxOk origin messageId).
Local Abbreviation processCodeBlocks := (Current.processCodeBlocks syntaxOk origin messageId).
Local Abbreviation processScript := (Current.processScript syntaxOk origin messageId).
Local Abbreviation processScripts := (Current.processScripts syntaxOk origin messageId).

(** What a round of the code-block loop does to a block that does not
    reach the ledger: nothing is created and the ledger is kept. *)
Lemma block_not_reaching (st : pass) (b : codeBlock) (e : env) :
  reachesLedger b = false ->
  created (fst (processCodeBlock st b e)) = created st
  /\ processedScriptHashes (fst (processCodeBlock st b e)) = processedScriptHashes st
  /\ console (fst (processCodeBlock st b e)) = console st.
Proof.
  unfold reachesLedger, Current.processCodeBlock. intros H.
  destruct (Current.isJavaScript _); cbn [negb andb] in *; [|auto].
  destruct (bool_decide (emberProcessed b = Some "true")); cbn [negb andb] in *; [auto|].
  rewrite H. cbn [negb]. auto.
Qed.

(** A block whose fingerprint the ledger holds is hidden as a duplicate,
    and the pass state is returned as it was. *)
Lemma block_duplicate (st : pass) (b : codeBlock) (e : env) :
  reachesLedger b = true ->
  blockKey b ∈ processedScriptHashes st ->
  processCodeBlock st b e = (st, setDisplay "none" (setProcessed "duplicate" b)).
Proof.
  unfold reachesLedger, Current.processCodeBlock. intros H Hin.
  apply andb_true_iff in H as [H H3]. apply andb_true_iff in H as [H1 H2].
  rewrite H1, H3. apply negb_true_iff in H2. rewrite H2. cbn [negb].
  fold (blockCode b). fold (normalizedSource b). fold (blockKey b).
  destruct (decide (blockKey b ∈ processedScriptHashes st)); [reflexivity | contradiction].
Qed.

(** A block with a new fingerprint: the fingerprint enters the ledger;
    then the syntax check decides, then the libraries. *)
Lemma block_fresh (st : pass) (b : codeBlock) (e : env) :
  reachesLedger b = true ->
  blockKey b ∉ processedScriptHashes st ->
  processCodeBlock st b e =
  let st1 := addHash (blockKey b) st in
  if negb (syntaxOk (blockCode b))
  then (logError (JavaScriptSyntaxError (blockCode b)) st1, setProcessed "syntax-error" b)
  else
    let fid := "ember-frame-" +:+ messageId +:+ "-codeblock-" +:+ JS.toString (now e) in
    match fetchAll e (Current.libUrls origin Current.requestedLibs) with
    | Some libCodes =>
        (addFrame (Current.createSandboxedFrame (blockCode b) libCodes fid)
           (addLoading {| l_frameId := Some fid;
                          l_innerHTML := spinner "Ember JS preparing...";
                          l_color := EmptyString; l_display := EmptyString |}
              (setProcessedByEmberJs st1)),
         setDisplay "none" (setProcessed "true" b))
    | None =>
        (addLoading {| l_frameId := Some fid;
                       l_innerHTML :=
                         errorBanner "Could not create sandbox or load libraries. Check console.";
                       l_color := "var(--text-color-error)"; l_display := EmptyString |}
           (logError SandboxError (setProcessedByEmberJs st1)),
         setProcessed "false" (setProcessed "true" b))
    end.
Proof.
  unfold reachesLedger, Current.processCodeBlock. intros H Hin.
  apply andb_true_iff in H as [H H3]. apply andb_true_iff in H as [H1 H2].
  rewrite H1, H3. apply negb_true_iff in H2. rewrite H2. cbn [negb].
  fold (blockCode b). fold (normalizedSource b). fold (blockKey b).
  destruct (decide (blockKey b ∈ processedScriptHashes st)); [contradiction | reflexivity].
Qed.

(** The three ways a round of the script loop can go. *)
Lemma script_skipped (st : pass) (sc : Current.script) (e : env) :
  scriptKey sc ∈ processedScriptHashes st \/ inlineScript sc = false ->
  processScript st sc e = (st, false).
Proof.
  unfold Current.processScript, inlineScript. fold (scriptKey sc). intros H.
  destruct (decide (scriptKey sc ∈ processedScriptHashes st)); [reflexivity|].
  destruct H as [H|H]; [contradiction|].
  rewrite trim_idem.
  destruct (from_option truthy false (Current.s_src sc)); cbn [negb andb] in *.
  - rewrite andb_false_r. reflexivity.
  - rewrite H. reflexivity.
Qed.

Lemma script_fresh (st : pass) (sc : Current.script) (e : env) :
  inlineScript sc = true ->
  scriptKey sc ∉ processedScriptHashes st ->
  processScript st sc e =
  let code := JS.trim (Current.s_innerHTML sc) in
  let st1 := addHash (scriptKey sc) st in
  if negb (syntaxOk code) then (logError (ScriptSyntaxError code) st1, false)
  else
    let fid := "ember-frame-" +:+ messageId +:+ "-script-" +:+ JS.toString (now e) in
    match fetchAll e (Current.libUrls origin Current.requestedLibs) with
    | Some libCodes =>
        (addFrame (Current.createSandboxedFrame code libCodes fid)
           (addLoading {| l_frameId := Some fid;
                          l_innerHTML := spinner "Ember JS preparing script...";
                          l_color := EmptyString; l_display := EmptyString |} st1), true)
    | None =>
        (addLoading {| l_frameId := None;
                       l_innerHTML :=
                         errorBanner "Could not create sandbox for script. Check console.";
                       l_color := "var(--text-color-error)"; l_display := EmptyString |}
           (logError ScriptSandboxError st1), false)
    end.
Proof.
  unfold Current.processScript, inlineScript. fold (scriptKey sc). intros H Hin.
  apply andb_true_iff in H as [H1 H2]. apply negb_true_iff in H1.
  destruct (decide (scriptKey sc ∈ processedScriptHashes st)); [contradiction|].
  rewrite trim_idem, H1, H2. reflexivity.
Qed.

(** Case analysis on a round of either loop. *)
Ltac block_cases st b e :=
  destruct (reachesLedger b) eqn:?Hreach;
  [ destruct (decide (blockKey b ∈ processedScriptHashes st)) as [?Hin|?Hin];
    [ rewrite (block_duplicate st b e) by assumption
    | rewrite (block_fresh st b e) by assumption; cbv zeta;
      destruct (syntaxOk (blockCode b)) eqn:?Hok; cbn [negb];
      [ destruct (fetchAll e (Current.libUrls origin Current.requestedLibs)) eqn:?Hfetch | ] ]
  | destruct (block_not_reaching st b e ltac:(assumption)) as (?Hc & ?Hl & ?Hk) ].

Ltac script_cases st sc e :=
  destruct (inlineScript sc) eqn:?Hinline;
  [ destruct (decide (scriptKey sc ∈ processedScriptHashes st)) as [?Hin|?Hin];
    [ rewrite (script_skipped st sc e) by (left; assumption)
    | rewrite (script_fresh st sc e) by assumption; cbv zeta;
      destruct (syntaxOk (JS.trim (Current.s_innerHTML sc))) eqn:?Hok; cbn [negb];
      [ destruct (fetchAll e (Current.libUrls origin Current.requestedLibs)) eqn:?Hfetch | ] ]
  | rewrite (script_skipped st sc e) by (right; assumption) ].

Lemma ledgerInv_new_frame (st : pass) (f : frame) (l : loadingContainer) (k : string) :
  ledgerInv st ->
  frameKey f = k ->
  k ∉ processedScriptHashes st ->
  ledgerInv (addFrame f (addLoading l (addHash k st)))
  /\ ledgerInv (addFrame f (addLoading l (setProcessedByEmberJs (addHash k st)))).
Proof.
  intros [Hnd Hall] Hk Hfresh.
  assert (Hnot : ~ In (frameKey f) (map frameKey (created st))).
  { intros Hi. apply in_map_iff in Hi as (g & Hg & Hgin).
    apply Hfresh. rewrite <- Hk, <- Hg. apply Hall, Hgin. }
  assert (Hnd' : NoDup (map frameKey (created st ++ [f]))).
  { rewrite map_app. apply NoDup_app. split; [exact Hnd|]. split.
    - intros x Hx Hx'. apply list_elem_of_In in Hx. simpl in Hx'.
      apply list_elem_of_singleton in Hx'. subst x. exact (Hnot Hx).
    - simpl. apply NoDup_singleton. }
  assert (Hall' : forall g, In g (created st ++ [f]) ->
                            frameKey g ∈ ({[k]} ∪ processedScriptHashes st : gset string)).
  { intros g Hg. apply in_app_or in Hg as [Hg|[<-|[]]].
    - apply elem_of_union_r, Hall, Hg.
    - apply elem_of_union_l, elem_of_singleton. exact Hk. }
  split; split; assumption.
Qed.

Lemma ledgerInv_keep (st st' : pass) :
  ledgerInv st ->
  created st' = created st ->
  processedScriptHashes st ⊆ processedScriptHashes st' ->
  ledgerInv st'.
Proof.
  intros [Hnd Hall] Hc Hsub. unfold ledgerInv. rewrite Hc.
  split; [exact Hnd|]. intros f Hf. apply Hsub, Hall, Hf.
Qed.

Lemma block_step_ledger (st : pass) (b : codeBlock) (e : env) :
  processedScriptHashes st ⊆ processedScriptHashes (fst (processCodeBlock st b e))
  /\ (reachesLedger b = true ->
      blockKey b ∈ processedScriptHashes (fst (processCodeBlock st b e))).
Proof.
  block_cases st b e; cbn [fst processedScriptHashes addFrame addLoading logError
                               setProcessedByEmberJs addHash];
    [ split; [set_solver | intros; set_solver] .. | ].
  rewrite Hl. split; [reflexivity | discriminate].
Qed.

Lemma block_step_inv (st : pass) (b : codeBlock) (e : env) :
  ledgerInv st -> ledgerInv (fst (processCodeBlock st b e)).
Proof.
  intros Hinv. block_cases st b e; cbn [fst].
  - exact Hinv.
  - eapply proj2, (ledgerInv_new_frame st _ _ (blockKey b));
      [exact Hinv | reflexivity | exact Hin].
  - eapply ledgerInv_keep; [exact Hinv | reflexivity | simpl; set_solver].
  - eapply ledgerInv_keep; [exact Hinv | reflexivity | simpl; set_solver].
  - eapply ledgerInv_keep; [exact Hinv | exact Hc | rewrite Hl; set_solver].
Qed.

Lemma block_step_checked (st : pass) (b : codeBlock) (e : env) :
  checkedInv syntaxOk st -> checkedInv syntaxOk (fst (processCodeBlock st b e)).
Proof.
  unfold checkedInv. intros Hinv. block_cases st b e; cbn [fst]; try exact Hinv.
  - cbn [created addFrame addLoading setProcessedByEmberJs addHash].
    apply Forall_app. split; [exact Hinv | constructor; [exact Hok | constructor]].
  - rewrite Hc. exact Hinv.
Qed.

Lemma script_step_ledger (st : pass) (sc : Current.script) (e : env) :
  processedScriptHashes st ⊆ processedScriptHashes (fst (processScript st sc e))
  /\ (inlineScript sc = true ->
      scriptKey sc ∈ processedScriptHashes (fst (processScript st sc e))).
Proof.
  script_cases st sc e; cbn [fst processedScriptHashes addFrame addLoading logError addHash];
    (split; [set_solver | intros; set_solver]).
Qed.

Lemma script_step_inv (st : pass) (sc : Current.script) (e : env) :
  ledgerInv st -> ledgerInv (fst (processScript st sc e)).
Proof.
  intros Hinv. script_cases st sc e; cbn [fst]; try exact Hinv.
  - eapply proj1, (ledgerInv_new_frame st _ _ (scriptKey sc)); [exact Hinv | | exact Hin].
    unfold frameKey, scriptKey. cbn [userCode Current.createSandboxedFrame].
    rewrite trim_idem. reflexivity.
  - eapply ledgerInv_keep; [exact Hinv | reflexivity | simpl; set_solver].
  - eapply ledgerInv_keep; [exact Hinv | reflexivity | simpl; set_solver].
Qed.

Lemma script_step_checked (st : pass) (sc : Current.script) (e : env) :
  checkedInv syntaxOk st -> checkedInv syntaxOk (fst (processScript st sc e)).
Proof.
  unfold checkedInv. intros Hinv. script_cases st sc e; cbn [fst]; try exact Hinv.
  cbn [created addFrame addLoading addHash].
  apply Forall_app. split; [exact Hinv | constructor; [exact Hok | constructor]].
Qed.

(** From one round to the whole loop. *)
Lemma blocks_fold (P : pass -> Prop) :
  (forall st b e, P st -> P (fst (processCodeBlock st b e))) ->
  forall blocks st, P st -> P (fst (processCodeBlocks st blocks)).
Proof.
  intros Hstep. induction blocks as [|[b e] rest IH]; intros st H; [exact H|].
  cbn [Current.processCodeBlocks].
  specialize (Hstep st b e H).
  destruct (processCodeBlock st b e) as [st1 b'].
  specialize (IH st1 Hstep).
  destruct (processCodeBlocks st1 rest) as [st2 bs']. exact IH.
Qed.

Lemma scripts_fold (P : pass -> Prop) :
  (forall st sc e, P st -> P (fst (processScript st sc e))) ->
  forall scripts st any, P st -> P (fst (processScripts st any scripts)).
Proof.
  intros Hstep. induction scripts as [|[sc e] rest IH]; intros st any H; [exact H|].
  cbn [Current.processScripts].
  specialize (Hstep st sc e H).
  destruct (processScript st sc e) as [st1 flag].
  exact (IH st1 _ Hstep).
Qed.

Lemma blocks_ledger_mono (blocks : list (codeBlock * env)) (st : pass) :
  processedScriptHashes st ⊆ processedScriptHashes (fst (processCodeBlocks st blocks)).
Proof.
  apply (blocks_fold (fun s => processedScriptHashes st ⊆ processedScriptHashes s));
    [|reflexivity].
  intros s b e H. etransitivity; [exact H | apply block_step_ledger].
Qed.

Lemma scripts_ledger_mono (scripts : list (Current.script * env)) (st : pass) (any : bool) :
  processedScriptHashes st ⊆ processedScriptHashes (fst (processScripts st any scripts)).
Proof.
  apply (scripts_fold (fun s => processedScriptHashes st ⊆ processedScriptHashes s));
    [|reflexivity].
  intros s sc e H. etransitivity; [exact H | apply script_step_ledger].
Qed.

(** Every inline script of the list leaves its fingerprint in the ledger. *)
Lemma scripts_register (scripts : list (Current.script * env)) (st : pass) (any : bool)
  (sc : Current.script) (e : env) :
  In (sc, e) scripts ->
  inlineScript sc = true ->
  scriptKey sc ∈ processedScriptHashes (fst (processScripts st any scripts)).
Proof.
  revert st any. induction scripts as [|[sc0 e0] rest IH]; intros st any Hin Hi; [destruct Hin|].
  cbn [Current.processScripts].
  destruct (processScript st sc0 e0) as [st1 flag] eqn:E.
  destruct Hin as [[= -> ->]|Hin].
  - apply (scripts_ledger_mono rest st1).
    pose proof (proj2 (script_step_ledger st sc e) Hi) as H. rewrite E in H. exact H.
  - apply IH; assumption.
Qed.

(** A block whose fingerprint the ledger holds when the loop starts is
    hidden as a duplicate, wherever it stands in the list. *)
Lemma later_block_duplicate (blocks : list (codeBlock * env)) (st : pass) (j : nat)
  (bj : codeBlock) (ej : env) :
  blockKey bj ∈ processedScriptHashes st ->
  blocks !! j = Some (bj, ej) ->
  reachesLedger bj = true ->
  snd (processCodeBlocks st blocks) !! j
  = Some (setDisplay "none" (setProcessed "duplicate" bj)).
Proof.
  revert st j. induction blocks as [|[b e] rest IH]; intros st j Hk Hj Hr; [discriminate|].
  cbn [Current.processCodeBlocks].
  destruct j as [|j].
  - injection Hj as -> ->. rewrite (block_duplicate st bj ej Hr Hk).
    destruct (processCodeBlocks st rest). reflexivity.
  - pose proof (proj1 (block_step_ledger st b e)) as Hmono.
    destruct (processCodeBlock st b e) as [st1 b'].
    specialize (IH st1 j (Hmono _ Hk) Hj Hr).
    destruct (processCodeBlocks st1 rest). exact IH.
Qed.

(** Of two blocks with the same normalized source, the later one is
    hidden as a duplicate. *)
Lemma second_occurrence_duplicate (blocks : list (codeBlock * env)) (st : pass)
  (i j : nat) (bi bj : codeBlock) (ei ej : env) :
  blocks !! i = Some (bi, ei) ->
  blocks !! j = Some (bj, ej) ->
  (i < j)%nat ->
  reachesLedger bi = true ->
  reachesLedger bj = true ->
  normalizedSource bi = normalizedSource bj ->
  snd (processCodeBlocks st blocks) !! j
  = Some (setDisplay "none" (setProcessed "duplicate" bj)).
Proof.
  revert st i j. induction blocks as [|[b e] rest IH]; intros st i j Hi Hj Hlt Hri Hrj Hn;
    [discriminate|].
  destruct j as [|j]; [lia|].
  cbn [Current.processCodeBlocks].
  destruct i as [|i].
  - injection Hi as -> ->.
    pose proof (proj2 (block_step_ledger st bi ei) Hri) as Hk.
    destruct (processCodeBlock st bi ei) as [st1 b'].
    assert (Hk' : blockKey bj ∈ processedScriptHashes st1).
    { unfold blockKey in *. rewrite <- Hn. exact Hk. }
    pose proof (later_block_duplicate rest st1 j bj ej Hk' Hj Hrj) as H.
    destruct (processCodeBlocks st1 rest). exact H.
  - destruct (processCodeBlock st b e) as [st1 b'].
    specialize (IH st1 i j Hi Hj ltac:(lia) Hri Hrj Hn).
    destruct (processCodeBlocks st1 rest). exact IH.
Qed.

(** The state a pass ends in. *)
Lemma pass_invariants (msg : Current.message) :
  ledgerInv (fst (Current.processMessage syntaxOk origin messageId msg))
  /\ checkedInv syntaxOk (fst (Current.processMessage syntaxOk origin messageId msg)).
Proof.
  assert (H0 : ledgerInv startPass /\ checkedInv syntaxOk startPass).
  { split; [split; [constructor | intros f []] | constructor]. }
  assert (Hs : forall st, ledgerInv st /\ checkedInv syntaxOk st ->
                          ledgerInv (setProcessedByEmberJs st)
                          /\ checkedInv syntaxOk (setProcessedByEmberJs st)).
  { intros st H. exact H. }
  assert (Hb : forall blocks st, ledgerInv st /\ checkedInv syntaxOk st ->
                 ledgerInv (fst (processCodeBlocks st blocks))
                 /\ checkedInv syntaxOk (fst (processCodeBlocks st blocks))).
  { intros blocks. apply (blocks_fold (fun s => ledgerInv s /\ checkedInv syntaxOk s)).
    intros st b e [H1 H2]. split; [apply block_step_inv | apply block_step_checked]; assumption. }
  assert (Hsc : forall scripts st any, ledgerInv st /\ checkedInv syntaxOk st ->
                 ledgerInv (fst (processScripts st any scripts))
                 /\ checkedInv syntaxOk (fst (processScripts st any scripts))).
  { intros scripts. apply (scripts_fold (fun s => ledgerInv s /\ checkedInv syntaxOk s)).
    intros st sc e [H1 H2].
    split; [apply script_step_inv | apply script_step_checked]; assumption. }
  unfold Current.processMessage.
  destruct (negb (Current.ready msg)); [exact H0|].
  destruct (from_option truthy false (Current.rawMessageContent msg)); [|apply Hb, H0].
  unfold Current.processScriptTagsInHTML.
  destruct (Current.rawScripts msg) as [|s0 rest] eqn:Es; [apply Hb, H0|].
  specialize (Hsc (s0 :: rest) startPass false H0).
  destruct (processScripts startPass false (s0 :: rest)) as [st any].
  destruct any; apply Hb; [apply Hs|]; exact Hsc.
Qed.

End PassProperties.

(** C5 (as amended).  No context of a pass runs code that failed the
    syntax check.  A fragment that fails it and whose fingerprint is
    new to the ledger is rejected on the spot: a code block is marked
    [syntax-error], a raw script is reported as a syntax error, and in
    both cases the pass goes on with the fingerprint recorded and
    nothing else created.  A fragment whose fingerprint is in the
    ledger is not checked at all: the block is marked [duplicate] and
    hidden, the script is skipped, nothing is logged and nothing is
    created, whether its code parses or not. *)
Theorem syntax_error_never_creates_context (syntaxOk : string -> bool)
  (origin messageId : string) :
  (forall msg,
      Forall (fun f => syntaxOk (userCode f) = true)
        (created (fst (Current.processMessage syntaxOk origin messageId msg))))
  /\ (forall st b e,
        reachesLedger b = true ->
        blockKey b ∉ processedScriptHashes st ->
        syntaxOk (blockCode b) = false ->
        Current.processCodeBlock syntaxOk origin messageId st b e
        = (logError (JavaScriptSyntaxError (blockCode b)) (addHash (blockKey b) st),
           setProcessed "syntax-error" b))
  /\ (forall st sc e,
        inlineScript sc = true ->
        scriptKey sc ∉ processedScriptHashes st ->
        syntaxOk (JS.trim (Current.s_innerHTML sc)) = false ->
        Current.processScript syntaxOk origin messageId st sc e
        = (logError (ScriptSyntaxError (JS.trim (Current.s_innerHTML sc)))
             (addHash (scriptKey sc) st), false))
  /\ (forall st b e,
        reachesLedger b = true ->
        blockKey b ∈ processedScriptHashes st ->
        Current.processCodeBlock syntaxOk origin messageId st b e
        = (st, setDisplay "none" (setProcessed "duplicate" b)))
  /\ (forall st sc e,
        scriptKey sc ∈ processedScriptHashes st ->
        Current.processScript syntaxOk origin messageId st sc e = (st, false)).
Proof.
  split; [intros msg; apply pass_invariants|]. split; [|split; [|split]].
  - intros st b e Hr Hk Hs. rewrite block_fresh by assumption.
    cbv zeta. rewrite Hs. reflexivity.
  - intros st sc e Hi Hk Hs. rewrite script_fresh by assumption.
    cbv zeta. rewrite Hs. reflexivity.
  - intros st b e Hr Hk. apply block_duplicate; assumption.
  - intros st sc e Hk. apply script_skipped. left. exact Hk.
Qed.

Lemma syntax_error_never_creates_context_witness :
  Current.processCodeBlock sampleSyntaxOk "http://localhost:8000" "5" startPass
    (sampleBlock "language-javascript" "root.textContent = ;") (sampleEnv 1700000000000)
  = (logError (JavaScriptSyntaxError "root.textContent = ;")
       (addHash (blockKey (sampleBlock "language-javascript" "root.textContent = ;"))
          startPass),
     setProcessed "syntax-error" (sampleBlock "language-javascript" "root.textContent = ;")).
Proof.
  apply (proj1 (proj2 (syntax_error_never_creates_context sampleSyntaxOk
                         "http://localhost:8000" "5"))
           startPass (sampleBlock "language-javascript" "root.textContent = ;")
           (sampleEnv 1700000000000)).
  - reflexivity.
  - vm_compute. set_solver.
  - reflexivity.
Defined.

(** C5, the claim as stated fails: of two blocks with the same source
    that does not parse, only the first is classified as a syntax
    error; the second finds its fingerprint in the ledger, is marked
    [duplicate] and hidden, and is neither checked nor reported. *)
Lemma broken_duplicate_is_not_classified :
  let run := Current.processMessage sampleSyntaxOk "http://localhost:8000" "5"
               brokenBlockTwice in
  map (fun be => sampleSyntaxOk (JS.trim (innerText (fst be))))
    (Current.codeBlocks brokenBlockTwice) = [false; false]
  /\ map emberProcessed (snd run) = [Some "syntax-error"; Some "duplicate"]
  /\ console (fst run) = [JavaScriptSyntaxError "root.textContent = ;"]
  /\ created (fst run) = [].
Proof. vm_compute. repeat split. Qed.

(** C2 (as amended).  In one pass at most one context is created for a
    normalized source.  A fragment with a new fingerprint creates one
    context when its code passes the syntax check and the libraries
    load, and none otherwise; a code block whose fingerprint is already
    in the ledger, because an earlier block or an earlier raw script
    had the same normalized source, is marked [duplicate] and hidden,
    and the pass state stays as it was. *)
Theorem one_context_per_normalized_source (syntaxOk : string -> bool)
  (origin messageId : string) :
  (forall msg,
      NoDup (map (fun f => JS.trim (userCode f))
               (created (fst (Current.processMessage syntaxOk origin messageId msg)))))
  /\ (forall st b e,
        reachesLedger b = true ->
        blockKey b ∈ processedScriptHashes st ->
        Current.processCodeBlock syntaxOk origin messageId st b e
        = (st, setDisplay "none" (setProcessed "duplicate" b)))
  /\ (forall st b e,
        reachesLedger b = true ->
        blockKey b ∉ processedScriptHashes st ->
        created (fst (Current.processCodeBlock syntaxOk origin messageId st b e))
        = match fetchAll e (Current.libUrls origin Current.requestedLibs) with
          | Some libCodes =>
              if syntaxOk (blockCode b)
              then (created st
                    ++ [Current.createSandboxedFrame (blockCode b) libCodes
                          ("ember-frame-" +:+ messageId +:+ "-codeblock-"
                           +:+ JS.toString (now e))])%list
              else created st
          | None => created st
          end)
  /\ (forall st blocks i j bi ei bj ej,
        blocks !! i = Some (bi, ei) ->
        blocks !! j = Some (bj, ej) ->
        (i < j)%nat ->
        reachesLedger bi = true ->
        reachesLedger bj = true ->
        normalizedSource bi = normalizedSource bj ->
        snd (Current.processCodeBlocks syntaxOk origin messageId st blocks) !! j
        = Some (setDisplay "none" (setProcessed "duplicate" bj)))
  /\ (forall msg sc e j bj ej,
        Current.ready msg = true ->
        from_option truthy false (Current.rawMessageContent msg) = true ->
        In (sc, e) (Current.rawScripts msg) ->
        inlineScript sc = true ->
        Current.codeBlocks msg !! j = Some (bj, ej) ->
        reachesLedger bj = true ->
        normalizedSource bj = JS.trim (Current.s_innerHTML sc) ->
        exists b',
          snd (Current.processMessage syntaxOk origin messageId msg) !! j = Some b'
          /\ hiddenDuplicate b').
Proof.
  split.
  { intros msg. destruct (pass_invariants syntaxOk origin messageId msg) as [[Hnd _] _].
    apply (NoDup_fmap_1 Current.hashKey).
    rewrite <- list_fmap_compose. exact Hnd. }
  split; [intros; apply block_duplicate; assumption|].
  split.
  { intros st b e Hr Hk. rewrite block_fresh by assumption. cbv zeta.
    destruct (syntaxOk (blockCode b)); cbn [negb];
      destruct (fetchAll e _); reflexivity. }
  split.
  { intros st blocks i j bi ei bj ej Hi Hj Hlt Hri Hrj Hn.
    exact (second_occurrence_duplicate syntaxOk origin messageId blocks st i j bi bj ei ej
             Hi Hj Hlt Hri Hrj Hn). }
  intros msg sc e j bj ej Hready Hraw Hin Hi Hj Hr Hn.
  unfold Current.processMessage. rewrite Hready, Hraw. cbn [negb].
  unfold Current.processScriptTagsInHTML.
  destruct (Current.rawScripts msg) as [|s0 rest] eqn:Es; [destruct Hin|].
  pose proof (scripts_register syntaxOk origin messageId (s0 :: rest) startPass false
                sc e Hin Hi) as Hk.
  destruct (Current.processScripts syntaxOk origin messageId startPass false (s0 :: rest))
    as [st any].
  cbn [fst] in Hk.
  assert (Hkey : blockKey bj = scriptKey sc).
  { unfold blockKey, scriptKey. rewrite Hn. reflexivity. }
  destruct any.
  - destruct (hideAfterScripts_same bj) as [Hsame Hreach].
    eexists. split.
    + apply (later_block_duplicate syntaxOk origin messageId _ _ j
               (Current.hideAfterScripts bj) ej).
      * rewrite Hsame, Hkey. exact Hk.
      * rewrite lookup_map, Hj. reflexivity.
      * apply Hreach, Hr.
    + split; reflexivity.
  - eexists. split.
    + apply (later_block_duplicate syntaxOk origin messageId _ _ j bj ej);
        [rewrite Hkey; exact Hk | exact Hj | exact Hr].
    + split; reflexivity.
Qed.

Lemma one_context_per_normalized_source_witness :
  snd (Current.processCodeBlocks sampleSyntaxOk "http://localhost:8000" "5" startPass
         (Current.codeBlocks sameBlockTwice)) !! 1%nat
  = Some (setDisplay "none"
            (setProcessed "duplicate"
               (sampleBlock "language-javascript" "  root.textContent = 'hi';  "))).
Proof.
  apply (proj1 (proj2 (proj2 (proj2 (one_context_per_normalized_source sampleSyntaxOk
                                       "http://localhost:8000" "5"))))
           startPass (Current.codeBlocks sameBlockTwice) 0%nat 1%nat
           (sampleBlock "language-javascript" "root.textContent = 'hi';")
           (sampleEnv 1700000000000)
           (sampleBlock "language-javascript" "  root.textContent = 'hi';  ")
           (sampleEnv 1700000000050)).
  - reflexivity.
  - reflexivity.
  - lia.
  - reflexivity.
  - reflexivity.
  - reflexivity.
Defined.

(** C2, the claim as stated fails: of two blocks with the same source
    that does not parse, the first is rejected and the second is hidden
    as its duplicate, so that no context at all is created; the same
    source, when it parses, gets its one context. *)
Lemma duplicate_of_rejected_block_creates_nothing :
  created (fst (Current.processMessage sampleSyntaxOk "http://localhost:8000" "5"
                  brokenBlockTwice)) = []
  /\ map emberProcessed
       (snd (Current.processMessage sampleSyntaxOk "http://localhost:8000" "5"
               brokenBlockTwice))
     = [Some "syntax-error"; Some "duplicate"]
  /\ map display
       (snd (Current.processMessage sampleSyntaxOk "http://localhost:8000" "5"
               brokenBlockTwice))
     = [EmptyString; "none"]
  /\ map userCode
       (created (fst (Current.processMessage sampleSyntaxOk "http://localhost:8000" "5"
                        sameBlockTwice)))
     = ["root.textContent = 'hi';"].
Proof. vm_compute. repeat split. Qed.

(* ===================================================================== *)
(** ** Properties: escaping of pattern text *)
(* ===================================================================== *)

Lemma append_assoc (a b c : string) : (a +:+ b) +:+ c = a +:+ (b +:+ c).
Proof. induction a as [|x a IH]; cbn [append]; [reflexivity | f_equal; exact IH]. Qed.

Lemma append_nil_r (s : string) : s +:+ EmptyString = s.
Proof. induction s as [|c t IH]; cbn [append]; [reflexivity | f_equal; exact IH]. Qed.

Lemma substring_mid (x y z : string) :
  String.substring (String.length x) (String.length y) (x +:+ y +:+ z) = y.
Proof.
  induction x as [|c x IH]; cbn [String.length append String.substring]; [|exact IH].
  induction y as [|d y IHy]; cbn [String.length append String.substring].
  - by destruct z.
  - f_equal. destruct y; exact IHy.
Qed.

Lemma append_length (a b : string) :
  String.length (a +:+ b) = (String.length a + String.length b)%nat.
Proof.
  induction a as [|x a IH]; cbn [append String.length Nat.add];
    [reflexivity | f_equal; exact IH].
Qed.

Lemma substring_one (pre : string) (c : ascii) (t : string) :
  JS.substring (String.length pre) (S (String.length pre)) (pre +:+ String c t)
  = String c EmptyString.
Proof.
  unfold JS.substring.
  replace (S (String.length pre) - String.length pre)%nat with 1%nat by lia.
  induction pre as [|x pre IH]; simpl; [destruct t; reflexivity | exact IH].
Qed.

(** The class of the source's expression is the class of the
    SyntaxCharacters. *)
Lemma syntaxCharacters_class :
  exists items,
    Repair.re_syntaxCharacters = Regex.Seq (Regex.Chars false items) Regex.Empty
    /\ forall c, Regex.class_match Regex.noFlags false items c = Regex.syntaxChar c.
Proof.
  eexists. split; [vm_compute; reflexivity|].
  intros c. destruct c as [[] [] [] [] [] [] [] []]; reflexivity.
Qed.

Lemma replaceAll_class (items : list Regex.citem) (rest : string) :
  forall (pre : string) (prev : option ascii) (fuel : nat),
    (String.length rest < fuel)%nat ->
    (forall c, Regex.class_match Regex.noFlags false items c = Regex.syntaxChar c) ->
    Regex.replaceAll_go fuel Regex.noFlags
      (Regex.Seq (Regex.Chars false items) Regex.Empty) "\$&"
      (pre +:+ rest) prev rest (String.length pre)
    = escapeChars rest.
Proof.
  induction rest as [|c t IH]; intros pre prev fuel Hf Hcl;
    (destruct fuel as [|fuel]; [simpl in Hf; lia|]).
  - reflexivity.
  - cbn [Regex.replaceAll_go Regex.matchAt Regex.m Regex.step Regex.m_rest Regex.m_pos
           Regex.m_caps Regex.m_prev].
    assert (Hnext : Regex.replaceAll_go fuel Regex.noFlags
                      (Regex.Seq (Regex.Chars false items) Regex.Empty) "\$&"
                      (pre +:+ String c t) (Some c) t (S (String.length pre))
                    = escapeChars t).
    { replace (pre +:+ String c t) with ((pre +:+ String c EmptyString) +:+ t)
        by (rewrite append_assoc; reflexivity).
      replace (S (String.length pre)) with (String.length (pre +:+ String c EmptyString))
        by (rewrite append_length; simpl; lia).
      apply IH; [simpl in Hf; lia | exact Hcl]. }
    rewrite Hcl. cbn [escapeChars]. unfold escapeChar.
    destruct (Regex.syntaxChar c);
      cbn [Regex.m_pos Regex.m_prev Regex.m_rest Regex.m_caps].
    + rewrite (proj2 (Nat.eqb_neq (S (String.length pre)) (String.length pre))) by lia.
      rewrite Hnext, substring_one. reflexivity.
    + rewrite Hnext. reflexivity.
Qed.

(** [escapeRegExp] puts a backslash before every SyntaxCharacter and
    changes nothing else. *)
Lemma escapeRegExp_chars (s : string) : Repair.escapeRegExp s = escapeChars s.
Proof.
  destruct syntaxCharacters_class as (items & Hre & Hcl).
  unfold Repair.escapeRegExp, Regex.replaceAll. rewrite Hre.
  apply (replaceAll_class items s EmptyString None); [lia | exact Hcl].
Qed.

(** An escaped code unit is read as one literal atom, and no quantifier
    follows it. *)
Lemma quantify_escaped (a : Regex.regex) (t : string) :
  Regex.quantify a (escapeChars t) = (a, escapeChars t).
Proof.
  destruct t as [|c t]; [reflexivity|].
  destruct c as [[] [] [] [] [] [] [] []]; reflexivity.
Qed.

Lemma p_atom_escaped (c : ascii) (rest : string) (g n : nat) :
  Regex.p_atom (S n) (escapeChar c +:+ rest) g = Some (Regex.Lit c, rest, g).
Proof. destruct c as [[] [] [] [] [] [] [] []]; reflexivity. Qed.

Lemma p_seq_head (c : ascii) (rest : string) (g m : nat) :
  Regex.p_seq (S m) (escapeChar c +:+ rest) g
  = match Regex.p_atom m (escapeChar c +:+ rest) g with
    | Some (a, t, g1) =>
        let '(a', t') := if Regex.isAssertion a then (a, t) else Regex.quantify a t in
        match Regex.p_seq m t' g1 with
        | Some (b, t2, g2) => Some (Regex.Seq a' b, t2, g2)
        | None => None
        end
    | None => None
    end.
Proof. destruct c as [[] [] [] [] [] [] [] []]; reflexivity. Qed.

Lemma p_seq_escaped_step (c : ascii) (t : string) (g n : nat) :
  Regex.p_seq (S (S n)) (escapeChars (String c t)) g
  = match Regex.p_seq (S n) (escapeChars t) g with
    | Some (b, t2, g2) => Some (Regex.Seq (Regex.Lit c) b, t2, g2)
    | None => None
    end.
Proof.
  cbn [escapeChars]. rewrite p_seq_head, p_atom_escaped.
  cbn [Regex.isAssertion Regex.Lit]. rewrite quantify_escaped. reflexivity.
Qed.

Lemma p_seq_escaped (s : string) :
  forall (k g : nat),
    (String.length s < k)%nat ->
    Regex.p_seq (S k) (escapeChars s) g = Some (lits s, EmptyString, g).
Proof.
  induction s as [|c t IH]; intros k g Hk; [reflexivity|].
  destruct k as [|k]; [simpl in Hk; lia|].
  rewrite p_seq_escaped_step, IH by (simpl in Hk; lia). reflexivity.
Qed.

Lemma escapeChars_length (s : string) :
  (String.length s <= String.length (escapeChars s))%nat.
Proof.
  induction s as [|c t IH]; [reflexivity|].
  cbn [escapeChars]. rewrite append_length. unfold escapeChar.
  destruct (Regex.syntaxChar c); simpl; lia.
Qed.

(** The escaped text parses as the literal expression of the text. *)
Lemma parse_escaped (s : string) : Regex.parse (escapeChars s) = Some (lits s).
Proof.
  unfold Regex.parse.
  pose proof (escapeChars_length s) as Hl.
  replace (4 * String.length (escapeChars s) + 4)%nat
    with (S (S (4 * String.length (escapeChars s) + 2)))%nat by lia.
  cbn [Regex.p_disj]. rewrite p_seq_escaped by lia. reflexivity.
Qed.

Lemma advance_pos_caps (s : string) :
  forall st,
    Regex.m_pos (advance st s) = (Regex.m_pos st + String.length s)%nat
    /\ Regex.m_caps (advance st s) = Regex.m_caps st.
Proof.
  induction s as [|c t IH]; intros st; cbn [advance String.length].
  - split; [lia | reflexivity].
  - destruct (IH (Regex.MState (Some c) (JS.drop 1 (Regex.m_rest st)) (S (Regex.m_pos st))
                    (Regex.m_caps st))) as [Hp Hc].
    rewrite Hp, Hc. cbn [Regex.m_pos Regex.m_caps]. split; [lia | reflexivity].
Qed.

(** Without the [i] flag the literal expression of [s] matches at a
    position exactly when [s] is a prefix of the text there. *)
Lemma m_lits (s : string) :
  forall (fl : Regex.flags) (k : Regex.mstate -> option Regex.mstate) (st : Regex.mstate),
    Regex.ignoreCase fl = false ->
    Regex.m fl (lits s) k st
    = if String.prefix s (Regex.m_rest st) then k (advance st s) else None.
Proof.
  induction s as [|c t IH]; intros fl k st Hfl.
  - cbn [lits Regex.m advance]. destruct (Regex.m_rest st); reflexivity.
  - destruct st as [prev rest pos caps]. cbn [Regex.m_rest].
    destruct rest as [|c' r]; [reflexivity|].
    cbn [lits Regex.m Regex.Lit Regex.step Regex.m_rest Regex.m_pos Regex.m_caps
           String.prefix advance].
    unfold Regex.class_match, Regex.item_match, Regex.sameChar. rewrite Hfl.
    cbn [existsb orb xorb JS.drop].
    destruct (Ascii.ascii_dec c c') as [->|Hne].
    + rewrite Ascii.eqb_refl. cbn [orb]. rewrite IH by exact Hfl. reflexivity.
    + apply Ascii.eqb_neq in Hne. rewrite Hne. reflexivity.
Qed.

Lemma search_lits (s : string) (fl : Regex.flags) (rest : string) :
  forall (prev : option ascii) (pos : nat),
    Regex.ignoreCase fl = false ->
    option_map (fun ie => (fst ie, Regex.m_pos (snd ie), Regex.m_caps (snd ie)))
      (Regex.searchFrom fl (lits s) prev rest pos)
    = option_map (fun i => (i, (i + String.length s)%nat, []))
        (JS.indexOf_from pos rest s).
Proof.
  induction rest as [|c r IH]; intros prev pos Hfl;
    cbn [Regex.searchFrom JS.indexOf_from]; unfold Regex.matchAt;
    rewrite m_lits by exact Hfl; cbn [Regex.m_rest].
  - destruct (String.prefix s EmptyString); [|reflexivity].
    cbn [option_map fst snd].
    destruct (advance_pos_caps s (Regex.MState prev EmptyString pos [])) as [Hp Hc].
    rewrite Hp, Hc. reflexivity.
  - destruct (String.prefix s (String c r)); [|apply IH, Hfl].
    cbn [option_map fst snd].
    destruct (advance_pos_caps s (Regex.MState prev (String c r) pos [])) as [Hp Hc].
    rewrite Hp, Hc. reflexivity.
Qed.

Lemma indexOf_from_substring (s text : string) :
  forall pos i,
    JS.indexOf_from pos text s = Some i ->
    (pos <= i)%nat /\ String.substring (i - pos) (String.length s) text = s.
Proof.
  induction text as [|c t IH]; intros pos i; cbn [JS.indexOf_from].
  - destruct (String.prefix s EmptyString) eqn:E; [|discriminate].
    intros [= <-]. rewrite Nat.sub_diag. split; [lia | apply String.prefix_correct, E].
  - destruct (String.prefix s (String c t)) eqn:E.
    + intros [= <-]. rewrite Nat.sub_diag. split; [lia | apply String.prefix_correct, E].
    + intros H. destruct (IH _ _ H) as [Hle Hs]. split; [lia|].
      replace (i - pos)%nat with (S (i - S pos)) by lia. exact Hs.
Qed.

(** C10.  The text [escapeRegExp] returns is a pattern, and the
    expression it denotes matches the literal text and nothing else:
    at a position it matches exactly when [s] is the text that starts
    there; run on any text it finds the first occurrence of [s], the
    match spans exactly the length of [s], and the matched text is
    [s]. *)
Theorem escapeRegExp_matches_literally (s : string) :
  exists r,
    Regex.parse (Repair.escapeRegExp s) = Some r
    /\ forall fl text,
         Regex.ignoreCase fl = false ->
         (forall prev pos,
             Regex.matchAt fl r (Regex.MState prev text pos [])
             = if String.prefix s text
               then Some (advance (Regex.MState prev text pos []) s)
               else None)
         /\ Regex.exec fl r text
            = match JS.indexOf text s with
              | Some i => Some (Regex.Result i (i + String.length s) text [])
              | None => None
              end
         /\ forall res, Regex.exec fl r text = Some res -> Regex.matched res = s.
Proof.
  exists (lits s). rewrite escapeRegExp_chars. split; [apply parse_escaped|].
  intros fl text Hfl.
  split; [intros prev pos; unfold Regex.matchAt; rewrite m_lits by exact Hfl; reflexivity|].
  assert (Hex : Regex.exec fl (lits s) text
                = match JS.indexOf text s with
                  | Some i => Some (Regex.Result i (i + String.length s) text [])
                  | None => None
                  end).
  { unfold Regex.exec, Regex.search, JS.indexOf.
    pose proof (search_lits s fl text None 0%nat Hfl) as H.
    destruct (Regex.searchFrom fl (lits s) None text 0) as [[i e]|];
      destruct (JS.indexOf_from 0 text s) as [i'|]; simpl in H; try discriminate H;
      [|reflexivity].
    injection H as -> -> ->. reflexivity. }
  split; [exact Hex|].
  intros res Hres. rewrite Hex in Hres. unfold JS.indexOf in Hres.
  destruct (JS.indexOf_from 0 text s) as [i|] eqn:Ei; [|discriminate].
  injection Hres as <-. unfold Regex.matched, JS.substring.
  cbn [Regex.r_index Regex.r_end Regex.r_input].
  destruct (indexOf_from_substring s text _ _ Ei) as [_ Hs].
  rewrite Nat.sub_0_r in Hs.
  replace (i + String.length s - i)%nat with (String.length s) by lia. exact Hs.
Qed.

(* ===================================================================== *)
(** ** Properties: sandbox builder *)
(* ===================================================================== *)

Lemma readBody_quoteChar (c : ascii) (rest : string) :
  readBody (JS.quoteChar c +:+ rest)
  = match readBody rest with
    | Some (v, r) => Some (String c v, r)
    | None => None
    end.
Proof. destruct c as [[] [] [] [] [] [] [] []]; reflexivity. Qed.

Lemma readBody_quoteBody (code rest : string) :
  readBody (JS.quoteBody code +:+ dq +:+ rest) = Some (code, rest).
Proof.
  induction code as [|c t IH]; [reflexivity|].
  cbn [JS.quoteBody]. rewrite append_assoc, readBody_quoteChar, IH. reflexivity.
Qed.

(** The literal [JSON.stringify] writes reads back as the text it was
    made from, and the reading stops where the literal ends. *)
Lemma literal_roundtrip (code rest : string) :
  readStringLiteral (JS.stringify code +:+ rest) = Some (code, rest).
Proof.
  unfold JS.stringify. rewrite !append_assoc.
  change (dq +:+ JS.quoteBody code +:+ dq +:+ rest)
    with (String "034"%char (JS.quoteBody code +:+ dq +:+ rest)).
  cbn [readStringLiteral]. rewrite Ascii.eqb_refl. apply readBody_quoteBody.
Qed.

Lemma prefix_bool (p : string) (c : ascii) (s : string) (a : ascii) :
  String.prefix (String a p) (String c s) = Ascii.eqb a c && String.prefix p s.
Proof.
  cbn [String.prefix]. destruct (Ascii.ascii_dec a c) as [->|H].
  - rewrite Ascii.eqb_refl. reflexivity.
  - apply Ascii.eqb_neq in H. rewrite H. reflexivity.
Qed.

Lemma lower_punct (c : ascii) :
  Ascii.eqb "<" (JS.lowerChar c) = Ascii.eqb "<" c
  /\ Ascii.eqb "!" (JS.lowerChar c) = Ascii.eqb "!" c
  /\ Ascii.eqb "-" (JS.lowerChar c) = Ascii.eqb "-" c.
Proof. destruct c as [[] [] [] [] [] [] [] []]; repeat split. Qed.

(** The start of a comment has no letters: it is compared as it is. *)
Lemma comment_prefix (s : string) : String.prefix "<!--" s = prefixCI "<!--" s.
Proof.
  destruct s as [|c1 s]; [reflexivity|]. rewrite prefix_bool. cbn [prefixCI].
  rewrite (proj1 (lower_punct c1)). f_equal.
  destruct s as [|c2 s]; [reflexivity|]. rewrite prefix_bool.
  rewrite (proj1 (proj2 (lower_punct c2))). f_equal.
  destruct s as [|c3 s]; [reflexivity|]. rewrite prefix_bool.
  rewrite (proj2 (proj2 (lower_punct c3))). f_equal.
  destruct s as [|c4 s]; [reflexivity|]. rewrite prefix_bool.
  rewrite (proj2 (proj2 (lower_punct c4))). f_equal.
  destruct s; reflexivity.
Qed.

(** Where the text opens nothing, the parser reads on. *)
Lemma no_tag_here (s : string) :
  opens s = false -> String.prefix "<!--" s = false /\ closesScript s = false.
Proof.
  unfold opens, closesScript. rewrite comment_prefix.
  intros H. apply orb_false_iff in H as [-> ->]. split; reflexivity.
Qed.

(** A pattern that matches across the end of a text and an inert code
    unit after it matches inside the text. *)
Lemma prefixCI_inert (p : string) (h : ascii) (z : string) :
  avoids p h = true ->
  forall a, prefixCI p (a +:+ String h z) = true -> prefixCI p a = true.
Proof.
  induction p as [|x p IH]; intros Hav a H; [reflexivity|].
  cbn [avoids] in Hav. apply andb_true_iff in Hav as [Hx Hp].
  destruct a as [|b a]; cbn [append prefixCI] in H |- *.
  - apply negb_true_iff in Hx. rewrite Hx in H. discriminate H.
  - apply andb_true_iff in H as [-> H]. exact (IH Hp a H).
Qed.

Lemma opens_inert (a : string) (h : ascii) (z : string) :
  inert h = true -> opens a = false -> opens (a +:+ String h z) = false.
Proof.
  unfold inert, opens. intros Hi H.
  apply andb_true_iff in Hi as [H1 H2]. apply orb_false_iff in H as [E1 E2].
  apply orb_false_iff. split.
  - destruct (prefixCI "<!--" (a +:+ String h z)) eqn:E; [|reflexivity].
    rewrite (prefixCI_inert _ h z H1 a E) in E1. discriminate E1.
  - destruct (prefixCI "</script" (a +:+ String h z)) eqn:E; [|reflexivity].
    rewrite (prefixCI_inert _ h z H2 a E) in E2. discriminate E2.
Qed.

Lemma opens_inert_head (h : ascii) (z : string) : inert h = true -> opens (String h z) = false.
Proof. intros Hi. apply (opens_inert EmptyString h z Hi). reflexivity. Qed.

(** A text that opens nothing, followed by an inert code unit, is
    skipped by the parser, whatever comes after. *)
Lemma scriptData_skip (a : string) (h : ascii) (z : string) :
  scriptFree a = true -> inert h = true ->
  scriptData (a +:+ String h z) = before (a +:+ String h EmptyString) (scriptData z).
Proof.
  intros Ha Hi. induction a as [|c a IH].
  - cbn [append scriptData].
    destruct (no_tag_here _ (opens_inert_head h z Hi)) as [-> ->].
    destruct (scriptData z) as [[t r]|]; reflexivity.
  - cbn [scriptFree] in Ha. apply andb_true_iff in Ha as [H1 H2].
    apply negb_true_iff in H1.
    cbn [append scriptData].
    change (String c (a +:+ String h z)) with (String c a +:+ String h z).
    destruct (no_tag_here _ (opens_inert _ h z Hi H1)) as [-> ->].
    rewrite (IH H2). destruct (scriptData z) as [[t r]|]; reflexivity.
Qed.

Lemma scriptFree_app (a : string) (h : ascii) (z : string) :
  scriptFree a = true -> inert h = true -> scriptFree z = true ->
  scriptFree (a +:+ String h z) = true.
Proof.
  intros Ha Hi Hz. induction a as [|c a IH].
  - cbn [append scriptFree]. rewrite (opens_inert_head h z Hi), Hz. reflexivity.
  - cbn [scriptFree] in Ha. apply andb_true_iff in Ha as [H1 H2].
    apply negb_true_iff in H1.
    cbn [append scriptFree].
    change (String c (a +:+ String h z)) with (String c a +:+ String h z).
    rewrite (opens_inert _ h z Hi H1), (IH H2). reflexivity.
Qed.

Lemma opens_noLt (c : ascii) (z : string) :
  Ascii.eqb "<" (JS.lowerChar c) = false -> opens (String c z) = false.
Proof. intros H. unfold opens. cbn [prefixCI]. rewrite H. reflexivity. Qed.

Lemma scriptFree_noLt (u z : string) :
  noLt u = true -> scriptFree z = true -> scriptFree (u +:+ z) = true.
Proof.
  intros Hu Hz. induction u as [|c u IH]; [exact Hz|].
  cbn [noLt] in Hu. apply andb_true_iff in Hu as [H1 H2].
  apply negb_true_iff in H1.
  cbn [append scriptFree]. rewrite (opens_noLt c _ H1), (IH H2). reflexivity.
Qed.

(** [JSON.stringify] leaves a code unit as it is or writes an escape,
    which starts with a backslash and holds no less-than sign. *)
Lemma quoteChar_shape (c : ascii) :
  JS.quoteChar c = String c EmptyString
  \/ exists t, JS.quoteChar c = String "\" t /\ noLt t = true.
Proof.
  destruct c as [[] [] [] [] [] [] [] []];
    first [left; reflexivity | right; eexists; split; reflexivity].
Qed.

Lemma prefixCI_quoteBody (p : string) :
  avoids p "\" = true ->
  forall s, prefixCI p (JS.quoteBody s) = true -> prefixCI p s = true.
Proof.
  induction p as [|x p IH]; intros Hav s H; [reflexivity|].
  cbn [avoids] in Hav. apply andb_true_iff in Hav as [Hx Hp].
  apply negb_true_iff in Hx.
  destruct s as [|c s]; [discriminate H|].
  cbn [JS.quoteBody] in H.
  destruct (quoteChar_shape c) as [E|(t & E & _)]; rewrite E in H;
    cbn [append prefixCI] in H |- *.
  - apply andb_true_iff in H as [-> H]. exact (IH Hp s H).
  - rewrite Hx in H. discriminate H.
Qed.

Lemma opens_quoteBody (s : string) : opens s = false -> opens (JS.quoteBody s) = false.
Proof.
  unfold opens. intros H. apply orb_false_iff in H as [E1 E2].
  apply orb_false_iff. split.
  - destruct (prefixCI "<!--" (JS.quoteBody s)) eqn:E; [|reflexivity].
    rewrite (prefixCI_quoteBody "<!--" eq_refl s E) in E1. discriminate E1.
  - destruct (prefixCI "</script" (JS.quoteBody s)) eqn:E; [|reflexivity].
    rewrite (prefixCI_quoteBody "</script" eq_refl s E) in E2. discriminate E2.
Qed.

(** The literal of a text that opens nothing opens nothing. *)
Lemma quoteBody_scriptFree (s : string) :
  scriptFree s = true -> scriptFree (JS.quoteBody s) = true.
Proof.
  induction s as [|c s IH]; intros H; [reflexivity|].
  cbn [scriptFree] in H. apply andb_true_iff in H as [H1 H2].
  apply negb_true_iff in H1. apply opens_quoteBody in H1.
  cbn [JS.quoteBody] in H1 |- *.
  destruct (quoteChar_shape c) as [E|(t & E & Ht)]; rewrite E in H1 |- *.
  - cbn [append scriptFree] in H1 |- *. rewrite H1, (IH H2). reflexivity.
  - apply scriptFree_noLt; [|exact (IH H2)].
    cbn [noLt]. rewrite Ht. reflexivity.
Qed.

Lemma stringify_scriptFree (s z : string) :
  scriptFree s = true -> scriptFree z = true -> scriptFree (JS.stringify s +:+ z) = true.
Proof.
  intros Hs Hz. unfold JS.stringify. rewrite !append_assoc.
  change (dq +:+ ?u) with (String "034"%char u).
  cbn [scriptFree]. rewrite (opens_inert_head "034" _ eq_refl). cbn [negb andb].
  apply scriptFree_app; [apply quoteBody_scriptFree; exact Hs | reflexivity | exact Hz].
Qed.

Lemma concat_scriptFree (l : list string) (z : string) :
  forallb scriptFree l = true -> scriptFree z = true ->
  scriptFree (String.concat "," (map JS.stringify l) +:+ z) = true.
Proof.
  induction l as [|x l IH]; intros H Hz; [exact Hz|].
  cbn [forallb] in H. apply andb_true_iff in H as [Hx Hl].
  destruct l as [|y l].
  - cbn [map String.concat]. apply stringify_scriptFree; assumption.
  - change (String.concat "," (map JS.stringify (x :: y :: l)))
      with (JS.stringify x +:+ "," +:+ String.concat "," (map JS.stringify (y :: l))).
    rewrite !append_assoc. apply stringify_scriptFree; [exact Hx|].
    change ("," +:+ ?u) with (String ","%char u).
    cbn [scriptFree]. rewrite (opens_inert_head "," _ eq_refl). cbn [negb andb].
    apply (IH Hl Hz).
Qed.

Lemma prefix_app_long (p a x : string) :
  (String.length p <= String.length a)%nat ->
  String.prefix p (a +:+ x) = String.prefix p a.
Proof.
  revert a. induction p as [|c p IH]; intros a H;
    [destruct a; cbn [append]; [destruct x|]; reflexivity|].
  destruct a as [|d a]; [simpl in H; lia|].
  cbn [append String.prefix]. destruct (Ascii.ascii_dec c d); [|reflexivity].
  apply IH. simpl in H. lia.
Qed.

Lemma drop_app (n : nat) (a x : string) :
  (n <= String.length a)%nat -> JS.drop n (a +:+ x) = JS.drop n a +:+ x.
Proof.
  revert a. induction n as [|n IH]; intros a H; [reflexivity|].
  destruct a as [|d a]; [simpl in H; lia|].
  cbn [append JS.drop]. apply IH. simpl in H. lia.
Qed.

Lemma prefix_length (p a : string) :
  String.prefix p a = true -> (String.length p <= String.length a)%nat.
Proof.
  revert a. induction p as [|c p IH]; intros a H; [simpl; lia|].
  destruct a as [|d a]; [discriminate H|].
  cbn [String.prefix] in H. destruct (Ascii.ascii_dec c d); [|discriminate H].
  simpl. apply IH in H. lia.
Qed.

Lemma afterScriptTag_length (a r : string) :
  afterScriptTag a = Some r -> (8 <= String.length a)%nat.
Proof.
  induction a as [|c a IH]; intros H; [discriminate H|].
  cbn [afterScriptTag] in H.
  destruct (String.prefix "<script>" (String c a)) eqn:E.
  - apply prefix_length in E. exact E.
  - apply IH in H. simpl. lia.
Qed.

(** The opening script tag of the template is found whatever text
    follows the template. *)
Lemma afterScriptTag_app (a x r : string) :
  afterScriptTag a = Some r -> afterScriptTag (a +:+ x) = Some (r +:+ x).
Proof.
  induction a as [|c a IH]; intros H; [discriminate H|].
  pose proof (afterScriptTag_length _ _ H) as Hlen.
  cbn [afterScriptTag] in H. cbn [append afterScriptTag].
  change (String c (a +:+ x)) with (String c a +:+ x).
  rewrite prefix_app_long by exact Hlen.
  destruct (String.prefix "<script>" (String c a)) eqn:E.
  - injection H as <-. rewrite drop_app by exact Hlen. reflexivity.
  - apply IH. exact H.
Qed.

(** The script text of the classifier build: its pieces open nothing,
    and its end is the closing tag of the template. *)
Lemma current_template :
  exists scriptHead afterFrameId scriptTail,
    afterScriptTag Current.docHead = Some (scriptHead +:+ dq)
    /\ Current.docAfterFrameId = dq +:+ afterFrameId
    /\ scriptFree scriptHead = true
    /\ scriptFree afterFrameId = true
    /\ scriptFree Current.docAfterLibraries = true
    /\ scriptData Current.docTail = Some (scriptTail, "</script></body></html>")
    /\ JS.includes scriptTail "new Function('root', userCodeToRun)(rootElement);" = true.
Proof.
  exists (let script := default EmptyString (afterScriptTag Current.docHead) in
          JS.take (String.length script - 1) script),
         (JS.drop 1 Current.docAfterFrameId),
         (JS.take (String.length Current.docTail - 23) Current.docTail).
  vm_compute. repeat split.
Qed.

(** C1 (as amended).  The classifier build.  For a frame identifier,
    library texts and a user source that hold neither [<!--] nor
    [</script], the script element the HTML parser delimits in the
    sandbox document is the whole script of the template: it ends at
    the closing tag of the template, and its text has one slot for the
    user code, filled by the JSON string literal of the code.  The
    JavaScript lexer reads that literal back as exactly the user's
    source and stops where the template resumes, so no quote,
    backslash, line break or backtick of the source ends the literal;
    the text after the slot runs the string through the Function
    constructor. *)
Theorem user_code_is_one_string_literal (libraryCodes : list string) (frameId : string) :
  scriptFree frameId = true ->
  forallb scriptFree libraryCodes = true ->
  exists pre post,
    (forall code,
        scriptFree code = true ->
        scriptOf (Current.iframeContent code libraryCodes frameId)
        = Some (pre +:+ JS.stringify code +:+ post, "</script></body></html>"))
    /\ (forall code, readStringLiteral (JS.stringify code +:+ post) = Some (code, post))
    /\ JS.includes post "new Function('root', userCodeToRun)(rootElement);" = true.
Proof.
  intros Hfid Hlibs.
  destruct current_template
    as (scriptHead & afterFrameId & scriptTail & H0 & H1 & H2 & H3 & H4 & H5 & H6).
  pose proof (concat_scriptFree libraryCodes EmptyString Hlibs eq_refl) as HL.
  rewrite append_nil_r in HL.
  exists (scriptHead +:+ dq +:+ frameId +:+ Current.docAfterFrameId
          +:+ JS.stringifyArray libraryCodes +:+ Current.docAfterLibraries), scriptTail.
  split; [|split; [intros code; apply literal_roundtrip | exact H6]].
  intros code Hcode.
  assert (Hq : forall u, dq +:+ u = String "034"%char u) by reflexivity.
  assert (Hs : forall c z, JS.stringify c +:+ z
                           = String "034"%char (JS.quoteBody c +:+ String "034"%char z)).
  { intros c z. unfold JS.stringify. rewrite !append_assoc. reflexivity. }
  assert (Ha : forall l z, JS.stringifyArray l +:+ z
                           = String "["%char (String.concat "," (map JS.stringify l)
                                              +:+ String "]"%char z)).
  { intros l z. unfold JS.stringifyArray, JS.join. rewrite !append_assoc. reflexivity. }
  unfold scriptOf, Current.iframeContent.
  rewrite (afterScriptTag_app _ _ _ H0). rewrite H1.
  rewrite !append_assoc, !Ha, !Hs, !Hq.
  rewrite (scriptData_skip scriptHead "034") by (try exact H2; reflexivity).
  rewrite (scriptData_skip frameId "034") by (try exact Hfid; reflexivity).
  rewrite (scriptData_skip afterFrameId "[") by (try exact H3; reflexivity).
  rewrite (scriptData_skip _ "]") by (try exact HL; reflexivity).
  rewrite (scriptData_skip Current.docAfterLibraries "034") by (try exact H4; reflexivity).
  rewrite (scriptData_skip (JS.quoteBody code) "034")
    by (try (apply quoteBody_scriptFree; exact Hcode); reflexivity).
  rewrite H5. cbn [before]. rewrite !append_assoc. reflexivity.
Qed.

Lemma user_code_is_one_string_literal_witness :
  exists pre post,
    (forall code,
        scriptFree code = true ->
        scriptOf (Current.iframeContent code ["/* d3 */"] "ember-frame-5-codeblock-17")
        = Some (pre +:+ JS.stringify code +:+ post, "</script></body></html>"))
    /\ (forall code, readStringLiteral (JS.stringify code +:+ post) = Some (code, post))
    /\ JS.includes post "new Function('root', userCodeToRun)(rootElement);" = true.
Proof.
  apply (user_code_is_one_string_literal ["/* d3 */"] "ember-frame-5-codeblock-17").
  - reflexivity.
  - reflexivity.
Defined.

(** C1, the claim as stated fails.  The first build splices the source
    unquoted into the body of a function: the script the parser
    delimits holds the source as it is, not its literal, so a source
    can close the body it is put into. *)
Lemma user_code_escapes_its_slot :
  let fid := "ember-frame-5-17" in
  Legacy.iframeContent bodyCloser [] fid
  = Legacy.docHead +:+ fid +:+ Legacy.docAfterFrameId +:+ "[]"
    +:+ Legacy.docAfterLibraries +:+ bodyCloser +:+ Legacy.docTail
  /\ JS.includes (Legacy.iframeContent bodyCloser [] fid) (JS.stringify bodyCloser) = false
  /\ match scriptOf (Legacy.iframeContent bodyCloser [] fid) with
     | Some (text, _) =>
         JS.includes text bodyCloser && negb (JS.includes text (JS.stringify bodyCloser))
     | None => false
     end = true.
Proof. vm_compute. repeat split. Qed.

(** The literal keeps a closing script tag of the source as it is:
    [JSON.stringify] escapes for the JavaScript lexer, not for the HTML
    parser that reads the document first.  In the classifier build the
    script element of a source that holds one ends inside the slot,
    and what is left of the literal does not close. *)
Lemma quoteBody_app (a b : string) :
  JS.quoteBody (a +:+ b) = JS.quoteBody a +:+ JS.quoteBody b.
Proof.
  induction a as [|c a IH]; [reflexivity|].
  cbn [append JS.quoteBody]. rewrite IH, append_assoc. reflexivity.
Qed.

Lemma stringify_keeps_closing_tag (a b : string) :
  JS.stringify (a +:+ "</script>" +:+ b)
  = dq +:+ JS.quoteBody a +:+ "</script>" +:+ JS.quoteBody b +:+ dq.
Proof.
  unfold JS.stringify. rewrite !quoteBody_app, !append_assoc. reflexivity.
Qed.

Lemma closing_tag_ends_script_in_slot :
  let fid := "ember-frame-5-codeblock-17" in
  match scriptOf (Current.iframeContent markupWriter [] fid) with
  | Some (text, after) =>
      String.eqb after ("</script>';" +:+ dq +:+ Current.docTail)
      && match afterScriptTag Current.docHead with
         | Some scriptHead =>
             let pre := scriptHead +:+ fid +:+ Current.docAfterFrameId +:+ "[]"
                        +:+ Current.docAfterLibraries in
             String.prefix pre text
             && bool_decide (readStringLiteral (JS.drop (String.length pre) text) = None)
         | None => false
         end
  | None => false
  end = true.
Proof. vm_compute. reflexivity. Qed.

(** In either loop the identifier of a new context is a function of the
    message and of the clock alone. *)
Lemma frameId_of_clock (syntaxOk : string -> bool) (origin messageId : string)
  (st : pass) (b : codeBlock) (e : env) (f : frame) :
  created (fst (Current.processCodeBlock syntaxOk origin messageId st b e))
  = (created st ++ [f])%list ->
  frameId f = "ember-frame-" +:+ messageId +:+ "-codeblock-" +:+ JS.toString (now e).
Proof.
  intros H.
  destruct (reachesLedger b) eqn:Hr.
  - destruct (decide (blockKey b ∈ processedScriptHashes st)) as [Hin|Hin].
    + rewrite (block_duplicate syntaxOk origin messageId st b e Hr Hin) in H.
      cbn [fst] in H. rewrite <- (app_nil_r (created st)) in H at 1.
      apply app_inv_head in H. discriminate H.
    + rewrite (block_fresh syntaxOk origin messageId st b e Hr Hin) in H. cbv zeta in H.
      destruct (syntaxOk (blockCode b)); cbn [negb] in H;
        [destruct (fetchAll e _)|]; cbn [fst created addFrame addLoading logError
                                             setProcessedByEmberJs addHash] in H.
      * apply app_inv_head in H. injection H as <-. reflexivity.
      * rewrite <- (app_nil_r (created st)) in H at 1.
        apply app_inv_head in H. discriminate H.
      * rewrite <- (app_nil_r (created st)) in H at 1.
        apply app_inv_head in H. discriminate H.
  - destruct (block_not_reaching syntaxOk origin messageId st b e Hr) as (Hc & _ & _).
    rewrite Hc in H. rewrite <- (app_nil_r (created st)) in H at 1.
    apply app_inv_head in H. discriminate H.
Qed.

(* ===================================================================== *)
(** ** Further properties: message router *)
(* ===================================================================== *)


Lemma updateFirst_none {A} (p : A -> bool) (f : A -> A) (l : list A) :
  List.find p l = None -> updateFirst p f l = l.
Proof.
  induction l as [|x t IH]; simpl; [reflexivity|].
  destruct (p x); [discriminate|]. intros H. rewrite IH by exact H. reflexivity.
Qed.






(** X3.  A report that names, by a plain identifier, a frame no
    container of the page carries is ignored: the page, the table of
    maxima, the repair calls and the commands sent stay exactly as
    they were.  The one exception is an injection request, which the
    listener runs without looking for the frame. *)
Theorem unknown_frame_report_ignored (cap : option Z) (h : host) (d : eventData) :
  plainId (ev_frameId d) = true ->
  List.find (isLoading (ev_frameId d)) (h_loadings h) = None ->
  List.find (isFinal (ev_frameId d)) (h_finals h) = None ->
  type d <> "ember-inject-js" ->
  onMessage cap h d = h.
Proof.
  intros _ HL HF Ht. unfold onMessage.
  destruct (negb _); [reflexivity|].
  destruct (String.eqb (type d) "ember-error"); [rewrite HL; reflexivity|].
  destruct (String.eqb (type d) "ember-success").
  { rewrite !updateFirst_none by assumption. destruct h; reflexivity. }
  destruct (String.eqb (type d) "ember-resize"); [rewrite HF; reflexivity|].
  destruct (String.eqb_spec (type d) "ember-inject-js"); [contradiction | reflexivity].
Qed.

Lemma unknown_frame_report_ignored_witness :
  Current.onMessage host3 (successReport "ember-frame-9-codeblock-1700000000000") = host3.
Proof.
  apply (unknown_frame_report_ignored (Some 600%Z) host3
           (successReport "ember-frame-9-codeblock-1700000000000")).
  - reflexivity.
  - reflexivity.
  - reflexivity.
  - intros H. discriminate H.
Defined.

Lemma split_go_dashFree (m : string) :
  forall (fuel : nat) (cur rest : string),
    dashFree m = true ->
    (String.length m < fuel)%nat ->
    JS.split_go fuel "-" cur (m +:+ String "-" rest)
    = (cur +:+ m) :: JS.split_go (fuel - S (String.length m)) "-" EmptyString rest.
Proof.
  induction m as [|c t IH]; intros fuel cur rest Hd Hf;
    (destruct fuel as [|fuel]; [simpl in Hf; lia|]).
  - replace (S fuel - S (String.length EmptyString))%nat with fuel by (simpl; lia).
    cbn [append JS.split_go String.prefix String.length JS.drop].
    rewrite append_nil_r. destruct (Ascii.ascii_dec "-" "-"); [|congruence].
    destruct rest; reflexivity.
  - cbn [dashFree] in Hd. apply andb_true_iff in Hd as [Hc Hd].
    apply negb_true_iff in Hc.
    cbn [append JS.split_go String.prefix String.length].
    rewrite Ascii.eqb_sym in Hc.
    replace (if Ascii.ascii_dec "-" c then _ else false) with false.
    2:{ destruct (Ascii.ascii_dec "-" c) as [E|E]; [|reflexivity].
        subst c. discriminate Hc. }
    rewrite IH by (try exact Hd; simpl in Hf; lia).
    rewrite append_assoc. reflexivity.
Qed.

(** The listener reads the owner of a frame back from its identifier. *)
Lemma frameId_owner (messageId rest : string) :
  dashFree messageId = true ->
  nth 2 (JS.split ("ember-frame-" +:+ messageId +:+ "-" +:+ rest) "-") EmptyString
  = messageId.
Proof.
  intros Hd. unfold JS.split.
  change ("ember-frame-" +:+ messageId +:+ "-" +:+ rest)
    with ("ember" +:+ String "-" ("frame" +:+ String "-" (messageId +:+ String "-" rest))).
  rewrite (split_go_dashFree "ember"); [|reflexivity|simpl; lia].
  rewrite (split_go_dashFree "frame"); [|reflexivity|simpl; lia].
  rewrite (split_go_dashFree messageId); [|exact Hd|].
  2:{ simpl. rewrite append_length. simpl. lia. }
  reflexivity.
Qed.

(** X4.  An error report is routed to the message that owns the frame.
    For a frame identifier of any of the shapes the processors build,
    [ember-frame-<message>-<rest>] with a message identifier that holds
    no dash, the listener asks for a repair of exactly that message,
    with the reported text, when the message has a processed code
    element and the text starts with [Ember Execution Error:]; in every
    other case it asks for none. *)
Theorem execution_error_reaches_owner (cap : option Z) (h : host)
  (messageId rest text : string) :
  dashFree messageId = true ->
  List.find (isLoading ("ember-frame-" +:+ messageId +:+ "-" +:+ rest)) (h_loadings h)
    <> None ->
  healCalls (onMessage cap h
               (errorReport ("ember-frame-" +:+ messageId +:+ "-" +:+ rest) text))
  = if processedCode h messageId && JS.startsWith text "Ember Execution Error:"
    then (healCalls h ++ [(messageId, text)])%list
    else healCalls h.
Proof.
  intros Hd Hl. unfold onMessage.
  cbn [type errorReport ev_frameId message].
  change (negb (JS.startsWith "ember-error" "ember-")) with false. cbv iota.
  change (String.eqb "ember-error" "ember-error") with true. cbv iota.
  destruct (List.find _ (h_loadings h)); [|contradiction].
  cbn [healCalls]. rewrite (frameId_owner messageId rest Hd). reflexivity.
Qed.

Lemma execution_error_reaches_owner_witness :
  healCalls (onMessage None host2
               (errorReport ("ember-frame-" +:+ "6" +:+ "-" +:+ "1700000000900")
                  "Ember Execution Error: boom"))
  = if processedCode host2 "6"
       && JS.startsWith "Ember Execution Error: boom" "Ember Execution Error:"
    then (healCalls host2 ++ [("6", "Ember Execution Error: boom")])%list
    else healCalls host2.
Proof.
  apply (execution_error_reaches_owner None host2 "6" "1700000000900"
           "Ember Execution Error: boom").
  - reflexivity.
  - vm_compute. intros H. discriminate H.
Defined.

Lemma replaceAll_quote (rest : string) :
  forall (pre : string) (prev : option ascii) (fuel : nat),
    (String.length rest < fuel)%nat ->
    Regex.replaceAll_go fuel Regex.noFlags (Regex.re dq) ("\" +:+ dq)
      (pre +:+ rest) prev rest (String.length pre)
    = escapeQuotes rest.
Proof.
  change (Regex.re dq) with (Regex.Seq (Regex.Lit "034") Regex.Empty).
  induction rest as [|c t IH]; intros pre prev fuel Hf;
    (destruct fuel as [|fuel]; [simpl in Hf; lia|]).
  - reflexivity.
  - assert (Hnext : Regex.replaceAll_go fuel Regex.noFlags
                      (Regex.Seq (Regex.Lit "034") Regex.Empty) ("\" +:+ dq)
                      (pre +:+ String c t) (Some c) t (S (String.length pre))
                    = escapeQuotes t).
    { replace (pre +:+ String c t) with ((pre +:+ String c EmptyString) +:+ t)
        by (rewrite append_assoc; reflexivity).
      replace (S (String.length pre)) with (String.length (pre +:+ String c EmptyString))
        by (rewrite append_length; simpl; lia).
      apply IH. simpl in Hf. lia. }
    cbn [Regex.replaceAll_go Regex.matchAt Regex.m Regex.Lit Regex.step Regex.m_rest
           Regex.m_pos Regex.m_caps Regex.m_prev].
    unfold Regex.class_match, Regex.item_match, Regex.sameChar.
    cbn [Regex.ignoreCase Regex.noFlags existsb orb xorb escapeQuotes].
    rewrite (Ascii.eqb_sym "034" c).
    assert (Hexp : forall a b d caps, Regex.expand ("\" +:+ dq) a b d caps = "\" +:+ dq)
      by reflexivity.
    destruct (Ascii.eqb c "034") eqn:E;
      cbn [orb Regex.m_pos Regex.m_prev Regex.m_rest Regex.m_caps].
    + rewrite (proj2 (Nat.eqb_neq (S (String.length pre)) (String.length pre))) by lia.
      rewrite Hnext, Hexp. apply Ascii.eqb_eq in E. subst c. reflexivity.
    + rewrite Hnext. reflexivity.
Qed.

Lemma quotesEscaped_escapeQuotes (s : string) :
  forall prev, quotesEscaped prev (escapeQuotes s) = true.
Proof.
  induction s as [|c t IH]; intros prev; [reflexivity|].
  cbn [escapeQuotes]. destruct (Ascii.eqb c "034") eqn:E.
  - apply Ascii.eqb_eq in E. subst c. cbn [quotesEscaped].
    rewrite IH. reflexivity.
  - cbn [quotesEscaped]. rewrite E, IH. reflexivity.
Qed.

(** X5.  The command the listener builds for an injection request puts
    a backslash before every double quote of the identifier and of the
    content and changes nothing else in them, so that in both every
    double quote comes right after a backslash.  A backslash of the
    text itself is left as it is.  The depth stands in the command as
    the template prints it. *)
Theorem inject_command_escapes_quotes (i : injection) :
  injectCommand i
  = "/inject id=" +:+ dq +:+ escapeQuotes (inj_id i) +:+ dq +:+ " depth="
    +:+ inj_depth i +:+ " content=" +:+ dq
    +:+ escapeQuotes (inj_content i) +:+ dq
    +:+ (if inj_ephemeral i then " ephemeral=true" else EmptyString)
  /\ quotesEscaped None (escapeQuotes (inj_id i)) = true
  /\ quotesEscaped None (escapeQuotes (inj_content i)) = true.
Proof.
  split; [|split; apply quotesEscaped_escapeQuotes].
  unfold injectCommand, Regex.replaceAll.
  rewrite (replaceAll_quote (inj_id i) EmptyString None) by lia.
  rewrite (replaceAll_quote (inj_content i) EmptyString None) by lia.
  reflexivity.
Qed.

(* ===================================================================== *)
(** ** Further properties: contexts and their containers *)
(* ===================================================================== *)

Lemma containersInv_keep (st st' : pass) :
  containersInv st ->
  created st' = created st ->
  (forall c, In c (finals st) -> In c (finals st')) ->
  (forall l, In l (loadings st) -> In l (loadings st')) ->
  containersInv st'.
Proof.
  unfold containersInv. intros H Hc Hf Hl. rewrite Hc.
  eapply Forall_impl; [exact H|].
  intros f [H1 (l & H2 & H3)]. split; [apply Hf, H1|].
  exists l. split; [apply Hl, H2 | exact H3].
Qed.

Lemma containersInv_new (st : pass) (f : frame) (l : loadingContainer) :
  containersInv st ->
  l_frameId l = Some (frameId f) ->
  containersInv (addFrame f (addLoading l st)).
Proof.
  unfold containersInv. intros H Hl.
  cbn [created finals loadings addFrame addLoading].
  apply Forall_app. split.
  - eapply Forall_impl; [exact H|].
    intros g [H1 (l0 & H2 & H3)]. split; [apply in_or_app; left; exact H1|].
    exists l0. split; [apply in_or_app; left; exact H2 | exact H3].
  - constructor; [|constructor]. split.
    + apply in_or_app. right. left. reflexivity.
    + exists l. split; [apply in_or_app; right; left; reflexivity | exact Hl].
Qed.

Lemma find_some_in {A} (p : A -> bool) (l : list A) (x : A) :
  In x l -> p x = true -> exists y, List.find p l = Some y /\ p y = true.
Proof.
  induction l as [|a t IH]; intros Hin Hp; [destruct Hin|].
  simpl. destruct (p a) eqn:E; [exists a; auto|].
  destruct Hin as [->|Hin]; [congruence | apply IH; assumption].
Qed.

Lemma nodup_map_eq {A B} (g : A -> B) (l : list A) (a b : A) :
  NoDup (map g l) -> In a l -> In b l -> g a = g b -> a = b.
Proof.
  induction l as [|x t IH]; intros Hnd Ha Hb Hg; [destruct Ha|].
  simpl in Hnd. apply NoDup_cons in Hnd as [Hx Hnd].
  destruct Ha as [->|Ha], Hb as [->|Hb]; [reflexivity | | |apply IH; assumption].
  - exfalso. apply Hx. rewrite Hg. apply list_elem_of_In, in_map, Hb.
  - exfalso. apply Hx. rewrite <- Hg. apply list_elem_of_In, in_map, Ha.
Qed.

(** On a page that holds the containers of a pass and labels no two
    final containers alike, a success report reveals the container of
    the frame it names. *)
Lemma containers_revealable (cap : option Z) (st : pass) (h : host) (f : frame) :
  containersInv st ->
  (forall c, In c (finals st) -> In c (h_finals h)) ->
  (forall l, In l (loadings st) -> In l (h_loadings h)) ->
  NoDup (map c_frameId (h_finals h)) ->
  In f (created st) ->
  let h' := onMessage cap h (successReport (frameId f)) in
  (exists c, List.find (isFinal (frameId f)) (h_finals h') = Some c
             /\ c_frame c = Some f /\ c_display c = "block")
  /\ (exists l, List.find (isLoading (frameId f)) (h_loadings h') = Some l
                /\ l_display l = "none").
Proof.
  intros Hinv Hfin Hload Hnd Hf h'.
  unfold containersInv in Hinv. rewrite Forall_forall in Hinv.
  destruct (Hinv f (proj2 (list_elem_of_In _ _) Hf)) as [Hc (l & Hl & Hid)].
  subst h'. unfold onMessage.
  cbn [type successReport ev_frameId].
  change (negb (JS.startsWith "ember-success" "ember-")) with false. cbv iota.
  change (String.eqb "ember-success" "ember-error") with false. cbv iota.
  change (String.eqb "ember-success" "ember-success") with true. cbv iota.
  cbn [h_finals h_loadings].
  rewrite !find_updateFirst_same by reflexivity.
  split.
  - destruct (find_some_in (isFinal (frameId f)) (h_finals h) (containerOf f))
      as (c1 & Hfind & Hp); [apply Hfin, Hc | apply String.eqb_refl|].
    rewrite Hfind. cbn [fmap option_fmap option_map].
    destruct (List.find_some _ _ Hfind) as [Hin1 _].
    assert (c1 = containerOf f) as ->.
    { apply (nodup_map_eq c_frameId (h_finals h)); [exact Hnd | exact Hin1 | apply Hfin, Hc|].
      apply String.eqb_eq in Hp. exact Hp. }
    eexists. split; [reflexivity|]. split; reflexivity.
  - destruct (find_some_in (isLoading (frameId f)) (h_loadings h) l)
      as (l1 & Hfind & Hp); [apply Hload, Hl | unfold isLoading; apply bool_decide_eq_true, Hid|].
    rewrite Hfind. eexists. split; reflexivity.
Qed.

Section CurrentContainers.

Variable syntaxOk : string -> bool.
Variable origin : string.
Variable messageId : string.

Ltac block_round st b e :=
  destruct (reachesLedger b) eqn:?Hreach;
  [ destruct (decide (blockKey b ∈ processedScriptHashes st)) as [?Hin|?Hin];
    [ rewrite (block_duplicate syntaxOk origin messageId st b e) by assumption
    | rewrite (block_fresh syntaxOk origin messageId st b e) by assumption; cbv zeta;
      destruct (syntaxOk (blockCode b)) eqn:?Hok; cbn [negb];
      [ destruct (fetchAll e (Current.libUrls origin Current.requestedLibs)) eqn:?Hfetch | ] ]
  | idtac ].

Ltac script_round st sc e :=
  destruct (inlineScript sc) eqn:?Hinline;
  [ destruct (decide (scriptKey sc ∈ processedScriptHashes st)) as [?Hin|?Hin];
    [ rewrite (script_skipped syntaxOk origin messageId st sc e) by (left; assumption)
    | rewrite (script_fresh syntaxOk origin messageId st sc e) by assumption; cbv zeta;
      destruct (syntaxOk (JS.trim (Current.s_innerHTML sc))) eqn:?Hok; cbn [negb];
      [ destruct (fetchAll e (Current.libUrls origin Current.requestedLibs)) eqn:?Hfetch | ] ]
  | rewrite (script_skipped syntaxOk origin messageId st sc e) by (right; assumption) ].

Lemma block_not_reaching_same (st : pass) (b : codeBlock) (e : env) :
  reachesLedger b = false ->
  finals (fst (Current.processCodeBlock syntaxOk origin messageId st b e)) = finals st
  /\ loadings (fst (Current.processCodeBlock syntaxOk origin messageId st b e)) = loadings st
  /\ created (fst (Current.processCodeBlock syntaxOk origin messageId st b e)) = created st.
Proof.
  unfold reachesLedger, Current.processCodeBlock. intros H.
  destruct (Current.isJavaScript _); cbn [negb andb] in *; [|auto].
  destruct (bool_decide (emberProcessed b = Some "true")); cbn [negb andb] in *; [auto|].
  rewrite H. cbn [negb]. auto.
Qed.

Lemma block_step_containers (st : pass) (b : codeBlock) (e : env) :
  containersInv st ->
  containersInv (fst (Current.processCodeBlock syntaxOk origin messageId st b e)).
Proof.
  intros Hinv. block_round st b e; cbn [fst].
  - exact Hinv.
  - apply containersInv_new; [|reflexivity].
    eapply containersInv_keep; [exact Hinv | reflexivity | auto | auto].
  - eapply containersInv_keep; [exact Hinv | reflexivity | auto |].
    intros l Hl. cbn [loadings addLoading logError setProcessedByEmberJs addHash].
    apply in_or_app. left. exact Hl.
  - eapply containersInv_keep; [exact Hinv | reflexivity | auto | auto].
  - destruct (block_not_reaching_same st b e Hreach) as (H1 & H2 & H3).
    eapply containersInv_keep; [exact Hinv | exact H3 | rewrite H1; auto | rewrite H2; auto].
Qed.

Lemma script_step_containers (st : pass) (sc : Current.script) (e : env) :
  containersInv st ->
  containersInv (fst (Current.processScript syntaxOk origin messageId st sc e)).
Proof.
  intros Hinv. script_round st sc e; cbn [fst]; try exact Hinv.
  - apply containersInv_new; [|reflexivity].
    eapply containersInv_keep; [exact Hinv | reflexivity | auto | auto].
  - eapply containersInv_keep; [exact Hinv | reflexivity | auto |].
    intros l Hl. cbn [loadings addLoading logError addHash].
    apply in_or_app. left. exact Hl.
Qed.

Lemma current_pass_containers (msg : Current.message) :
  containersInv (fst (Current.processMessage syntaxOk origin messageId msg)).
Proof.
  assert (H0 : containersInv startPass) by constructor.
  assert (Hb : forall blocks st, containersInv st ->
                 containersInv (fst (Current.processCodeBlocks syntaxOk origin messageId
                                       st blocks))).
  { intros blocks. apply (blocks_fold syntaxOk origin messageId containersInv).
    intros st b e. apply block_step_containers. }
  assert (Hsc : forall scripts st any, containersInv st ->
                 containersInv (fst (Current.processScripts syntaxOk origin messageId
                                       st any scripts))).
  { intros scripts. apply (scripts_fold syntaxOk origin messageId containersInv).
    intros st sc e. apply script_step_containers. }
  unfold Current.processMessage.
  destruct (negb (Current.ready msg)); [exact H0|].
  destruct (from_option truthy false (Current.rawMessageContent msg)); [|apply Hb, H0].
  unfold Current.processScriptTagsInHTML.
  destruct (Current.rawScripts msg) as [|s0 rest] eqn:Es; [apply Hb, H0|].
  specialize (Hsc (s0 :: rest) startPass false H0).
  destruct (Current.processScripts syntaxOk origin messageId startPass false (s0 :: rest))
    as [st any].
  destruct any; apply Hb; exact Hsc.
Qed.

End CurrentContainers.

(** X6.  Every context a pass of the classifier build creates can be
    revealed.  Take the state the pass ends in, and a page that holds
    the containers of the pass among its own and labels no two final
    containers with the same frame identifier.  When the success
    report of a context of the pass arrives, the listener finds the
    final container that holds exactly that context and shows it, and
    it hides a loading container of that context.  (Without the
    condition on the labels the container found may belong to another
    context with the same identifier.) *)
Theorem contexts_of_a_pass_can_be_revealed (syntaxOk : string -> bool)
  (origin messageId : string) (msg : Current.message) (h : host) (f : frame) :
  plainId messageId = true ->
  (forall c, In c (finals (fst (Current.processMessage syntaxOk origin messageId msg))) ->
             In c (h_finals h)) ->
  (forall l, In l (loadings (fst (Current.processMessage syntaxOk origin messageId msg))) ->
             In l (h_loadings h)) ->
  NoDup (map c_frameId (h_finals h)) ->
  In f (created (fst (Current.processMessage syntaxOk origin messageId msg))) ->
  (exists c, List.find (isFinal (frameId f))
               (h_finals (Current.onMessage h (successReport (frameId f)))) = Some c
             /\ c_frame c = Some f /\ c_display c = "block")
  /\ (exists l, List.find (isLoading (frameId f))
                  (h_loadings (Current.onMessage h (successReport (frameId f)))) = Some l
                /\ l_display l = "none").
Proof.
  intros _. apply containers_revealable. apply current_pass_containers.
Qed.

Lemma contexts_of_a_pass_can_be_revealed_witness :
  let st := fst (Current.processMessage (fun _ => true) "http://localhost:8000" "5"
                   scenarioA) in
  let f := Current.createSandboxedFrame
             "const d=document.createElement('div');d.textContent='hi';root.appendChild(d);"
             (map (fun lib => "/* " +:+ libUrl "http://localhost:8000" lib +:+ " */")
                BUILT_IN_LIBRARIES)
             "ember-frame-5-codeblock-1700000000000" in
  (exists c, List.find (isFinal (frameId f))
               (h_finals (Current.onMessage (pageAfter st) (successReport (frameId f))))
             = Some c
             /\ c_frame c = Some f /\ c_display c = "block")
  /\ (exists l, List.find (isLoading (frameId f))
                  (h_loadings (Current.onMessage (pageAfter st) (successReport (frameId f))))
                = Some l
                /\ l_display l = "none").
Proof.
  intros st f.
  apply (contexts_of_a_pass_can_be_revealed (fun _ => true) "http://localhost:8000" "5"
           scenarioA (pageAfter st) f).
  - reflexivity.
  - intros c Hc. exact Hc.
  - intros l Hl. exact Hl.
  - vm_compute. apply NoDup_singleton.
  - vm_compute. left. reflexivity.
Defined.

Lemma fetchAll_fails (e : env) (urls : list string) (u : string) :
  In u urls -> fetch e u = None -> fetchAll e urls = None.
Proof.
  induction urls as [|x t IH]; intros Hin Hu; [destruct Hin|].
  cbn [fetchAll]. destruct Hin as [->|Hin].
  - rewrite Hu. reflexivity.
  - rewrite (IH Hin Hu). destruct (fetch e x); reflexivity.
Qed.

(** The classifier build asks for every bundle of the registry. *)
Lemma current_requests_every_bundle (origin : string) :
  Current.libUrls origin Current.requestedLibs = map (libUrl origin) BUILT_IN_LIBRARIES.
Proof. reflexivity. Qed.

(** X7.  A bundle that cannot be fetched blocks the context.  In the
    classifier build, which loads all six bundles for every fragment,
    one missing bundle is enough: no code block and no raw script gets
    a context, whatever its code; a block that had passed the syntax
    check is marked [false] and the failure is logged. *)
Theorem missing_bundle_blocks_the_context (syntaxOk : string -> bool)
  (origin messageId : string) (e : env) (lib : library) :
  In lib BUILT_IN_LIBRARIES ->
  fetch e (libUrl origin lib) = None ->
  (forall st b,
      created (fst (Current.processCodeBlock syntaxOk origin messageId st b e)) = created st
      /\ (reachesLedger b = true ->
          blockKey b ∉ processedScriptHashes st ->
          syntaxOk (blockCode b) = true ->
          emberProcessed (snd (Current.processCodeBlock syntaxOk origin messageId st b e))
          = Some "false"
          /\ console (fst (Current.processCodeBlock syntaxOk origin messageId st b e))
             = (console st ++ [SandboxError])%list))
  /\ (forall st sc,
        snd (Current.processScript syntaxOk origin messageId st sc e) = false
        /\ created (fst (Current.processScript syntaxOk origin messageId st sc e))
           = created st).
Proof.
  intros Hlib Hfail.
  assert (Hcur : fetchAll e (Current.libUrls origin Current.requestedLibs) = None).
  { rewrite current_requests_every_bundle.
    apply (fetchAll_fails e _ (libUrl origin lib)); [apply in_map, Hlib | exact Hfail]. }
  split.
  - intros st b. split.
    + destruct (reachesLedger b) eqn:Hr.
      * destruct (decide (blockKey b ∈ processedScriptHashes st)) as [Hin|Hin].
        -- rewrite (block_duplicate syntaxOk origin messageId st b e Hr Hin). reflexivity.
        -- rewrite (block_fresh syntaxOk origin messageId st b e Hr Hin). cbv zeta.
           rewrite Hcur. destruct (syntaxOk (blockCode b)); reflexivity.
      * apply (block_not_reaching syntaxOk origin messageId st b e Hr).
    + intros Hr Hin Hok.
      rewrite (block_fresh syntaxOk origin messageId st b e Hr Hin). cbv zeta.
      rewrite Hcur, Hok. split; reflexivity.
  - intros st sc.
    destruct (inlineScript sc) eqn:Hi.
    + destruct (decide (scriptKey sc ∈ processedScriptHashes st)) as [Hin|Hin].
      * rewrite (script_skipped syntaxOk origin messageId st sc e) by (left; exact Hin).
        split; reflexivity.
      * rewrite (script_fresh syntaxOk origin messageId st sc e Hi Hin). cbv zeta.
        rewrite Hcur. destruct (syntaxOk _); split; reflexivity.
    + rewrite (script_skipped syntaxOk origin messageId st sc e) by (right; exact Hi).
      split; reflexivity.
Qed.

Lemma missing_bundle_blocks_the_context_witness :
  let e := envWithout
             "http://localhost:8000/scripts/extensions/third-party/Ember/lib/p5.v1.4.0.min.js"
             1700000000000 in
  let b := sampleBlock "language-javascript" "root.textContent = 'hi';" in
  created (fst (Current.processCodeBlock (fun _ => true) "http://localhost:8000" "5"
                  startPass b e))
  = created startPass
  /\ emberProcessed (snd (Current.processCodeBlock (fun _ => true) "http://localhost:8000"
                            "5" startPass b e))
     = Some "false".
Proof.
  intros e b.
  destruct (proj1 (missing_bundle_blocks_the_context (fun _ => true) "http://localhost:8000"
                     "5" e {| alias := "p5"; file := "p5.v1.4.0.min.js" |}
                     ltac:(vm_compute; tauto) ltac:(reflexivity)) startPass b)
    as [H1 H2].
  split; [exact H1|].
  apply H2; [reflexivity | vm_compute; set_solver | reflexivity].
Defined.

(** X8.  The raw-script pass runs inline scripts only.  Every context
    it adds runs the trimmed text of a script element of the message
    that has no source address; that text is not empty and passed the
    syntax check, and the frame identifier is built from the message
    and the clock.  A message whose script elements all have a source
    address gets no context from this pass, and the pass reports that it
    handled nothing. *)
Theorem raw_script_contexts_come_from_inline_scripts (syntaxOk : string -> bool)
  (origin messageId : string) (scripts : list (Current.script * env)) (st : pass) :
  (forall f,
      In f (created (fst (Current.processScriptTagsInHTML syntaxOk origin messageId
                            scripts st))) ->
      In f (created st)
      \/ exists sc e,
           In (sc, e) scripts
           /\ from_option truthy false (Current.s_src sc) = false
           /\ userCode f = JS.trim (Current.s_innerHTML sc)
           /\ userCode f <> EmptyString
           /\ syntaxOk (userCode f) = true
           /\ frameId f = "ember-frame-" +:+ messageId +:+ "-script-" +:+ JS.toString (now e))
  /\ ((forall sc e, In (sc, e) scripts ->
         from_option truthy false (Current.s_src sc) = true) ->
      Current.processScriptTagsInHTML syntaxOk origin messageId scripts st = (st, false)).
Proof.
  assert (Hgen : forall scripts st any f,
             In f (created (fst (Current.processScripts syntaxOk origin messageId
                                   st any scripts))) ->
             In f (created st)
             \/ exists sc e,
                  In (sc, e) scripts
                  /\ from_option truthy false (Current.s_src sc) = false
                  /\ userCode f = JS.trim (Current.s_innerHTML sc)
                  /\ userCode f <> EmptyString
                  /\ syntaxOk (userCode f) = true
                  /\ frameId f = "ember-frame-" +:+ messageId +:+ "-script-"
                                 +:+ JS.toString (now e)).
  { clear scripts st.
    induction scripts as [|[sc e] rest IH]; intros st any f Hf; [left; exact Hf|].
    cbn [Current.processScripts] in Hf.
    destruct (Current.processScript syntaxOk origin messageId st sc e) as [st1 flag] eqn:E.
    destruct (IH st1 _ f Hf) as [H1|(sc' & e' & Hin & Hrest)].
    2:{ right. exists sc', e'. split; [right; exact Hin | exact Hrest]. }
    destruct (inlineScript sc) eqn:Hi.
    - destruct (decide (scriptKey sc ∈ processedScriptHashes st)) as [Hk|Hk].
      + rewrite (script_skipped syntaxOk origin messageId st sc e) in E by (left; exact Hk).
        injection E as <- <-. left. exact H1.
      + rewrite (script_fresh syntaxOk origin messageId st sc e Hi Hk) in E. cbv zeta in E.
        destruct (syntaxOk (JS.trim (Current.s_innerHTML sc))) eqn:Hok; cbn [negb] in E.
        * destruct (fetchAll e _); injection E as <- <-.
          -- cbn [created addFrame addLoading addHash] in H1.
             apply in_app_or in H1 as [H1|[<-|[]]]; [left; exact H1|].
             right. exists sc, e. split; [left; reflexivity|].
             unfold inlineScript in Hi. apply andb_true_iff in Hi as [Hs Ht].
             apply negb_true_iff in Hs.
             cbn [userCode frameId Current.createSandboxedFrame].
             split; [exact Hs|]. split; [reflexivity|].
             split; [apply truthy_true, Ht|]. split; [exact Hok | reflexivity].
          -- left. exact H1.
        * injection E as <- <-. left. exact H1.
    - rewrite (script_skipped syntaxOk origin messageId st sc e) in E by (right; exact Hi).
      injection E as <- <-. left. exact H1. }
  split.
  - intros f Hf. unfold Current.processScriptTagsInHTML in Hf.
    destruct scripts as [|s0 rest]; [left; exact Hf|].
    apply (Hgen _ _ _ _ Hf).
  - intros Hext. unfold Current.processScriptTagsInHTML.
    destruct scripts as [|s0 rest] eqn:Es; [reflexivity|]. rewrite <- Es in *. clear Es.
    assert (Hall : forall any, Current.processScripts syntaxOk origin messageId st any scripts
                               = (st, any)).
    { induction scripts as [|[sc e] t IH]; intros any; [reflexivity|].
      cbn [Current.processScripts].
      rewrite (script_skipped syntaxOk origin messageId st sc e).
      - rewrite orb_false_r. apply IH. intros sc' e' Hin. apply (Hext sc' e'). right. exact Hin.
      - right. unfold inlineScript. rewrite (Hext sc e) by (left; reflexivity). reflexivity. }
    apply Hall.
Qed.

(* ===================================================================== *)
(** ** Further properties: dedup fingerprint *)
(* ===================================================================== *)

Lemma toInt32_congr (x y : Z) :
  (x mod 2 ^ 32 = y mod 2 ^ 32)%Z -> Current.toInt32 x = Current.toInt32 y.
Proof.
  intros H. unfold Current.toInt32.
  rewrite (Z.add_mod x), (Z.add_mod y), H by lia. reflexivity.
Qed.

Lemma toInt32_mod (x : Z) : (Current.toInt32 x mod 2 ^ 32 = x mod 2 ^ 32)%Z.
Proof.
  unfold Current.toInt32.
  rewrite Zminus_mod, Z.mod_mod by lia.
  rewrite <- Zminus_mod. f_equal. lia.
Qed.

Lemma toInt32_range (x : Z) : (- 2 ^ 31 <= Current.toInt32 x < 2 ^ 31)%Z.
Proof.
  unfold Current.toInt32.
  pose proof (Z.mod_pos_bound (x + 2 ^ 31) (2 ^ 32) ltac:(lia)). lia.
Qed.

(** One round of the loop multiplies by 31 and adds the code unit,
    in 32-bit arithmetic. *)
Lemma hashStep_linear (h : Z) (c : ascii) :
  Current.hashStep h c = Current.toInt32 (31 * h + Current.charCode c).
Proof.
  unfold Current.hashStep. apply toInt32_congr.
  rewrite Z.shiftl_mul_pow2 by lia.
  rewrite Zplus_mod, Zminus_mod, toInt32_mod.
  rewrite <- Zminus_mod, <- Zplus_mod. f_equal. lia.
Qed.

Lemma hashStep_Aa_BB (h : Z) :
  Current.hashStep (Current.hashStep h "A") "a"
  = Current.hashStep (Current.hashStep h "B") "B".
Proof.
  rewrite (hashStep_linear (Current.hashStep h "A")),
          (hashStep_linear (Current.hashStep h "B")).
  apply toInt32_congr.
  rewrite !hashStep_linear.
  rewrite (Zplus_mod (31 * _)), (Zmult_mod 31 (Current.toInt32 _)), toInt32_mod.
  rewrite <- Zmult_mod, <- Zplus_mod.
  symmetry.
  rewrite (Zplus_mod (31 * _)), (Zmult_mod 31 (Current.toInt32 _)), toInt32_mod.
  rewrite <- Zmult_mod, <- Zplus_mod.
  f_equal. change (Current.charCode "A") with 65%Z.
  change (Current.charCode "a") with 97%Z. change (Current.charCode "B") with 66%Z. lia.
Qed.

Lemma hashLoop_app (a b : string) :
  forall h, Current.hashLoop h (a +:+ b) = Current.hashLoop (Current.hashLoop h a) b.
Proof.
  induction a as [|c a IH]; intros h; [reflexivity|].
  cbn [append Current.hashLoop]. apply IH.
Qed.

(** Writing [BB] for [Aa] anywhere in a text keeps its fingerprint. *)
Lemma hashKey_Aa_BB (pre post : string) :
  Current.hashKey (pre +:+ "Aa" +:+ post) = Current.hashKey (pre +:+ "BB" +:+ post).
Proof.
  unfold Current.hashKey, Current.simpleHash.
  rewrite !append_length. cbn [String.length].
  replace (String.length pre + S (S (String.length post)) =? 0)%nat with false
    by (symmetry; apply Nat.eqb_neq; lia).
  rewrite !hashLoop_app. cbn [Current.hashLoop]. rewrite hashStep_Aa_BB. reflexivity.
Qed.

Lemma second_key_duplicate (syntaxOk : string -> bool) (origin messageId : string)
  (blocks : list (codeBlock * env)) (st : pass)
  (i j : nat) (bi bj : codeBlock) (ei ej : env) :
  blocks !! i = Some (bi, ei) ->
  blocks !! j = Some (bj, ej) ->
  (i < j)%nat ->
  reachesLedger bi = true ->
  reachesLedger bj = true ->
  blockKey bi = blockKey bj ->
  snd (Current.processCodeBlocks syntaxOk origin messageId st blocks) !! j
  = Some (setDisplay "none" (setProcessed "duplicate" bj)).
Proof.
  revert st i j. induction blocks as [|[b e] rest IH]; intros st i j Hi Hj Hlt Hri Hrj Hn;
    [discriminate|].
  destruct j as [|j]; [lia|].
  cbn [Current.processCodeBlocks].
  destruct i as [|i].
  - injection Hi as -> ->.
    pose proof (proj2 (block_step_ledger syntaxOk origin messageId st bi ei) Hri) as Hk.
    destruct (Current.processCodeBlock syntaxOk origin messageId st bi ei) as [st1 b'].
    rewrite Hn in Hk.
    pose proof (later_block_duplicate syntaxOk origin messageId rest st1 j bj ej Hk Hj Hrj)
      as H.
    destruct (Current.processCodeBlocks syntaxOk origin messageId st1 rest). exact H.
  - destruct (Current.processCodeBlock syntaxOk origin messageId st b e) as [st1 b'].
    specialize (IH st1 i j Hi Hj ltac:(lia) Hri Hrj Hn).
    destruct (Current.processCodeBlocks syntaxOk origin messageId st1 rest). exact IH.
Qed.

(** X9.  The ledger is keyed by a 31-bit hash, so two different sources
    can be taken for one.  Of two blocks of a message whose normalized
    sources differ only in that one has [BB] where the other has [Aa],
    the fingerprints agree, and the later block is marked [duplicate]
    and hidden without ever being run. *)
Theorem colliding_sources_are_deduplicated (syntaxOk : string -> bool)
  (origin messageId : string) (st : pass) (blocks : list (codeBlock * env))
  (i j : nat) (bi bj : codeBlock) (ei ej : env) (pre post : string) :
  blocks !! i = Some (bi, ei) ->
  blocks !! j = Some (bj, ej) ->
  (i < j)%nat ->
  reachesLedger bi = true ->
  reachesLedger bj = true ->
  normalizedSource bi = pre +:+ "Aa" +:+ post ->
  normalizedSource bj = pre +:+ "BB" +:+ post ->
  normalizedSource bi <> normalizedSource bj
  /\ blockKey bi = blockKey bj
  /\ snd (Current.processCodeBlocks syntaxOk origin messageId st blocks) !! j
     = Some (setDisplay "none" (setProcessed "duplicate" bj)).
Proof.
  intros Hi Hj Hlt Hri Hrj Ha Hb.
  assert (Hk : blockKey bi = blockKey bj).
  { unfold blockKey. rewrite Ha, Hb. apply hashKey_Aa_BB. }
  split; [|split; [exact Hk|]].
  - rewrite Ha, Hb. intros H.
    assert (Hl : forall p a b, p +:+ a = p +:+ b -> a = b).
    { induction p as [|c p IHp]; intros a b E; [exact E|].
      cbn [append] in E. injection E as E. apply IHp, E. }
    apply Hl in H. discriminate H.
  - exact (second_key_duplicate syntaxOk origin messageId blocks st i j bi bj ei ej
             Hi Hj Hlt Hri Hrj Hk).
Qed.

Lemma colliding_sources_are_deduplicated_witness :
  normalizedSource (sampleBlock "language-javascript" "Aa();")
  <> normalizedSource (sampleBlock "language-javascript" "BB();")
  /\ blockKey (sampleBlock "language-javascript" "Aa();")
     = blockKey (sampleBlock "language-javascript" "BB();")
  /\ snd (Current.processCodeBlocks (fun _ => true) "http://localhost:8000" "5" startPass
            collidingBlocks) !! 1%nat
     = Some (setDisplay "none"
               (setProcessed "duplicate" (sampleBlock "language-javascript" "BB();"))).
Proof.
  apply (colliding_sources_are_deduplicated (fun _ => true) "http://localhost:8000" "5"
           startPass collidingBlocks 0%nat 1%nat
           (sampleBlock "language-javascript" "Aa();")
           (sampleBlock "language-javascript" "BB();")
           (sampleEnv 1700000000000) (sampleEnv 1700000000050) EmptyString "();").
  - reflexivity.
  - reflexivity.
  - lia.
  - reflexivity.
  - reflexivity.
  - reflexivity.
  - reflexivity.
Defined.

(** X10.  The hash is never negative and never above 2^31: the loop
    keeps it a signed 32-bit integer, whatever the length of the text,
    and the result is the absolute value of that integer. *)
Theorem simpleHash_range (str : string) :
  (0 <= Current.simpleHash str <= 2 ^ 31)%Z.
Proof.
  unfold Current.simpleHash. destruct (String.length str =? 0)%nat; [lia|].
  assert (H : forall s h, (- 2 ^ 31 <= h < 2 ^ 31)%Z ->
                          (- 2 ^ 31 <= Current.hashLoop h s < 2 ^ 31)%Z).
  { induction s as [|c s IH]; intros h Hh; [exact Hh|].
    cbn [Current.hashLoop]. apply IH. unfold Current.hashStep. apply toInt32_range. }
  specialize (H str 0%Z ltac:(lia)). lia.
Qed.

(* ===================================================================== *)
(** ** Further properties: frontmatter *)
(* ===================================================================== *)

(** X11.  Every alias main.js reads from a frontmatter is a non-empty
    text without white space at either end: dash lines that name
    nothing are dropped before the registry is asked. *)
Theorem requested_aliases_are_trimmed (frontmatter : string) :
  Forall (fun a => a <> EmptyString /\ JS.trim a = a) (Main.parseLibs frontmatter).
Proof.
  unfold Main.parseLibs.
  induction (JS.split (JS.trim frontmatter) eol) as [|line rest IH]; [constructor|].
  cbn [flat_map]. apply Forall_app. split; [|exact IH].
  destruct (JS.startsWith (JS.toLowerCase (JS.trim line)) "libs:"); [constructor|].
  destruct (JS.startsWith (JS.trim line) "-"); [|constructor].
  destruct (truthy (JS.trim (JS.drop 1 (JS.trim line)))) eqn:E; [|constructor].
  constructor; [|constructor]. split; [apply truthy_true, E | apply trim_idem].
Qed.

(** The expression of the frontmatter is anchored at the start of the
    text and opens with three dashes. *)
Lemma frontmatter_shape :
  exists r, Main.re_frontmatter
            = Regex.Seq Regex.Bol
                (Regex.Seq (Regex.Lit "-") (Regex.Seq (Regex.Lit "-")
                   (Regex.Seq (Regex.Lit "-") r))).
Proof. eexists. vm_compute. reflexivity. Qed.

Lemma search_anchored (r : Regex.regex) (rest : string) :
  forall (c : ascii) (pos : nat),
    Regex.searchFrom Regex.noFlags (Regex.Seq Regex.Bol r) (Some c) rest pos = None.
Proof.
  induction rest as [|c' t IH]; intros c pos; cbn [Regex.searchFrom]; unfold Regex.matchAt;
    cbn [Regex.m Regex.atBol Regex.m_prev Regex.multiline Regex.noFlags andb].
  - reflexivity.
  - apply IH.
Qed.

Lemma frontmatter_needs_dashes (rawCode : string) :
  JS.startsWith rawCode "---" = false ->
  Regex.exec Regex.noFlags Main.re_frontmatter rawCode = None.
Proof.
  intros H. destruct frontmatter_shape as [r ->].
  unfold Regex.exec, Regex.search.
  assert (Hm : Regex.matchAt Regex.noFlags
                 (Regex.Seq Regex.Bol
                    (Regex.Seq (Regex.Lit "-") (Regex.Seq (Regex.Lit "-")
                       (Regex.Seq (Regex.Lit "-") r))))
                 (Regex.MState None rawCode 0 []) = None).
  { unfold Regex.matchAt.
    cbn [Regex.m Regex.atBol Regex.m_prev].
    unfold JS.startsWith in H.
    destruct rawCode as [|c1 [|c2 [|c3 t]]];
      cbn [Regex.step Regex.m_rest Regex.m_pos Regex.m_caps Regex.Lit Regex.m]; try reflexivity;
      unfold Regex.class_match, Regex.item_match, Regex.sameChar;
      cbn [Regex.ignoreCase Regex.noFlags existsb orb xorb];
      cbn [String.prefix] in H.
    - destruct (Ascii.eqb_spec "-" c1); [|reflexivity]. reflexivity.
    - destruct (Ascii.eqb_spec "-" c1); [|reflexivity].
      cbn [Regex.step Regex.m_rest Regex.m_pos Regex.m_caps].
      destruct (Ascii.eqb_spec "-" c2); reflexivity.
    - destruct (Ascii.eqb_spec "-" c1) as [E1|E1]; [|reflexivity].
      cbn [Regex.step Regex.m_rest Regex.m_pos Regex.m_caps].
      destruct (Ascii.eqb_spec "-" c2) as [E2|E2]; [|reflexivity].
      cbn [Regex.step Regex.m_rest Regex.m_pos Regex.m_caps].
      destruct (Ascii.eqb_spec "-" c3) as [E3|E3]; [|reflexivity].
      subst. exfalso.
      destruct (Ascii.ascii_dec "-" "-"); [|congruence].
      destruct t; discriminate H. }
  destruct rawCode as [|c t]; cbn [Regex.searchFrom]; rewrite Hm; [reflexivity|].
  rewrite search_anchored. reflexivity.
Qed.

(** X12.  In main.js a block whose trimmed text does not begin with
    three dashes is left alone: the block keeps its attributes and stays
    visible, and the pass creates no context and no container for it
    and logs nothing.  A fence tagged as JavaScript is not enough to be
    run; the frontmatter is. *)
Theorem block_without_frontmatter_is_left_alone (origin messageId : string)
  (st : pass) (b : codeBlock) (e : env) :
  JS.startsWith (JS.trim (innerText b)) "---" = false ->
  snd (Main.processCodeBlock origin messageId st b e) = b
  /\ created (fst (Main.processCodeBlock origin messageId st b e)) = created st
  /\ loadings (fst (Main.processCodeBlock origin messageId st b e)) = loadings st
  /\ finals (fst (Main.processCodeBlock origin messageId st b e)) = finals st
  /\ console (fst (Main.processCodeBlock origin messageId st b e)) = console st.
Proof.
  intros H. unfold Main.processCodeBlock, Main.codeBlockRound.
  destruct (negb _); [auto|].
  destruct (bool_decide _); [auto|].
  rewrite (frontmatter_needs_dashes _ H). auto.
Qed.

Lemma block_without_frontmatter_is_left_alone_witness :
  let b := sampleBlock "language-javascript" "root.textContent = 'one';" in
  let run := Main.processCodeBlock "http://localhost:8000" "5" startPass b (sampleEnv 17) in
  snd run = b
  /\ created (fst run) = created startPass
  /\ loadings (fst run) = loadings startPass
  /\ finals (fst run) = finals startPass
  /\ console (fst run) = console startPass.
Proof.
  intros b run.
  apply (block_without_frontmatter_is_left_alone "http://localhost:8000" "5" startPass b
           (sampleEnv 17)).
  reflexivity.
Defined.

Lemma indexOf_from_shift (s p : string) :
  forall k, JS.indexOf_from (S k) s p = option_map S (JS.indexOf_from k s p).
Proof.
  induction s as [|c t IH]; intros k; cbn [JS.indexOf_from].
  - destruct (String.prefix p EmptyString); reflexivity.
  - destruct (String.prefix p (String c t)); [reflexivity | apply IH].
Qed.

Lemma indexOf_from_none (s p : string) (k k' : nat) :
  JS.indexOf_from k s p = None -> JS.indexOf_from k' s p = None.
Proof.
  revert k k'. induction s as [|c t IH]; intros k k'; cbn [JS.indexOf_from].
  - destruct (String.prefix p EmptyString); [discriminate | reflexivity].
  - destruct (String.prefix p (String c t)); [discriminate | apply IH].
Qed.

Lemma prefix_split (p s : string) :
  String.prefix p s = true -> s = p +:+ JS.drop (String.length p) s.
Proof.
  revert s. induction p as [|c p IH]; intros s H; [reflexivity|].
  destruct s as [|c' s]; [discriminate H|].
  cbn [String.prefix] in H. destruct (Ascii.ascii_dec c c') as [->|]; [|discriminate H].
  cbn [append String.length JS.drop]. f_equal. apply IH, H.
Qed.

Lemma string_drop_length (n : nat) (s : string) :
  String.length (JS.drop n s) = (String.length s - n)%nat.
Proof.
  revert s. induction n as [|n IH]; intros s; [simpl; lia|].
  destruct s as [|c s]; [reflexivity|]. cbn [JS.drop String.length]. rewrite IH. lia.
Qed.

Lemma string_prefix_length (p s : string) :
  String.prefix p s = true -> (String.length p <= String.length s)%nat.
Proof.
  intros H. pose proof (f_equal String.length (prefix_split p s H)) as E.
  rewrite append_length in E. lia.
Qed.

Lemma split_go_nonempty (fuel : nat) (sep cur s : string) :
  JS.split_go fuel sep cur s <> [].
Proof.
  revert cur s. induction fuel as [|f IH]; intros cur s; cbn [JS.split_go]; [discriminate|].
  destruct (String.prefix sep s); [discriminate|].
  destruct s; [discriminate | apply IH].
Qed.

Lemma js_join_cons (sep x : string) (l : list string) :
  l <> [] -> JS.join sep (x :: l) = x +:+ sep +:+ JS.join sep l.
Proof. destruct l; [congruence | reflexivity]. Qed.

(** Joining the pieces of a split gives the text back. *)
Lemma join_split_go (sep : string) :
  sep <> EmptyString ->
  forall (fuel : nat) (cur s : string),
    (String.length s < fuel)%nat ->
    JS.join sep (JS.split_go fuel sep cur s) = cur +:+ s.
Proof.
  intros Hsep. induction fuel as [|f IH]; intros cur s Hf; [lia|].
  cbn [JS.split_go]. destruct (String.prefix sep s) eqn:E.
  - rewrite js_join_cons by apply split_go_nonempty.
    rewrite IH.
    + cbn [append]. rewrite <- (prefix_split sep s E). reflexivity.
    + rewrite string_drop_length. pose proof (string_prefix_length sep s E).
      destruct sep; [congruence|]. simpl in *. lia.
  - destruct s as [|c t]; [rewrite append_nil_r; reflexivity|].
    rewrite IH by (simpl in Hf; lia). rewrite append_assoc. reflexivity.
Qed.

(** The first piece of a split ends where the separator first occurs. *)
Lemma split_go_first (sep : string) (s : string) :
  forall (i fuel : nat) (cur : string),
    JS.indexOf_from 0 s sep = Some i ->
    (String.length s < fuel)%nat ->
    JS.split_go fuel sep cur s
    = (cur +:+ JS.take i s)
      :: JS.split_go (fuel - i - 1) sep EmptyString (JS.drop (i + String.length sep) s).
Proof.
  induction s as [|c t IH]; intros i fuel cur Hi Hf;
    (destruct fuel as [|f]; [simpl in Hf; lia|]); cbn [JS.indexOf_from] in Hi;
    cbn [JS.split_go].
  - destruct (String.prefix sep EmptyString) eqn:E; [|discriminate Hi].
    injection Hi as <-. cbn [Nat.add]. unfold JS.take. cbn [String.substring].
    rewrite append_nil_r. replace (S f - 0 - 1)%nat with f by lia. reflexivity.
  - destruct (String.prefix sep (String c t)) eqn:E.
    + injection Hi as <-. cbn [Nat.add]. unfold JS.take. cbn [String.substring].
      rewrite append_nil_r. replace (S f - 0 - 1)%nat with f by lia. reflexivity.
    + rewrite indexOf_from_shift in Hi.
      destruct (JS.indexOf_from 0 t sep) as [i'|] eqn:Ei; [|discriminate Hi].
      injection Hi as <-.
      rewrite (IH i' f _ eq_refl) by (simpl in Hf; lia).
      unfold JS.take. cbn [String.substring Nat.add JS.drop].
      rewrite append_assoc. cbn [append].
      replace (S f - S i' - 1)%nat with (f - i' - 1)%nat by lia. reflexivity.
Qed.

Lemma split_go_none (sep : string) (s : string) :
  forall (fuel : nat) (cur : string),
    JS.indexOf_from 0 s sep = None ->
    JS.split_go fuel sep cur s = [cur +:+ s].
Proof.
  induction s as [|c t IH]; intros fuel cur Hi; cbn [JS.indexOf_from] in Hi;
    (destruct fuel as [|f]; [reflexivity|]); cbn [JS.split_go].
  - destruct (String.prefix sep EmptyString); [discriminate Hi|].
    rewrite append_nil_r. reflexivity.
  - destruct (String.prefix sep (String c t)); [discriminate Hi|].
    rewrite indexOf_from_shift in Hi.
    destruct (JS.indexOf_from 0 t sep) eqn:Ei; [discriminate Hi|].
    rewrite (IH f _ eq_refl). rewrite append_assoc. reflexivity.
Qed.

Lemma indexOf_bound (s p : string) (i : nat) :
  JS.indexOf_from 0 s p = Some i -> (i + String.length p <= String.length s)%nat.
Proof.
  revert i. induction s as [|c t IH]; intros i; cbn [JS.indexOf_from].
  - destruct (String.prefix p EmptyString) eqn:E; [|discriminate].
    intros [= <-]. apply string_prefix_length in E. simpl in *. lia.
  - destruct (String.prefix p (String c t)) eqn:E.
    + intros [= <-]. apply string_prefix_length in E. simpl in *. lia.
    + rewrite indexOf_from_shift.
      destruct (JS.indexOf_from 0 t p) as [i'|] eqn:Ei; [|discriminate].
      intros [= <-]. specialize (IH i' eq_refl). simpl. lia.
Qed.

(** X13.  In the first build the code of a block starts after the first
    [---] of its text, wherever that stands.  The text before it is
    read as frontmatter, the library lines are taken from it, and it
    never reaches the sandbox; what runs is the rest, trimmed.  A text
    without [---] runs whole, trimmed, with no library.  So a source
    that holds three dashes of its own, as in [n---1], loses everything
    up to them. *)
Theorem legacy_code_starts_after_first_separator (origin messageId : string)
  (st : pass) (b : codeBlock) (e : env) :
  JS.includes (className b) "javascript-live" = true ->
  emberProcessed b <> Some "true" ->
  Legacy.processCodeBlock origin messageId st b e
  = let frameId := "ember-frame-" +:+ messageId +:+ "-" +:+ JS.toString (now e) in
    match JS.indexOf (innerText b) "---" with
    | Some i =>
        Legacy.buildSandbox origin st (setProcessed "true" b) e
          (Legacy.parseLines false (JS.split (JS.trim (JS.take i (innerText b))) eol))
          (JS.trim (JS.drop (i + 3) (innerText b))) frameId
    | None =>
        Legacy.buildSandbox origin st (setProcessed "true" b) e []
          (JS.trim (innerText b)) frameId
    end.
Proof.
  intros Hc Hp. unfold Legacy.processCodeBlock. rewrite Hc. cbn [negb].
  destruct (bool_decide (emberProcessed b = Some "true")) eqn:E;
    [apply bool_decide_eq_true in E; contradiction|].
  cbv zeta. cbn [innerText setProcessed].
  unfold JS.indexOf, JS.split.
  destruct (JS.indexOf_from 0 (innerText b) "---") as [i|] eqn:Ei.
  - rewrite (split_go_first "---" (innerText b) i _ EmptyString Ei) by lia.
    pose proof (indexOf_bound _ _ _ Ei) as Hb. cbn [String.length] in Hb.
    set (rest := JS.split_go _ "---" EmptyString _).
    assert (Hrest : rest <> []) by apply split_go_nonempty.
    assert (Hlen : (1 <? List.length (JS.take i (innerText b) :: rest))%nat = true).
    { destruct rest; [congruence|]. reflexivity. }
    cbn [append]. rewrite Hlen. cbn [List.skipn hd].
    subst rest. rewrite drop_0, join_split_go; [reflexivity | discriminate |].
    rewrite string_drop_length. cbn [String.length]. lia.
  - rewrite (split_go_none "---" (innerText b) _ EmptyString Ei). reflexivity.
Qed.

Lemma legacy_code_starts_after_first_separator_witness :
  Legacy.processCodeBlock "http://localhost:8000" "5" startPass countdownBlock
    (sampleEnv 1700000000000)
  = let frameId := "ember-frame-" +:+ "5" +:+ "-" +:+ JS.toString (now (sampleEnv 1700000000000)) in
    match JS.indexOf (innerText countdownBlock) "---" with
    | Some i =>
        Legacy.buildSandbox "http://localhost:8000" startPass
          (setProcessed "true" countdownBlock) (sampleEnv 1700000000000)
          (Legacy.parseLines false
             (JS.split (JS.trim (JS.take i (innerText countdownBlock))) eol))
          (JS.trim (JS.drop (i + 3) (innerText countdownBlock))) frameId
    | None =>
        Legacy.buildSandbox "http://localhost:8000" startPass
          (setProcessed "true" countdownBlock) (sampleEnv 1700000000000) []
          (JS.trim (innerText countdownBlock)) frameId
    end.
Proof.
  apply (legacy_code_starts_after_first_separator "http://localhost:8000" "5" startPass
           countdownBlock (sampleEnv 1700000000000)).
  - reflexivity.
  - discriminate.
Defined.

(* ===================================================================== *)
(** ** Further properties: cleanup *)
(* ===================================================================== *)

Lemma prefix_app (p a b : string) :
  String.prefix (p +:+ a) (p +:+ b) = String.prefix a b.
Proof.
  induction p as [|c p IH]; [reflexivity|].
  cbn [append String.prefix]. destruct (Ascii.ascii_dec c c); [exact IH | congruence].
Qed.

Lemma prefix_refl_app (a b : string) : String.prefix a (a +:+ b) = true.
Proof.
  induction a as [|c a IH]; [destruct b; reflexivity|].
  cbn [append String.prefix]. destruct (Ascii.ascii_dec c c); [exact IH | congruence].
Qed.

(** Two dash-free identifiers that agree up to the dash after them are
    the same. *)
Lemma prefix_dashFree (m m' rest : string) :
  dashFree m = true -> dashFree m' = true ->
  String.prefix (m +:+ "-") (m' +:+ String "-" rest) = true -> m = m'.
Proof.
  revert m'. induction m as [|c m IH]; intros m' Hm Hm' H.
  - destruct m' as [|c' m']; [reflexivity|].
    cbn [append String.prefix] in H. cbn [dashFree] in Hm'.
    apply andb_true_iff in Hm' as [Hc _]. apply negb_true_iff, Ascii.eqb_neq in Hc.
    destruct (Ascii.ascii_dec "-" c'); [congruence | discriminate H].
  - cbn [dashFree] in Hm. apply andb_true_iff in Hm as [Hc Hm].
    apply negb_true_iff, Ascii.eqb_neq in Hc.
    destruct m' as [|c' m']; cbn [append String.prefix] in H.
    + destruct (Ascii.ascii_dec c "-"); [congruence | discriminate H].
    + cbn [dashFree] in Hm'. apply andb_true_iff in Hm' as [_ Hm'].
      destruct (Ascii.ascii_dec c c') as [->|]; [|discriminate H].
      f_equal. apply IH; assumption.
Qed.

(** X14.  The cleanup of a message forgets the recorded maxima of that
    message's frames and of no other.  For a message that is on the
    page and whose identifier holds no dash, every key
    [ember-frame-<message>-...] is gone from the table afterwards, and
    the key of a frame of any other such message, also one whose
    identifier starts with the same digits, keeps its entry. *)
Theorem cleanup_forgets_only_own_heights (messageId : string) (p : page) :
  List.find (hasMesid messageId) (messages p) <> None ->
  dashFree messageId = true ->
  (forall rest,
      maxHeights (cleanupEmberElements messageId p)
        !! ("ember-frame-" +:+ messageId +:+ "-" +:+ rest) = None)
  /\ (forall other rest,
        dashFree other = true ->
        other <> messageId ->
        maxHeights (cleanupEmberElements messageId p)
          !! ("ember-frame-" +:+ other +:+ "-" +:+ rest)
        = maxHeights p !! ("ember-frame-" +:+ other +:+ "-" +:+ rest)).
Proof.
  intros Hm Hd. unfold cleanupEmberElements.
  destruct (List.find (hasMesid messageId) (messages p)); [|contradiction].
  cbn [maxHeights]. split.
  - intros rest. apply map_lookup_filter_None. right. intros x _. cbn [fst].
    unfold JS.startsWith.
    change ("ember-frame-" +:+ messageId +:+ "-" +:+ rest)
      with ("ember-frame-" +:+ (messageId +:+ "-" +:+ rest)).
    change ("ember-frame-" +:+ messageId +:+ "-")
      with ("ember-frame-" +:+ (messageId +:+ "-")).
    rewrite prefix_app.
    replace (messageId +:+ "-" +:+ rest) with ((messageId +:+ "-") +:+ rest)
      by (rewrite append_assoc; reflexivity).
    rewrite prefix_refl_app. discriminate.
  - intros other rest Ho Hne.
    assert (Hk : JS.startsWith ("ember-frame-" +:+ other +:+ "-" +:+ rest)
                   ("ember-frame-" +:+ messageId +:+ "-") = false).
    { unfold JS.startsWith.
      change ("ember-frame-" +:+ other +:+ "-" +:+ rest)
        with ("ember-frame-" +:+ (other +:+ String "-" rest)).
      change ("ember-frame-" +:+ messageId +:+ "-")
        with ("ember-frame-" +:+ (messageId +:+ "-")).
      rewrite prefix_app.
      destruct (String.prefix _ _) eqn:E; [|reflexivity].
      exfalso. apply Hne. symmetry. exact (prefix_dashFree _ _ _ Hd Ho E). }
    destruct (maxHeights p !! _) as [v|] eqn:El.
    + apply map_lookup_filter_Some. split; [exact El | exact Hk].
    + apply map_lookup_filter_None. left. exact El.
Qed.

Lemma cleanup_forgets_only_own_heights_witness :
  (forall rest,
      maxHeights (cleanupEmberElements "1" samplePage)
        !! ("ember-frame-" +:+ "1" +:+ "-" +:+ rest) = None)
  /\ (forall other rest,
        dashFree other = true ->
        other <> "1" ->
        maxHeights (cleanupEmberElements "1" samplePage)
          !! ("ember-frame-" +:+ other +:+ "-" +:+ rest)
        = maxHeights samplePage !! ("ember-frame-" +:+ other +:+ "-" +:+ rest)).
Proof.
  apply (cleanup_forgets_only_own_heights "1" samplePage).
  - discriminate.
  - reflexivity.
Defined.

Lemma marks_trans (a b c : codeBlock) : marks a b -> marks b c -> marks a c.
Proof.
  intros [->|(H1 & H2 & H3)] [->|(H4 & H5 & H6)].
  - left. reflexivity.
  - right. auto.
  - right. auto.
  - right. split; [congruence|]. split; [congruence | exact H6].
Qed.

Lemma cleanPre_marks (b b' : codeBlock) :
  emberProcessed b = None -> display b = EmptyString -> marks b b' -> cleanPre b' = b.
Proof.
  intros Hp Hd [->|(H1 & H2 & H3)]; unfold cleanPre.
  - rewrite Hp. reflexivity.
  - destruct (emberProcessed b'); [|congruence].
    rewrite H1, H2. destruct b. cbn in *. subst. reflexivity.
Qed.

Lemma marks_main (origin messageId : string) (st : pass) (b : codeBlock) (e : env) :
  marks b (snd (Main.processCodeBlock origin messageId st b e)).
Proof.
  unfold Main.processCodeBlock, Main.codeBlockRound.
  destruct (negb _); [left; reflexivity|].
  destruct (bool_decide _); [left; reflexivity|].
  destruct (Regex.exec _ _ _); [|left; reflexivity].
  destruct (negb _); [right; repeat split; discriminate|].
  change (assignable [className_; innerHTML_; dataset_]) with false. cbn [andb].
  right; repeat split; discriminate.
Qed.

Lemma marks_refl_list (l : list codeBlock) : Forall2 marks l l.
Proof. induction l; constructor; [left; reflexivity | assumption]. Qed.

Lemma marks_current (syntaxOk : string -> bool) (origin messageId : string)
  (st : pass) (b : codeBlock) (e : env) :
  marks b (snd (Current.processCodeBlock syntaxOk origin messageId st b e)).
Proof.
  unfold Current.processCodeBlock.
  destruct (negb _); [left; reflexivity|].
  destruct (bool_decide _); [left; reflexivity|].
  destruct (negb _); [right; repeat split; discriminate|].
  destruct (decide _); [right; repeat split; discriminate|].
  destruct (negb _); [right; repeat split; discriminate|].
  destruct (fetchAll e _); right; repeat split; discriminate.
Qed.

Lemma marks_hide (b : codeBlock) : marks b (Current.hideAfterScripts b).
Proof.
  unfold Current.hideAfterScripts.
  destruct (_ && _); [right; repeat split; discriminate | left; reflexivity].
Qed.

Lemma marks_main_blocks (origin messageId : string) (blocks : list (codeBlock * env)) :
  forall st, Forall2 marks (map fst blocks)
               (snd (Main.processCodeBlocks origin messageId st blocks)).
Proof.
  induction blocks as [|[b e] rest IH]; intros st; [constructor|].
  cbn [Main.processCodeBlocks map fst].
  pose proof (marks_main origin messageId st b e) as H.
  unfold Main.processCodeBlock in H.
  destruct (Main.codeBlockRound origin messageId st b e) as [st1 b'|st1 b'].
  - specialize (IH st1).
    destruct (Main.processCodeBlocks origin messageId st1 rest) as [st2 bs'].
    constructor; assumption.
  - cbn [snd]. constructor; [exact H | apply marks_refl_list].
Qed.

Lemma marks_current_blocks (syntaxOk : string -> bool) (origin messageId : string)
  (blocks : list (codeBlock * env)) :
  forall st, Forall2 marks (map fst blocks)
               (snd (Current.processCodeBlocks syntaxOk origin messageId st blocks)).
Proof.
  induction blocks as [|[b e] rest IH]; intros st; [constructor|].
  cbn [Current.processCodeBlocks map fst].
  pose proof (marks_current syntaxOk origin messageId st b e) as H.
  destruct (Current.processCodeBlock syntaxOk origin messageId st b e) as [st1 b'].
  specialize (IH st1).
  destruct (Current.processCodeBlocks syntaxOk origin messageId st1 rest) as [st2 bs'].
  constructor; assumption.
Qed.

Lemma marks_main_pass (origin messageId : string) (ready : bool)
  (blocks : list (codeBlock * env)) :
  Forall2 marks (map fst blocks) (snd (Main.processMessage origin messageId ready blocks)).
Proof.
  unfold Main.processMessage. destruct (negb ready); [apply marks_refl_list|].
  apply marks_main_blocks.
Qed.

Lemma marks_current_pass (syntaxOk : string -> bool) (origin messageId : string)
  (msg : Current.message) :
  Forall2 marks (map fst (Current.codeBlocks msg))
    (snd (Current.processMessage syntaxOk origin messageId msg)).
Proof.
  unfold Current.processMessage. destruct (negb _); [apply marks_refl_list|].
  destruct (from_option truthy false _); [|apply marks_current_blocks].
  destruct (Current.processScriptTagsInHTML _ _ _ _ _) as [st any].
  destruct any; [|apply marks_current_blocks].
  pose proof (marks_current_blocks syntaxOk origin messageId
                (map (fun be => (Current.hideAfterScripts (fst be), snd be))
                   (Current.codeBlocks msg)) (setProcessedByEmberJs st)) as H.
  revert H.
  generalize (snd (Current.processCodeBlocks syntaxOk origin messageId
                     (setProcessedByEmberJs st)
                     (map (fun be => (Current.hideAfterScripts (fst be), snd be))
                        (Current.codeBlocks msg)))).
  induction (Current.codeBlocks msg) as [|[b e] rest IH]; intros l H.
  - exact H.
  - cbn [map fst] in *. inversion H as [|x y xs ys Hxy Hrest]; subst.
    constructor; [eapply marks_trans; [apply marks_hide | exact Hxy] | apply IH, Hrest].
Qed.

Lemma cleanPre_restores (l l' : list codeBlock) :
  Forall (fun b => emberProcessed b = None /\ display b = EmptyString) l ->
  Forall2 marks l l' ->
  map cleanPre l' = l.
Proof.
  intros Hf H. induction H as [|b b' l l' Hb Hl IH]; [reflexivity|].
  apply Forall_cons in Hf as [[Hp Hd] Hf].
  cbn [map]. rewrite (cleanPre_marks b b' Hp Hd Hb), (IH Hf). reflexivity.
Qed.

Lemma cleanMes_afterPass (m : mesElement) (r : pass * list codeBlock) :
  untouched m ->
  Forall2 marks (m_pres m) (snd r) ->
  cleanMes (afterPass m r) = m.
Proof.
  intros (H1 & H2 & H3 & H4 & H5 & H6 & H7) Hm.
  unfold cleanMes, afterPass. cbn.
  rewrite (cleanPre_restores _ _ H5 Hm).
  assert (Hc : map (fun _ : bool => false) (m_clickable m) = m_clickable m).
  { induction H7 as [|c l Hc Hl IH]; [reflexivity|]. cbn [map]. rewrite IH, Hc. reflexivity. }
  rewrite Hc. destruct m. cbn in *. subst.
  destruct H6 as [->| ->]; reflexivity.
Qed.

(** X15.  The cleanup undoes the pass over the code of a message.
    Take a message element no pass has touched, let the loop over its
    code blocks run, and then clean the message up: the element is
    again what it was, every block visible and unmarked and no
    container left, so that the next pass starts from the rendered
    message.  This holds for the loop of the classifier build (with
    the raw-script pass before it), whatever it creates, rejects or
    fails to load, and for the loop of main.js, which the exception of
    line 612 leaves at the first block with a frontmatter and code,
    that block marked.  (The raw-HTML rendering that [processMessage]
    falls back to when no code was handled is not part of this.) *)
Theorem cleanup_undoes_a_pass (syntaxOk : string -> bool) (origin : string)
  (m : mesElement) (hs : gmap string Z) :
  untouched m ->
  (forall ready blocks,
      map fst blocks = m_pres m ->
      messages (cleanupEmberElements (mesid m)
                  {| messages := [afterPass m (Main.processMessage origin (mesid m)
                                                 ready blocks)];
                     maxHeights := hs |})
      = [m])
  /\ (forall msg,
        map fst (Current.codeBlocks msg) = m_pres m ->
        messages (cleanupEmberElements (mesid m)
                    {| messages := [afterPass m (Current.processMessage syntaxOk origin
                                                   (mesid m) msg)];
                       maxHeights := hs |})
        = [m]).
Proof.
  intros Hu.
  assert (Hgen : forall r, Forall2 marks (m_pres m) (snd r) ->
                   messages (cleanupEmberElements (mesid m)
                               {| messages := [afterPass m r]; maxHeights := hs |}) = [m]).
  { intros r Hr. unfold cleanupEmberElements. cbn [messages List.find].
    unfold hasMesid at 1. cbn [mesid afterPass]. rewrite String.eqb_refl.
    cbn [messages updateFirst]. unfold hasMesid. cbn [mesid afterPass].
    rewrite String.eqb_refl. rewrite (cleanMes_afterPass m r Hu Hr). reflexivity. }
  split.
  - intros ready blocks Hb. apply Hgen. rewrite <- Hb. apply marks_main_pass.
  - intros msg Hb. apply Hgen. rewrite <- Hb. apply marks_current_pass.
Qed.

Lemma cleanup_undoes_a_pass_witness :
  messages (cleanupEmberElements "5"
              {| messages := [afterPass freshMessage
                                (Main.processMessage "http://localhost:8000" "5" true
                                   oneBlock)];
                 maxHeights := ∅ |})
  = [freshMessage]
  /\ messages (cleanupEmberElements "5"
                 {| messages :=
                      [afterPass freshMessage
                         (Current.processMessage (fun _ => true) "http://localhost:8000" "5"
                            {| Current.ready := true; Current.rawMessageContent := None;
                               Current.rawScripts := []; Current.codeBlocks := oneBlock |})];
                    maxHeights := ∅ |})
     = [freshMessage].
Proof.
  assert (Hu : untouched freshMessage).
  { repeat split; try reflexivity;
      [repeat constructor | right; reflexivity | repeat constructor]. }
  split.
  - apply (proj1 (cleanup_undoes_a_pass (fun _ => true) "http://localhost:8000"
                    freshMessage ∅ Hu) true oneBlock).
    reflexivity.
  - apply (proj2 (cleanup_undoes_a_pass (fun _ => true) "http://localhost:8000"
                    freshMessage ∅ Hu)
             {| Current.ready := true; Current.rawMessageContent := None;
                Current.rawScripts := []; Current.codeBlocks := oneBlock |}).
    reflexivity.
Defined.

Lemma cleanPre_idem (b : codeBlock) : cleanPre (cleanPre b) = cleanPre b.
Proof.
  unfold cleanPre. destruct (emberProcessed b) eqn:E; [reflexivity | rewrite E; reflexivity].
Qed.

Lemma cleanMes_idem (m : mesElement) : cleanMes (cleanMes m) = cleanMes m.
Proof.
  unfold cleanMes. cbn. f_equal.
  - rewrite map_map. apply map_ext. intros b. apply cleanPre_idem.
  - destruct (m_mesText m); reflexivity.
  - rewrite map_map. reflexivity.
Qed.

(** X16.  Cleaning a message up a second time changes nothing: the
    page and the table of maxima are after two cleanups what they are
    after one. *)
Theorem cleanup_is_idempotent (messageId : string) (p : page) :
  cleanupEmberElements messageId (cleanupEmberElements messageId p)
  = cleanupEmberElements messageId p.
Proof.
  unfold cleanupEmberElements at 2.
  destruct (List.find (hasMesid messageId) (messages p)) as [m0|] eqn:E.
  - unfold cleanupEmberElements. cbn [messages maxHeights].
    rewrite find_updateFirst_same by reflexivity. rewrite E. cbn.
    rewrite updateFirst_idem; [|reflexivity|apply cleanMes_idem].
    f_equal. apply map_filter_id. intros k v Hk.
    apply map_lookup_filter_Some in Hk as [_ Hk]. exact Hk.
  - unfold cleanupEmberElements. rewrite E. reflexivity.
Qed.

(* ===================================================================== *)
(** ** Further properties: what reaches the sandbox *)
(* ===================================================================== *)

(** Where a literal pattern does not occur, replacing it changes
    nothing. *)
Lemma replaceAll_go_absent (p tmpl input : string) (rest : string) :
  forall (fuel : nat) (prev : option ascii) (pos : nat),
    JS.indexOf_from 0 rest p = None ->
    (String.length rest < fuel)%nat ->
    Regex.replaceAll_go fuel Regex.noFlags (lits p) tmpl input prev rest pos = rest.
Proof.
  induction rest as [|c t IH]; intros fuel prev pos Hi Hf;
    (destruct fuel as [|f]; [simpl in Hf; lia|]);
    cbn [Regex.replaceAll_go]; unfold Regex.matchAt;
    rewrite m_lits by reflexivity; cbn [Regex.m_rest];
    cbn [JS.indexOf_from] in Hi.
  - destruct (String.prefix p EmptyString); [discriminate Hi | reflexivity].
  - destruct (String.prefix p (String c t)); [discriminate Hi|].
    rewrite IH; [reflexivity | exact (indexOf_from_none _ _ _ _ Hi) | simpl in Hf; lia].
Qed.

Lemma replaceAll_absent (p tmpl s : string) :
  JS.includes s p = false ->
  Regex.replaceAll Regex.noFlags (lits p) tmpl s = s.
Proof.
  unfold JS.includes, JS.indexOf, Regex.replaceAll. intros H.
  destruct (JS.indexOf_from 0 s p) eqn:E; [discriminate H|].
  apply replaceAll_go_absent; [exact E | lia].
Qed.

Lemma decodeEntities_entityFree (s : string) :
  entityFree s = true -> Current.decodeEntities s = s.
Proof.
  unfold entityFree, entities. cbn [forallb]. rewrite !andb_true_iff, !negb_true_iff.
  intros (H1 & H2 & H3 & H4 & H5 & H6 & H7 & _).
  unfold Current.decodeEntities.
  change (Regex.re "&lt;") with (lits "&lt;").
  change (Regex.re "&gt;") with (lits "&gt;").
  change (Regex.re "&amp;") with (lits "&amp;").
  change (Regex.re "&quot;") with (lits "&quot;").
  change (Regex.re "&#x27;") with (lits "&#x27;").
  change (Regex.re "&#39;") with (lits "&#39;").
  change (Regex.re "&nbsp;") with (lits "&nbsp;").
  rewrite (replaceAll_absent _ _ s H1), (replaceAll_absent _ _ s H2),
          (replaceAll_absent _ _ s H3), (replaceAll_absent _ _ s H4),
          (replaceAll_absent _ _ s H5), (replaceAll_absent _ _ s H6).
  apply replaceAll_absent, H7.
Qed.

(** X17.  The chain of entity replacements keeps a text in which none
    of the seven entity texts occurs: an ampersand, a less-than sign or
    a quote of the code itself is never altered. *)
Theorem text_without_entities_is_kept (s : string) :
  entityFree s = true -> Current.decodeEntities s = s.
Proof. exact (decodeEntities_entityFree s). Qed.

Lemma text_without_entities_is_kept_witness :
  Current.decodeEntities "if (a && b < c) { root.textContent = 'x'; }"
  = "if (a && b < c) { root.textContent = 'x'; }".
Proof.
  apply (text_without_entities_is_kept "if (a && b < c) { root.textContent = 'x'; }").
  reflexivity.
Defined.

(** X18.  A block tagged as JavaScript runs as written.  When the class
    of the block names the script language and no markup language, the
    block is not yet marked as processed, its trimmed text is not empty,
    holds no entity text and has a fingerprint new to the ledger, the
    text passes the syntax check and the bundles load, then the round
    creates one context whose code is exactly the trimmed text of the
    block, with the bundles as fetched, and the block is marked
    processed and hidden. *)
Theorem tagged_block_runs_as_written (syntaxOk : string -> bool)
  (origin messageId : string) (st : pass) (b : codeBlock) (e : env)
  (libCodes : list string) :
  JS.includes (className b) "javascript" || JS.includes (className b) "lang-js"
  || JS.includes (className b) "js" = true ->
  JS.includes (className b) "html" = false ->
  JS.includes (className b) "xml" = false ->
  emberProcessed b <> Some "true" ->
  JS.trim (innerText b) <> EmptyString ->
  entityFree (JS.trim (innerText b)) = true ->
  Current.hashKey (JS.trim (innerText b)) ∉ processedScriptHashes st ->
  syntaxOk (JS.trim (innerText b)) = true ->
  fetchAll e (Current.libUrls origin Current.requestedLibs) = Some libCodes ->
  created (fst (Current.processCodeBlock syntaxOk origin messageId st b e))
  = (created st
     ++ [ {| frameId := "ember-frame-" +:+ messageId +:+ "-codeblock-"
                        +:+ JS.toString (now e);
             userCode := JS.trim (innerText b);
             libraryCodes := libCodes |} ])%list
  /\ emberProcessed (snd (Current.processCodeBlock syntaxOk origin messageId st b e))
     = Some "true"
  /\ display (snd (Current.processCodeBlock syntaxOk origin messageId st b e)) = "none".
Proof.
  intros Hjs Hhtml Hxml Hp Hne Hent Hk Hok Hf.
  assert (Hdet : Current.isJavaScript
                   (Current.detectJavaScriptContent (className b) (JS.trim (innerText b)))
                 = true
                 /\ Current.isHtmlWithJavaScript
                      (Current.detectJavaScriptContent (className b) (JS.trim (innerText b)))
                    = false).
  { unfold Current.detectJavaScriptContent.
    cbn [Current.isJavaScript Current.isHtmlWithJavaScript].
    rewrite Hjs, Hhtml, Hxml. cbn [orb andb]. split; reflexivity. }
  destruct Hdet as [Hd1 Hd2].
  assert (Hcode : blockCode b = JS.trim (innerText b)).
  { unfold blockCode. rewrite Hd2. apply decodeEntities_entityFree, Hent. }
  assert (Hreach : reachesLedger b = true).
  { unfold reachesLedger. rewrite Hd1, trim_idem.
    apply andb_true_iff. split; [|apply truthy_true, Hne].
    apply negb_true_iff, bool_decide_eq_false, Hp. }
  assert (Hkey : blockKey b = Current.hashKey (JS.trim (innerText b))).
  { unfold blockKey, normalizedSource. rewrite Hcode, trim_idem. reflexivity. }
  rewrite (block_fresh syntaxOk origin messageId st b e Hreach) by (rewrite Hkey; exact Hk).
  cbv zeta. rewrite Hcode, Hok, Hf. cbn [negb]. repeat split.
Qed.

Lemma tagged_block_runs_as_written_witness :
  let b := sampleBlock "language-javascript"
             "  if (a && b < c) { root.textContent = 'x'; }  " in
  let e := sampleEnv 1700000000000 in
  let run := Current.processCodeBlock (fun _ => true) "http://localhost:8000" "5"
               startPass b e in
  created (fst run)
  = (created startPass
     ++ [ {| frameId := "ember-frame-" +:+ "5" +:+ "-codeblock-" +:+ JS.toString (now e);
             userCode := JS.trim (innerText b);
             libraryCodes :=
               map (fun lib => "/* " +:+ libUrl "http://localhost:8000" lib +:+ " */")
                 BUILT_IN_LIBRARIES |} ])%list
  /\ emberProcessed (snd run) = Some "true"
  /\ display (snd run) = "none".
Proof.
  intros b e run.
  apply (tagged_block_runs_as_written (fun _ => true) "http://localhost:8000" "5"
           startPass b e).
  - reflexivity.
  - reflexivity.
  - reflexivity.
  - discriminate.
  - discriminate.
  - reflexivity.
  - vm_compute. set_solver.
  - reflexivity.
  - reflexivity.
Defined.

(* ===================================================================== *)
(** ** Further properties: repair loop *)
(* ===================================================================== *)



Section Sound.

Variable fl : Regex.flags.



End Sound.




























(* ===================================================================== *)
(** ** Further properties: the dedup key in decimal *)
(* ===================================================================== *)

Lemma of_uint_acc_bound (d : Decimal.uint) :
  forall acc, (Z.pos acc * 10 ^ Z.of_nat (Decimal.nb_digits d)
               <= Z.pos (Pos.of_uint_acc d acc))%Z.
Proof.
  induction d as [|d IH|d IH|d IH|d IH|d IH|d IH|d IH|d IH|d IH|d IH]; intros acc;
    cbn [Pos.of_uint_acc Decimal.nb_digits];
    [simpl; lia | ..];
    (etransitivity; [|apply IH]);
    rewrite Nat2Z.inj_succ, Z.pow_succ_r by lia;
    pose proof (Z.pow_nonneg 10 (Z.of_nat (Decimal.nb_digits d)) ltac:(lia)); nia.
Qed.

Lemma of_uint_bound (d : Decimal.uint) :
  leads d = true ->
  (10 ^ Z.of_nat (Decimal.nb_digits d - 1) <= Z.of_N (Pos.of_uint d))%Z.
Proof.
  destruct d as [|d|d|d|d|d|d|d|d|d|d]; try discriminate; intros _;
    cbn [Pos.of_uint Decimal.nb_digits]; rewrite Nat.sub_succ, Nat.sub_0_r;
    match goal with |- (_ <= Z.of_N (N.pos (Pos.of_uint_acc d ?k)))%Z =>
      pose proof (of_uint_acc_bound d k) end;
    pose proof (Z.pow_nonneg 10 (Z.of_nat (Decimal.nb_digits d)) ltac:(lia));
    cbn [Z.of_N]; nia.
Qed.

Lemma to_uint_leads (p : positive) : leads (Pos.to_uint p) = true.
Proof.
  pose proof (DecimalPos.Unsigned.to_of (Pos.to_uint p)) as H.
  rewrite DecimalPos.Unsigned.of_to in H. cbn [N.to_uint] in H.
  pose proof (DecimalPos.Unsigned.to_uint_nonzero p) as Hz.
  destruct (Pos.to_uint p) as [|d|d|d|d|d|d|d|d|d|d] eqn:E; try reflexivity.
  - exfalso. exact (DecimalPos.Unsigned.to_uint_nonnil p E).
  - exfalso. destruct d as [| | | | | | | | | |] eqn:Ed; [apply Hz; reflexivity | ..];
      match type of H with _ = Decimal.unorm (Decimal.D0 ?l) =>
        assert (Hl : l <> Decimal.Nil) by discriminate;
        pose proof (DecimalFacts.nb_digits_unorm l Hl) as Hn;
        change (Decimal.unorm (Decimal.D0 l)) with (Decimal.unorm l) in H;
        rewrite <- H in Hn; cbn [Decimal.nb_digits] in Hn; lia
      end.
Qed.

Lemma string_of_uint_length (d : Decimal.uint) :
  String.length (NilEmpty.string_of_uint d) = Decimal.nb_digits d.
Proof.
  induction d; cbn [NilEmpty.string_of_uint String.length Decimal.nb_digits];
    [reflexivity | f_equal; assumption ..].
Qed.

Lemma toString_length (z : Z) :
  (0 <= z < 10 ^ 10)%Z -> (String.length (JS.toString z) <= 10)%nat.
Proof.
  intros Hz. unfold JS.toString. destruct z as [|p|p]; [simpl; lia | | lia].
  cbn [Z.to_int NilZero.string_of_int]. unfold NilZero.string_of_uint.
  pose proof (to_uint_leads p) as Hl.
  pose proof (of_uint_bound (Pos.to_uint p) Hl) as Hb.
  rewrite DecimalPos.Unsigned.of_to in Hb. cbn [Z.of_N] in Hb.
  assert (Hlen : String.length (NilEmpty.string_of_uint (Pos.to_uint p))
                 = Decimal.nb_digits (Pos.to_uint p)) by apply string_of_uint_length.
  destruct (Pos.to_uint p) eqn:E; [discriminate Hl | ..]; rewrite Hlen;
    (destruct (le_lt_dec (Decimal.nb_digits (Pos.to_uint p)) 10) as [Hle|Hgt];
     [rewrite E in Hle; exact Hle|]);
    exfalso; rewrite <- E in Hb;
    assert (10 ^ 10 <= 10 ^ Z.of_nat (Decimal.nb_digits (Pos.to_uint p) - 1))%Z
      by (apply Z.pow_le_mono_r; lia); lia.
Qed.

Lemma substring_all (s : string) (n : nat) :
  (String.length s <= n)%nat -> String.substring 0 n s = s.
Proof.
  revert n. induction s as [|c t IH]; intros n H; [destruct n; reflexivity|].
  destruct n as [|n]; [simpl in H; lia|]. cbn [String.substring]. f_equal.
  apply IH. simpl in H. lia.
Qed.

Lemma toString_inj (a b : Z) : JS.toString a = JS.toString b -> a = b.
Proof.
  unfold JS.toString. intros H.
  assert (Hn : forall z, Z.to_int z <> Decimal.Pos Decimal.Nil
                         /\ Z.to_int z <> Decimal.Neg Decimal.Nil).
  { intros [|p|p]; cbn [Z.to_int]; split; try discriminate;
      intros [= E]; exact (DecimalPos.Unsigned.to_uint_nonnil p E). }
  pose proof (NilZero.isi (Z.to_int a) (proj1 (Hn a)) (proj2 (Hn a))) as Ha.
  pose proof (NilZero.isi (Z.to_int b) (proj1 (Hn b)) (proj2 (Hn b))) as Hb.
  rewrite H in Ha. rewrite Ha in Hb. injection Hb as Hb.
  apply DecimalZ.to_int_inj, Hb.
Qed.

Lemma hashLoop_range (s : string) :
  forall h, (- 2 ^ 31 <= h < 2 ^ 31)%Z -> (- 2 ^ 31 <= Current.hashLoop h s < 2 ^ 31)%Z.
Proof.
  induction s as [|c s IH]; intros h Hh; [exact Hh|].
  cbn [Current.hashLoop]. apply IH. unfold Current.hashStep. apply toInt32_range.
Qed.

Lemma hashKey_toString (s : string) :
  Current.hashKey s = JS.toString (Current.simpleHash s).
Proof.
  unfold Current.hashKey, JS.substring. apply substring_all, toString_length.
  unfold Current.simpleHash. destruct (String.length s =? 0)%nat; [lia|].
  pose proof (hashLoop_range s 0%Z ltac:(lia)). lia.
Qed.

(** X20.  Cutting the decimal text of the hash at ten characters cuts
    nothing off: the key is the whole number, so two texts get the same
    key exactly when they have the same hash. *)
Theorem key_is_the_whole_hash (a b : string) :
  Current.hashKey a = JS.toString (Current.simpleHash a)
  /\ (Current.hashKey a = Current.hashKey b
      <-> Current.simpleHash a = Current.simpleHash b).
Proof.
  split; [apply hashKey_toString|]. rewrite !hashKey_toString. split.
  - apply toString_inj.
  - intros ->. reflexivity.
Qed.

(* ===================================================================== *)
(** ** Further properties: context identifiers *)
(* ===================================================================== *)

Lemma append_cancel (p a b : string) : p +:+ a = p +:+ b -> a = b.
Proof.
  induction p as [|c p IH]; cbn [append]; intros H; [exact H|].
  injection H as H. exact (IH H).
Qed.

(** X2.  The identifier of a context is the message, the kind of
    fragment and the reading of the clock, nothing else: two contexts
    the classifier build creates for code blocks of one message carry
    the same identifier exactly when [Date.now()] gave the same
    reading at the two blocks. *)
Theorem frame_ids_differ_with_the_clock (syntaxOk : string -> bool)
  (origin messageId : string) (st1 st2 : pass) (b1 b2 : codeBlock) (e1 e2 : env)
  (f1 f2 : frame) :
  created (fst (Current.processCodeBlock syntaxOk origin messageId st1 b1 e1))
  = (created st1 ++ [f1])%list ->
  created (fst (Current.processCodeBlock syntaxOk origin messageId st2 b2 e2))
  = (created st2 ++ [f2])%list ->
  frameId f1 = frameId f2 <-> now e1 = now e2.
Proof.
  intros H1 H2.
  rewrite (frameId_of_clock syntaxOk origin messageId st1 b1 e1 f1 H1).
  rewrite (frameId_of_clock syntaxOk origin messageId st2 b2 e2 f2 H2).
  split.
  - intros H. rewrite <- !append_assoc in H. apply append_cancel in H.
    apply toString_inj. exact H.
  - intros ->. reflexivity.
Qed.

Lemma frame_ids_differ_with_the_clock_witness :
  let f1 := Current.createSandboxedFrame "root.textContent = 'one';"
              (map (fun lib => "/* " +:+ libUrl "http://localhost:8000" lib +:+ " */")
                 BUILT_IN_LIBRARIES)
              "ember-frame-5-codeblock-1700000000000" in
  let f2 := Current.createSandboxedFrame "root.textContent = 'two';"
              (map (fun lib => "/* " +:+ libUrl "http://localhost:8000" lib +:+ " */")
                 BUILT_IN_LIBRARIES)
              "ember-frame-5-codeblock-1700000000050" in
  frameId f1 = frameId f2 <-> 1700000000000%Z = 1700000000050%Z.
Proof.
  intros f1 f2.
  apply (frame_ids_differ_with_the_clock (fun _ => true) "http://localhost:8000" "5"
           startPass startPass
           (sampleBlock "language-javascript" "root.textContent = 'one';")
           (sampleBlock "language-javascript" "root.textContent = 'two';")
           (sampleEnv 1700000000000) (sampleEnv 1700000000050) f1 f2).
  - vm_compute. reflexivity.
  - vm_compute. reflexivity.
Defined.

(* ===================================================================== *)
(** ** Further properties: settings panel *)
(* ===================================================================== *)

Ltac through_update :=
  unfold Settings.updateEmberPromptInjection;
  repeat match goal with
         | |- context [match ?b with Some _ => _ | None => _ end] => destruct b as [[[] []]|]
         | |- context [if ?c then _ else _] => destruct c
         end;
  reflexivity.

Section SettingsProperties.

Variable D : string.
Variable backups : option (bool * bool).

Lemma update_settings p :
  Settings.emberSettings (Settings.updateEmberPromptInjection backups p)
  = Settings.emberSettings p.
Proof. through_update. Qed.

Lemma update_stored p :
  Settings.global_extension_settings (Settings.updateEmberPromptInjection backups p)
  = Settings.global_extension_settings p.
Proof. through_update. Qed.

Lemma update_saves p :
  Settings.saveRequests (Settings.updateEmberPromptInjection backups p)
  = Settings.saveRequests p.
Proof. through_update. Qed.

Lemma update_controls p :
  let q := Settings.updateEmberPromptInjection backups p in
  Settings.directHtmlChecked q = Settings.directHtmlChecked p
  /\ Settings.modeVal q = Settings.modeVal p
  /\ Settings.clickableChecked q = Settings.clickableChecked p
  /\ Settings.promptEnabledChecked q = Settings.promptEnabledChecked p
  /\ Settings.promptEnabledDisabled q = Settings.promptEnabledDisabled p
  /\ Settings.promptVal q = Settings.promptVal p
  /\ Settings.promptDisabled q = Settings.promptDisabled p
  /\ Settings.restoreInert q = Settings.restoreInert p.
Proof. cbv zeta. repeat split; through_update. Qed.

Lemma update_prompt p :
  Settings.extensionPrompts (Settings.updateEmberPromptInjection backups p)
    !! "emberinstructions"
  = Some (promptFor (Settings.emberSettings p)).
Proof.
  unfold Settings.updateEmberPromptInjection, promptFor, injectionOn.
  destruct (Settings.truthy _ && Settings.truthy _);
    destruct backups as [[[] []]|]; cbn; by simplify_map_eq.
Qed.


Lemma union_absorb (a b : gmap string Settings.value) : dom b ⊆ dom a -> a ∪ b = a.
Proof.
  intros H. apply map_eq. intros k.
  destruct (a !! k) as [v|] eqn:E.
  - by apply lookup_union_Some_l.
  - rewrite lookup_union_r by exact E.
    apply not_elem_of_dom. apply not_elem_of_dom in E. set_solver.
Qed.

Lemma prop_insert (s : gmap string Settings.value) (k : string) (v : Settings.value) :
  Settings.prop (<[k := v]> s) k = v.
Proof. unfold Settings.prop. by rewrite lookup_insert_eq. Qed.

Lemma prop_insert_ne (s : gmap string Settings.value) (k k' : string) (v : Settings.value) :
  k <> k' -> Settings.prop (<[k := v]> s) k' = Settings.prop s k'.
Proof. intros H. unfold Settings.prop. by rewrite lookup_insert_ne. Qed.

Lemma orDefault_idem (v : Settings.value) : orDefault D (orDefault D v) = orDefault D v.
Proof.
  unfold orDefault. destruct (Settings.truthy v) eqn:E; [by rewrite E|].
  by destruct (Settings.truthy (Settings.VStr D)).
Qed.

Lemma withPrompt_idem (s : gmap string Settings.value) : withPrompt D (withPrompt D s) = withPrompt D s.
Proof.
  unfold withPrompt. rewrite prop_insert, orDefault_idem. apply insert_insert_eq.
Qed.

Lemma load_settings (p : Settings.panel) :
  Settings.emberSettings p = Settings.initialSettings D ->
  Settings.emberSettings (Settings.loadSettings D backups p)
  = withPrompt D (merged D (Settings.global_extension_settings p)).
Proof.
  intros H. unfold Settings.loadSettings. rewrite update_settings. cbn.
  unfold withPrompt, merged, orDefault. rewrite H.
  by destruct (Settings.global_extension_settings p).
Qed.

Lemma load_keys (stored : option (gmap string Settings.value)) (i : gmap string Settings.value)
  (k : string) (v : Settings.value) :
  let s := <[k := v]> (match stored with Some o => o ∪ i | None => i end) in
  dom i ⊆ dom s /\ dom (default ∅ stored) ⊆ dom s.
Proof.
  cbv zeta. rewrite dom_insert_L.
  destruct stored; cbn [default]; [rewrite dom_union_L|]; set_solver.
Qed.

(** Saving a panel whose controls show the settings. *)
Lemma save_inSession (p : Settings.panel) :
  controlsShow p ->
  Settings.promptEnabledDisabled p
  = negb (Settings.truthy (Settings.prop (Settings.emberSettings p) "clickableInputsEnabled")) ->
  Settings.promptDisabled p = negb (injectionOn (Settings.emberSettings p)) ->
  Settings.restoreInert p = negb (injectionOn (Settings.emberSettings p)) ->
  dom (Settings.initialSettings D) ⊆ dom (Settings.emberSettings p) ->
  dom (default ∅ (Settings.global_extension_settings p)) ⊆ dom (Settings.emberSettings p) ->
  inSession D (Settings.saveSettings backups p).
Proof.
  intros Hc Ht Hx Hr Hk Hs. unfold Settings.saveSettings.
  set (q := {| Settings.emberSettings := Settings.emberSettings p |}).
  pose proof (update_controls q) as (C1 & C2 & C3 & C4 & C5 & C6 & C7 & C8).
  assert (Hu : Settings.emberSettings p ∪ default ∅ (Settings.global_extension_settings p)
               = Settings.emberSettings p) by (apply union_absorb, Hs).
  split.
  - rewrite update_prompt, update_settings. reflexivity.
  - unfold controlsShow. rewrite update_settings, C1, C2, C3, C4, C6. exact Hc.
  - rewrite update_settings, C5. exact Ht.
  - rewrite update_settings, C7. exact Hx.
  - rewrite update_settings, C8. exact Hr.
  - rewrite update_settings. exact Hk.
  - rewrite update_settings, update_stored. cbn. rewrite Hu. done.
  - right. rewrite update_settings, update_stored. cbn. by rewrite Hu.
  - rewrite update_settings, update_stored. cbn. rewrite Hu.
    unfold merged. by rewrite (union_absorb _ _ Hk).
Qed.

Lemma load_inSession (stored : option (gmap string Settings.value))
  (prompts : gmap string Settings.promptCall) :
  inSession D (Settings.loadSettings D backups (Settings.startup D stored prompts)).
Proof.
  pose proof (load_settings (Settings.startup D stored prompts) eq_refl) as Hl.
  cbn [Settings.global_extension_settings Settings.startup] in Hl.
  unfold Settings.loadSettings in *. rewrite update_settings in Hl. cbn in Hl.
  match goal with |- inSession _ (Settings.updateEmberPromptInjection _ ?r) => set (q := r) end.
  pose proof (update_controls q) as (C1 & C2 & C3 & C4 & C5 & C6 & C7 & C8).
  assert (Hk : dom (Settings.initialSettings D) ⊆ dom (Settings.emberSettings q)).
  { subst q. cbn [Settings.emberSettings Settings.global_extension_settings Settings.startup].
    apply load_keys. }
  split.
  - rewrite update_prompt, update_settings. reflexivity.
  - unfold controlsShow. rewrite update_settings, C1, C2, C3, C4, C6. subst q. cbn. done.
  - rewrite update_settings, C5. reflexivity.
  - rewrite update_settings, C7. unfold injectionOn. rewrite negb_andb. reflexivity.
  - rewrite update_settings, C8. unfold injectionOn. rewrite negb_andb. reflexivity.
  - rewrite update_settings. exact Hk.
  - rewrite update_settings, update_stored. subst q.
    cbn [Settings.emberSettings Settings.global_extension_settings Settings.startup].
    apply load_keys.
  - left. rewrite update_saves. reflexivity.
  - rewrite update_settings, update_stored. subst q. cbn. rewrite Hl.
    symmetry. apply withPrompt_idem.
Qed.

Ltac props :=
  repeat first [ rewrite prop_insert
               | rewrite prop_insert_ne by discriminate ].

Lemma handle_inSession (e : Settings.panelEvent) (p : Settings.panel) :
  inSession D p -> inSession D (Settings.handle D backups e p).
Proof.
  intros H. pose proof H as [Hp (Hc1 & Hc2 & Hc3 & Hc4 & Hc5) Ht Hx Hr Hk Hs _ _].
  unfold injectionOn in Hx, Hr.
  destruct e as [checked|val|checked|checked|val|]; cbn [Settings.handle].
  - apply save_inSession; unfold controlsShow, injectionOn; cbn; props;
      rewrite ?dom_insert_L; first [done | clear - Hk Hs; set_solver].
  - apply save_inSession; unfold controlsShow, injectionOn; cbn; props;
      rewrite ?dom_insert_L; first [done | clear - Hk Hs; set_solver].
  - destruct checked.
    + apply save_inSession; unfold controlsShow, injectionOn; cbn; props;
        rewrite ?dom_insert_L, ?Hc4; first [done | clear - Hk Hs; set_solver].
    + apply save_inSession; unfold controlsShow, injectionOn; cbn; props;
        rewrite ?dom_insert_L; first [done | clear - Hk Hs; set_solver].
  - apply save_inSession; unfold controlsShow, injectionOn; cbn; props;
      rewrite ?dom_insert_L, ?negb_andb; first [done | clear - Hk Hs; set_solver].
  - apply save_inSession; unfold controlsShow, injectionOn; cbn; props;
      rewrite ?dom_insert_L; first [done | clear - Hk Hs; set_solver].
  - destruct (negb _ || negb _).
    + exact H.
    + apply save_inSession; unfold controlsShow, injectionOn; cbn; props;
        rewrite ?dom_insert_L; first [done | clear - Hk Hs; set_solver].
Qed.

Lemma run_inSession (evs : list Settings.panelEvent) (p : Settings.panel) :
  inSession D p -> inSession D (Settings.run D backups evs p).
Proof.
  revert p. induction evs as [|e evs IH]; intros p H; [exact H|].
  cbn. apply IH, handle_inSession, H.
Qed.

Lemma session_inSession (stored : option (gmap string Settings.value))
  (prompts : gmap string Settings.promptCall) (evs : list Settings.panelEvent) :
  inSession D (Settings.session D backups stored prompts evs).
Proof. apply run_inSession, load_inSession. Qed.

Lemma run_app (evs : list Settings.panelEvent) (e : Settings.panelEvent)
  (p : Settings.panel) :
  Settings.run D backups (evs ++ [e]) p
  = Settings.handle D backups e (Settings.run D backups evs p).
Proof. unfold Settings.run. by rewrite fold_left_app. Qed.

Lemma save_settings (p : Settings.panel) :
  Settings.emberSettings (Settings.saveSettings backups p) = Settings.emberSettings p.
Proof. unfold Settings.saveSettings. by rewrite update_settings. Qed.

(** With injection off, every prompt the build writes is cleared. *)
Lemma update_off (p : Settings.panel) :
  injectionOn (Settings.emberSettings p) = false ->
  Forall (fun id => Settings.extensionPrompts (Settings.updateEmberPromptInjection backups p)
                      !! id = Some Settings.cleared)
         (promptIds backups).
Proof.
  unfold injectionOn, Settings.updateEmberPromptInjection, promptIds. intros ->.
  destruct backups as [[hasSystem hasBefore]|]; repeat constructor; cbn; by simplify_map_eq.
Qed.

Lemma save_switchedOff (p : Settings.panel) :
  Settings.emberSettings p !! "clickableInputsPromptEnabled" = Some (Settings.VBool false) ->
  switchedOff backups (Settings.saveSettings backups p).
Proof.
  intros H. unfold switchedOff, Settings.saveSettings.
  rewrite update_settings, update_stored. cbn. split; [exact H|]. split.
  - eexists. split; [reflexivity|]. by apply lookup_union_Some_l.
  - apply update_off. cbn. unfold injectionOn, Settings.prop. rewrite H. cbn.
    apply andb_false_r.
Qed.

Lemma handle_switchedOff (e : Settings.panelEvent) (p : Settings.panel) :
  e <> Settings.PromptEnabledChange true ->
  switchedOff backups p -> switchedOff backups (Settings.handle D backups e p).
Proof.
  intros He H. pose proof H as (Hs & _ & _).
  destruct e as [checked|val|checked|checked|val|]; cbn [Settings.handle].
  - apply save_switchedOff. cbn. by rewrite lookup_insert_ne.
  - apply save_switchedOff. cbn. by rewrite lookup_insert_ne.
  - apply save_switchedOff. cbn. destruct checked.
    + by rewrite lookup_insert_ne.
    + by rewrite lookup_insert_eq.
  - destruct checked; [congruence|]. apply save_switchedOff. cbn. by rewrite lookup_insert_eq.
  - apply save_switchedOff. cbn. by rewrite lookup_insert_ne.
  - unfold Settings.prop at 2. rewrite Hs. cbn. rewrite orb_true_r. exact H.
Qed.

End SettingsProperties.


(** X22.  Once anything has been saved in a session, the stored copy is
    the settings object itself, key by key: no change made in the panel
    is left unsaved, and nothing stale stays in the store. *)
Theorem changes_are_stored (D : string) (backups : option (bool * bool))
  (stored : option (gmap string Settings.value))
  (prompts : gmap string Settings.promptCall) (evs : list Settings.panelEvent) :
  (0 < Settings.saveRequests (Settings.session D backups stored prompts evs))%nat ->
  Settings.global_extension_settings (Settings.session D backups stored prompts evs)
  = Some (Settings.emberSettings (Settings.session D backups stored prompts evs)).
Proof.
  intros H.
  destruct (session_inSession D backups stored prompts evs) as [_ _ _ _ _ _ _ [E|E] _];
    [lia | exact E].
Qed.

Lemma changes_are_stored_witness :
  Settings.global_extension_settings
    (Settings.session samplePrompt None (Some oldStore) ∅ [Settings.PromptInput "Be brief."])
  = Some (Settings.emberSettings
            (Settings.session samplePrompt None (Some oldStore) ∅
               [Settings.PromptInput "Be brief."])).
Proof.
  apply (changes_are_stored samplePrompt None (Some oldStore) ∅
           [Settings.PromptInput "Be brief."]).
  vm_compute. lia.
Defined.

(** X23.  Loading the script again gives back the settings the session
    ended with, whatever the store held at first and whichever build
    reads it; only a prompt that is missing or empty is replaced by the
    default text.  So a prompt the user has emptied comes back as the
    default after a reload. *)
Theorem reload_restores_settings (D : string) (backups backups' : option (bool * bool))
  (stored : option (gmap string Settings.value))
  (prompts prompts' : gmap string Settings.promptCall) (evs : list Settings.panelEvent) :
  Settings.emberSettings
    (reload D backups' prompts' (Settings.session D backups stored prompts evs))
  = withPrompt D (Settings.emberSettings (Settings.session D backups stored prompts evs))
  /\ Settings.prop
       (Settings.emberSettings
          (reload D backups' prompts'
             (Settings.session D backups stored prompts (evs ++ [Settings.PromptInput EmptyString]))))
       "clickableInputsPrompt"
     = Settings.VStr D.
Proof.
  assert (H : forall l,
             Settings.emberSettings
               (reload D backups' prompts' (Settings.session D backups stored prompts l))
             = withPrompt D (Settings.emberSettings
                               (Settings.session D backups stored prompts l))).
  { intros l. unfold reload. rewrite load_settings by reflexivity.
    cbn [Settings.global_extension_settings Settings.startup].
    apply (is_reload _ _ (session_inSession D backups stored prompts l)). }
  split; [apply H|]. rewrite H. unfold withPrompt. rewrite prop_insert.
  unfold Settings.session. rewrite run_app. cbn [Settings.handle].
  rewrite save_settings. cbn [Settings.emberSettings]. rewrite prop_insert. reflexivity.
Qed.

(** X24.  Turning the feature off also turns prompt injection off, and
    it stays off until the prompt switch itself is set again: setting
    the feature switch again, editing the prompt or pressing restore
    does not bring it back.  All that time the switch is [false] in the
    settings and in the stored copy, and every extension prompt the
    build writes is empty. *)
Theorem feature_off_keeps_injection_off (D : string) (backups : option (bool * bool))
  (p : Settings.panel) (evs : list Settings.panelEvent) :
  Forall (fun e => e <> Settings.PromptEnabledChange true) evs ->
  let q := Settings.run D backups evs
             (Settings.handle D backups (Settings.ClickableChange false) p) in
  Settings.emberSettings q !! "clickableInputsPromptEnabled" = Some (Settings.VBool false)
  /\ (exists o, Settings.global_extension_settings q = Some o
                /\ o !! "clickableInputsPromptEnabled" = Some (Settings.VBool false))
  /\ Forall (fun id => Settings.extensionPrompts q !! id = Some Settings.cleared)
            (promptIds backups).
Proof.
  intros Hevs. cbv zeta.
  assert (H0 : switchedOff backups
                 (Settings.handle D backups (Settings.ClickableChange false) p)).
  { cbn [Settings.handle]. apply save_switchedOff. cbn. by rewrite lookup_insert_eq. }
  revert H0. generalize (Settings.handle D backups (Settings.ClickableChange false) p).
  induction Hevs as [|e evs He _ IH]; intros q Hq; [exact Hq|].
  cbn. apply IH. by apply handle_switchedOff.
Qed.

Lemma feature_off_keeps_injection_off_witness :
  let q := Settings.run samplePrompt (Some (true, false))
             [Settings.ClickableChange true; Settings.PromptInput "Be brief.";
              Settings.RestoreClick]
             (Settings.handle samplePrompt (Some (true, false))
                (Settings.ClickableChange false)
                (Settings.session samplePrompt (Some (true, false)) None ∅ [])) in
  Settings.emberSettings q !! "clickableInputsPromptEnabled" = Some (Settings.VBool false)
  /\ (exists o, Settings.global_extension_settings q = Some o
                /\ o !! "clickableInputsPromptEnabled" = Some (Settings.VBool false))
  /\ Forall (fun id => Settings.extensionPrompts q !! id = Some Settings.cleared)
            (promptIds (Some (true, false))).
Proof.
  apply (feature_off_keeps_injection_off samplePrompt (Some (true, false))
           (Settings.session samplePrompt (Some (true, false)) None ∅ [])
           [Settings.ClickableChange true; Settings.PromptInput "Be brief.";
            Settings.RestoreClick]).
  repeat constructor; discriminate.
Defined.

(* ===================================================================== *)
(** ** Further properties: direct HTML rendering *)
(* ===================================================================== *)

(** Repetition of a character class, through the named loop. *)
Lemma loop_star (fl : Regex.flags) (neg : bool) (items : list Regex.citem) (greedy : bool)
  (k : Regex.mstate -> option Regex.mstate) :
  forall n s,
    (fix loop (n : nat) (s : Regex.mstate) {struct n} : option Regex.mstate :=
       let again :=
         match n with
         | O => None
         | S n' =>
             Regex.m fl (Regex.Chars neg items)
               (fun s' => if (Regex.m_pos s' =? Regex.m_pos s)%nat then None
                          else loop n' s') s
         end in
       if greedy then Regex.orElse again (k s) else Regex.orElse (k s) again) n s
    = starLoop fl (Regex.Chars neg items) greedy k n s.
Proof.
  induction n as [|n IHn]; intros s; [reflexivity|].
  cbn [starLoop Regex.m].
  destruct (Regex.step s) as [[c s']|]; [|reflexivity].
  destruct (Regex.class_match fl neg items c); [|reflexivity].
  destruct (Regex.m_pos s' =? Regex.m_pos s)%nat; [reflexivity|].
  rewrite IHn. reflexivity.
Qed.

Lemma m_star (fl : Regex.flags) (neg : bool) (items : list Regex.citem) (greedy : bool)
  (k : Regex.mstate -> option Regex.mstate) (s : Regex.mstate) :
  Regex.m fl (Regex.Star greedy (Regex.Chars neg items)) k s
  = starLoop fl (Regex.Chars neg items) greedy k (S (String.length (Regex.m_rest s))) s.
Proof. exact (loop_star fl neg items greedy k (S (String.length (Regex.m_rest s))) s). Qed.

Lemma htmlCodeBlock_shape :
  re_htmlCodeBlock
  = Regex.Seq Regex.Bol
      (Regex.Seq (Regex.Lit "`") (Regex.Seq (Regex.Lit "`") (Regex.Seq (Regex.Lit "`")
         (Regex.Seq (Regex.Lit "h") (Regex.Seq (Regex.Lit "t") (Regex.Seq (Regex.Lit "m")
            (Regex.Seq (Regex.Lit "l")
               (Regex.Seq (Regex.Star true reSpace) fenceBody)))))))).
Proof. vm_compute. reflexivity. Qed.

Lemma complexHtml_shape :
  exists r1 r2,
    complexHtmlRegex
    = Regex.Alt (Regex.Seq (Regex.Lit "<") r1) (Regex.Seq (Regex.Lit "<") r2).
Proof. eexists. eexists. vm_compute. reflexivity. Qed.

(** Code units that no other code unit equals when case is ignored. *)
Lemma sameChar_exact (fl : Regex.flags) (a c : ascii) :
  a = "<"%char \/ a = "`"%char \/ a = "010"%char ->
  Regex.sameChar fl a c = Ascii.eqb a c.
Proof.
  intros H. unfold Regex.sameChar. destruct (Regex.ignoreCase fl); [|reflexivity].
  destruct H as [->|[->| ->]];
    destruct c as [[] [] [] [] [] [] [] []]; vm_compute; reflexivity.
Qed.

Lemma class_lit (fl : Regex.flags) (a c : ascii) :
  Regex.class_match fl false [Regex.CChar a] c = Regex.sameChar fl a c.
Proof.
  unfold Regex.class_match, Regex.item_match. cbn [existsb xorb].
  rewrite orb_false_r. by destruct (Regex.sameChar fl a c).
Qed.

Lemma class_space (fl : Regex.flags) (c : ascii) :
  Regex.class_match fl false [Regex.CSpace true] c = JS.isWhiteSpace c.
Proof.
  unfold Regex.class_match, Regex.item_match. cbn [existsb xorb].
  by destruct (JS.isWhiteSpace c).
Qed.

Lemma class_any (fl : Regex.flags) (c : ascii) :
  Regex.class_match fl false [Regex.CSpace true; Regex.CSpace false] c = true.
Proof.
  unfold Regex.class_match, Regex.item_match. cbn [existsb xorb].
  by destruct (JS.isWhiteSpace c).
Qed.

(** One literal atom among the exact ones reads its own code unit. *)
Lemma m_lit (fl : Regex.flags) (a : ascii) (k : Regex.mstate -> option Regex.mstate)
  (s : Regex.mstate) :
  a = "<"%char \/ a = "`"%char \/ a = "010"%char ->
  Regex.m fl (Regex.Lit a) k s
  = match Regex.m_rest s with
    | String c t =>
        if Ascii.eqb a c
        then k (Regex.MState (Some c) t (S (Regex.m_pos s)) (Regex.m_caps s))
        else None
    | EmptyString => None
    end.
Proof.
  intros H. unfold Regex.Lit. cbn [Regex.m]. unfold Regex.step.
  destruct (Regex.m_rest s) as [|c t]; [reflexivity|].
  rewrite class_lit, (sameChar_exact fl a c H). reflexivity.
Qed.

Lemma includes_occurs (c : ascii) (s : string) :
  JS.includes s (String c EmptyString) = occurs c s.
Proof.
  unfold JS.includes, JS.indexOf. generalize 0%nat.
  induction s as [|d t IH]; intros n; cbn [JS.indexOf_from String.prefix occurs].
  - reflexivity.
  - destruct (Ascii.ascii_dec c d) as [->|Hne].
    + rewrite Ascii.eqb_refl. by destruct t.
    + apply Ascii.eqb_neq in Hne. rewrite Hne. cbn [orb]. apply IH.
Qed.

(** A text without [<] is not complex HTML. *)
Lemma complexHtml_needs_tag (fl : Regex.flags) (h : string) :
  occurs "<" h = false -> Regex.test fl complexHtmlRegex h = false.
Proof.
  destruct complexHtml_shape as (r1 & r2 & ->). unfold Regex.test, Regex.search.
  generalize (@None ascii) 0%nat.
  induction h as [|c t IH]; intros prev pos H; cbn [Regex.searchFrom]; unfold Regex.matchAt;
    cbn [Regex.m]; rewrite !m_lit by auto; cbn [Regex.m_rest Regex.orElse].
  - reflexivity.
  - cbn [occurs] in H. apply orb_false_elim in H as [Hc Ht]. rewrite Hc.
    cbn [Regex.orElse]. apply IH, Ht.
Qed.

Lemma occurs_substring (c : ascii) (s : string) :
  forall a n, occurs c s = false -> occurs c (String.substring a n s) = false.
Proof.
  induction s as [|d t IH]; intros a n H.
  - destruct a, n; reflexivity.
  - cbn [occurs] in H. apply orb_false_elim in H as [Hd Ht].
    destruct a as [|a]; cbn [String.substring].
    + destruct n as [|n]; [reflexivity|]. cbn [occurs]. rewrite Hd. apply IH, Ht.
    + apply IH, Ht.
Qed.

Lemma occurs_trimStart (c : ascii) (s : string) :
  occurs c s = false -> occurs c (JS.trimStart s) = false.
Proof.
  induction s as [|d t IH]; intros H; [reflexivity|].
  cbn [JS.trimStart]. destruct (JS.isWhiteSpace d); [|exact H].
  cbn [occurs] in H. apply orb_false_elim in H as [_ Ht]. apply IH, Ht.
Qed.

Lemma occurs_trimEnd (c : ascii) (s : string) :
  occurs c s = false -> occurs c (JS.trimEnd s) = false.
Proof.
  induction s as [|d t IH]; intros H; [reflexivity|].
  cbn [occurs] in H. apply orb_false_elim in H as [Hd Ht]. specialize (IH Ht).
  cbn [JS.trimEnd]. destruct (JS.trimEnd t) as [|e u].
  - destruct (JS.isWhiteSpace d); [reflexivity|]. cbn [occurs]. by rewrite Hd.
  - cbn [occurs] in *. by rewrite Hd.
Qed.

Lemma htmlForProcessing_occurs (c : ascii) (raw html : string) :
  occurs c raw = false ->
  htmlForProcessing (Some raw) = Some html ->
  occurs c html = false.
Proof.
  intros H. unfold htmlForProcessing.
  destruct (String.length raw =? 0)%nat; [by intros [= <-]|].
  unfold Regex.exec.
  destruct (Regex.search Regex.flag_im re_htmlCodeBlock raw) as [[i e]|]; [|by intros [= <-]].
  unfold Regex.capture. cbn [Regex.r_caps Regex.r_input].
  destruct (Regex.lookupCap (Regex.m_caps e) 1) as [[a b]|]; [|by intros [= <-]].
  destruct (String.length (JS.substring a b raw) =? 0)%nat; [by intros [= <-]|].
  intros [= <-]. unfold JS.trim, JS.substring.
  apply occurs_trimEnd, occurs_trimStart, occurs_substring, H.
Qed.

(** X25.  A message whose text has no [<] is never put in a frame and
    never gets a run button, whatever the settings, the sender and the
    fences in it: the end of the pass only makes its form controls
    clickable, when that feature is on and the message holds no frame. *)
Theorem plain_text_is_never_framed (emberSettings : gmap string Settings.value)
  (isUserMessage : bool) (raw : string) (hasGenericFrame hasFrame : bool) :
  JS.includes raw "<" = false ->
  directHtml emberSettings isUserMessage (Some raw) hasGenericFrame hasFrame
  = if negb hasFrame
       && Settings.truthy (Settings.prop emberSettings "clickableInputsEnabled")
    then ClickableInputs else NoCall.
Proof.
  intros H. rewrite includes_occurs in H. unfold directHtml.
  destruct (Settings.truthy (Settings.prop emberSettings "directHtmlEnabled")
            && negb hasGenericFrame); [|reflexivity].
  destruct (htmlForProcessing (Some raw)) as [html|] eqn:E; [|reflexivity].
  rewrite (complexHtml_needs_tag _ html (htmlForProcessing_occurs _ _ _ H E)).
  rewrite andb_false_r. reflexivity.
Qed.

Lemma plain_text_is_never_framed_witness :
  directHtml (Settings.initialSettings samplePrompt) false
    (Some (fenced None "Roll 2d6 and add 3." None)) false false
  = ClickableInputs.
Proof.
  apply (plain_text_is_never_framed (Settings.initialSettings samplePrompt) false
           (fenced None "Roll 2d6 and add 3." None) false false).
  reflexivity.
Defined.

(** [\s*] stops at once before a code unit that is not white space. *)
Lemma space_star_stop (fl : Regex.flags) (k : Regex.mstate -> option Regex.mstate)
  (n : nat) (s : Regex.mstate) :
  match Regex.m_rest s with
  | String c _ => JS.isWhiteSpace c = false
  | EmptyString => True
  end ->
  starLoop fl reSpace true k n s = k s.
Proof.
  intros H. destruct n as [|n]; [reflexivity|].
  cbn [starLoop reSpace Regex.m]. unfold Regex.step.
  destruct (Regex.m_rest s) as [|c t]; [reflexivity|].
  rewrite class_space, H. reflexivity.
Qed.

(** [\s*$] at the end of a line or of the text: it matches, and
    records no capture. *)
Lemma space_star_eol (fl : Regex.flags) :
  forall n s,
    match starLoop fl reSpace true (Regex.m fl (Regex.Seq Regex.Eol Regex.Empty) Some) n s with
    | Some e => Regex.m_caps e = Regex.m_caps s
    | None => Regex.atEol fl s = false
    end.
Proof.
  assert (Hk : forall s,
             match Regex.m fl (Regex.Seq Regex.Eol Regex.Empty) Some s with
             | Some e => Regex.m_caps e = Regex.m_caps s
             | None => Regex.atEol fl s = false
             end).
  { intros s. cbn [Regex.m]. by destruct (Regex.atEol fl s). }
  induction n as [|n IH]; intros s; cbn [starLoop]; [apply Hk|].
  cbn [reSpace Regex.m]. unfold Regex.step.
  destruct (Regex.m_rest s) as [|c t] eqn:Er; [apply Hk|].
  rewrite class_space. destruct (JS.isWhiteSpace c); [|apply Hk].
  cbn [Regex.m_pos]. rewrite (proj2 (Nat.eqb_neq _ _)) by lia.
  specialize (IH (Regex.MState (Some c) t (S (Regex.m_pos s)) (Regex.m_caps s))).
  fold reSpace.
  destruct (starLoop fl reSpace true _ n _) as [e|]; [exact IH | apply Hk].
Qed.

Lemma advance_rest (b tail : string) :
  forall p pos caps,
    advance (Regex.MState p (b +:+ tail) pos caps) b
    = Regex.MState (Regex.m_prev (advance (Regex.MState p (b +:+ tail) pos caps) b)) tail
        (pos + String.length b) caps.
Proof.
  induction b as [|c b IH]; intros p pos caps; cbn [advance append String.length].
  - rewrite Nat.add_0_r. reflexivity.
  - cbn [Regex.m_rest Regex.m_pos Regex.m_caps JS.drop]. rewrite IH at 1.
    f_equal. lia.
Qed.

(** [[\s\S]*?] reads on as long as what follows it does not match. *)
Lemma any_star_scan (fl : Regex.flags) (k : Regex.mstate -> option Regex.mstate)
  (tail : string) (caps : list (nat * (nat * nat))) (e : Regex.mstate) (b : string) :
  forall n p pos,
    (String.length b < n)%nat ->
    (forall b1 c b2 p' pos',
        b = b1 +:+ String c b2 ->
        k (Regex.MState p' (String c b2 +:+ tail) pos' caps) = None) ->
    k (advance (Regex.MState p (b +:+ tail) pos caps) b) = Some e ->
    starLoop fl reAny false k n (Regex.MState p (b +:+ tail) pos caps) = Some e.
Proof.
  induction b as [|c b IH]; intros n p pos Hn Hfail Hend.
  - cbn [advance append] in *. destruct n; cbn [starLoop]; rewrite Hend; reflexivity.
  - destruct n as [|n]; [cbn in Hn; lia|].
    pose proof (Hfail EmptyString c b p pos eq_refl) as Hf.
    cbn [starLoop append] in Hf |- *. rewrite Hf.
    cbn [Regex.orElse reAny Regex.m Regex.step Regex.m_rest Regex.m_pos Regex.m_caps].
    rewrite class_any. rewrite (proj2 (Nat.eqb_neq _ _)) by lia.
    fold reAny. apply IH.
    + cbn [String.length] in Hn. lia.
    + intros b1 c' b2 p' pos' ->. apply (Hfail (String c b1) c' b2). reflexivity.
    + exact Hend.
Qed.

Lemma fenceClose_needs_fence (fl : Regex.flags) (k : Regex.mstate -> option Regex.mstate)
  (s : Regex.mstate) :
  String.prefix (eol +:+ "```") (Regex.m_rest s) = false ->
  Regex.m fl fenceClose k s = None.
Proof.
  unfold fenceClose.
  generalize (Regex.Seq (Regex.Star true reSpace) (Regex.Seq Regex.Eol Regex.Empty)).
  intros r H. destruct s as [p rest pos caps]. cbn [Regex.m_rest] in H.
  cbn [Regex.m]. rewrite m_lit by auto. cbn [Regex.m_rest].
  destruct rest as [|c1 rest]; [reflexivity|].
  destruct (Ascii.eqb_spec "010" c1) as [<-|]; [|reflexivity].
  rewrite m_lit by auto. cbn [Regex.m_rest].
  destruct rest as [|c2 rest]; [reflexivity|].
  destruct (Ascii.eqb_spec "`" c2) as [<-|]; [|reflexivity].
  rewrite m_lit by auto. cbn [Regex.m_rest].
  destruct rest as [|c3 rest]; [reflexivity|].
  destruct (Ascii.eqb_spec "`" c3) as [<-|]; [|reflexivity].
  rewrite m_lit by auto. cbn [Regex.m_rest].
  destruct rest as [|c4 rest]; [reflexivity|].
  destruct (Ascii.eqb_spec "`" c4) as [<-|]; [|reflexivity].
  destruct rest; vm_compute in H; discriminate H.
Qed.

Lemma includes_suffix (p b1 : string) :
  forall b2, JS.includes (b1 +:+ b2) p = false -> String.prefix p b2 = false.
Proof.
  unfold JS.includes, JS.indexOf.
  induction b1 as [|c b1 IH]; intros b2 H; cbn [append] in H.
  - destruct b2 as [|d b2]; cbn [JS.indexOf_from] in H;
      destruct (String.prefix p _); [discriminate H | reflexivity | discriminate H | reflexivity].
  - cbn [JS.indexOf_from] in H.
    destruct (String.prefix p (String c (b1 +:+ b2))); [discriminate H|].
    apply IH. destruct (JS.indexOf_from 1 (b1 +:+ b2) p) eqn:E; [discriminate H|].
    by rewrite (indexOf_from_none _ _ 1 0 E).
Qed.

(** A fence does not start in a text that holds none, also when a
    fence follows the text. *)
Lemma no_fence_before_close (c : ascii) (b tail : string) :
  String.prefix (eol +:+ "```") (String c b) = false ->
  String.prefix (eol +:+ "```") (String c b +:+ eol +:+ "```" +:+ tail) = false.
Proof.
  intros H. cbn [eol append String.prefix] in *.
  destruct (Ascii.ascii_dec "010" c) as [<-|]; [|reflexivity].
  destruct b as [|c2 b]; [reflexivity|]. cbn [append String.prefix] in *.
  destruct (Ascii.ascii_dec "`" c2) as [<-|]; [|reflexivity].
  destruct b as [|c3 b]; [reflexivity|]. cbn [append String.prefix] in *.
  destruct (Ascii.ascii_dec "`" c3) as [<-|]; [|reflexivity].
  destruct b as [|c4 b]; [reflexivity|]. cbn [append String.prefix] in *.
  destruct (Ascii.ascii_dec "`" c4) as [<-|]; [|reflexivity].
  destruct b; vm_compute in H; discriminate H.
Qed.

Lemma m_seq (fl : Regex.flags) (a b : Regex.regex)
  (k : Regex.mstate -> option Regex.mstate) (s : Regex.mstate) :
  Regex.m fl (Regex.Seq a b) k s = Regex.m fl a (Regex.m fl b k) s.
Proof. reflexivity. Qed.

Lemma m_bol (fl : Regex.flags) (k : Regex.mstate -> option Regex.mstate) (s : Regex.mstate) :
  Regex.m fl Regex.Bol k s = if Regex.atBol fl s then k s else None.
Proof. reflexivity. Qed.

Lemma m_group (fl : Regex.flags) (n : nat) (a : Regex.regex)
  (k : Regex.mstate -> option Regex.mstate) (s : Regex.mstate) :
  Regex.m fl (Regex.Group n a) k s
  = Regex.m fl a
      (fun s' => k (Regex.MState (Regex.m_prev s') (Regex.m_rest s') (Regex.m_pos s')
                      ((n, (Regex.m_pos s, Regex.m_pos s')) :: Regex.m_caps s'))) s.
Proof. reflexivity. Qed.

Lemma m_lit_self (fl : Regex.flags) (a : ascii) (k : Regex.mstate -> option Regex.mstate)
  (p : option ascii) (t : string) (pos : nat) (caps : list (nat * (nat * nat))) :
  Regex.m fl (Regex.Lit a) k (Regex.MState p (String a t) pos caps)
  = k (Regex.MState (Some a) t (S pos) caps).
Proof.
  unfold Regex.Lit. cbn [Regex.m Regex.step Regex.m_rest Regex.m_pos Regex.m_caps].
  rewrite class_lit. unfold Regex.sameChar.
  destruct (Regex.ignoreCase fl); [rewrite N.eqb_refl | rewrite Ascii.eqb_refl]; reflexivity.
Qed.

Lemma space_star_step (fl : Regex.flags) (k : Regex.mstate -> option Regex.mstate)
  (n : nat) (c : ascii) (t : string) (p : option ascii) (pos : nat)
  (caps : list (nat * (nat * nat))) :
  JS.isWhiteSpace c = true ->
  starLoop fl reSpace true k (S n) (Regex.MState p (String c t) pos caps)
  = Regex.orElse (starLoop fl reSpace true k n (Regex.MState (Some c) t (S pos) caps))
      (k (Regex.MState p (String c t) pos caps)).
Proof.
  intros H. cbn [starLoop reSpace Regex.m Regex.step Regex.m_rest Regex.m_pos Regex.m_caps].
  rewrite class_space, H. rewrite (proj2 (Nat.eqb_neq _ _)) by lia. reflexivity.
Qed.

(** The closing fence at the end of the text or before a line feed. *)
Lemma fenceClose_matches (p : option ascii) (outro : option string) (pos : nat)
  (caps : list (nat * (nat * nat))) :
  exists e,
    Regex.m Regex.flag_im fenceClose Some
      (Regex.MState p (eol +:+ "```" +:+ linesAfter outro) pos caps) = Some e
    /\ Regex.m_caps e = caps.
Proof.
  unfold fenceClose. cbn [eol append].
  rewrite !m_seq, m_lit_self, m_seq, m_lit_self, m_seq, m_lit_self, m_seq, m_lit_self.
  rewrite m_seq. unfold reSpace at 1. rewrite m_star. fold reSpace.
  match goal with
  | |- exists e, starLoop ?fl _ _ _ ?n ?s = _ /\ _ =>
      pose proof (space_star_eol fl n s) as H;
      destruct (starLoop fl reSpace true
                  (Regex.m fl (Regex.Seq Regex.Eol Regex.Empty) Some) n s) as [e|]
  end.
  - exists e. split; [reflexivity | exact H].
  - exfalso. revert H. unfold Regex.atEol, Regex.nextChar. cbn [Regex.m_rest].
    destruct outro; cbn; discriminate.
Qed.

(** The expression matches a fence at the start of a line: the capture
    is the text between the fence lines. *)
Lemma fence_matches (prev : option ascii) (pos : nat) (c0 : ascii) (t0 : string)
  (outro : option string) :
  match prev with Some c => JS.isLineTerminator c = true | None => True end ->
  JS.isWhiteSpace c0 = false ->
  JS.includes (String c0 t0) (eol +:+ "```") = false ->
  exists e,
    Regex.matchAt Regex.flag_im re_htmlCodeBlock
      (Regex.MState prev
         ("```html" +:+ eol +:+ String c0 t0 +:+ eol +:+ "```" +:+ linesAfter outro) pos [])
    = Some e
    /\ Regex.m_caps e = [(1, (8 + pos, 8 + pos + String.length (String c0 t0)))%nat].
Proof.
  intros Hbol Hc0 Hbody. rewrite htmlCodeBlock_shape. unfold Regex.matchAt.
  set (body := String c0 t0) in *.
  set (tail := eol +:+ "```" +:+ linesAfter outro).
  assert (Hb : Regex.atBol Regex.flag_im
                 (Regex.MState prev ("```html" +:+ eol +:+ body +:+ tail) pos []) = true).
  { unfold Regex.atBol. cbn [Regex.m_prev]. destruct prev; [by rewrite Hbol | reflexivity]. }
  rewrite m_seq, m_bol, Hb. clear Hb.
  cbn [append eol].
  rewrite m_seq, m_lit_self, m_seq, m_lit_self, m_seq, m_lit_self, m_seq, m_lit_self,
    m_seq, m_lit_self, m_seq, m_lit_self, m_seq, m_lit_self.
  rewrite m_seq. unfold reSpace at 1. rewrite m_star. fold reSpace.
  cbn [Regex.m_rest String.length].
  rewrite space_star_step by reflexivity.
  rewrite space_star_stop by (subst body; cbn [Regex.m_rest append]; exact Hc0).
  (* the line feed of the opening fence is not read as white space *)
  assert (Hnl : Ascii.eqb "010" c0 = false).
  { destruct (Ascii.eqb_spec "010" c0) as [<-|]; [discriminate Hc0 | reflexivity]. }
  unfold fenceBody at 1. rewrite m_seq, m_lit by auto.
  subst body. cbn [Regex.m_rest append]. rewrite Hnl. cbn [Regex.orElse].
  unfold fenceBody. rewrite m_seq, m_lit_self, m_seq.
  rewrite m_group, m_seq. unfold reAny at 1. rewrite m_star. fold reAny.
  cbn [Regex.m_rest Regex.m_pos Regex.m_caps Regex.m_prev].
  change (String c0 (t0 +:+ tail)) with (String c0 t0 +:+ tail).
  set (body := String c0 t0) in *.
  set (start := S (S (S (S (S (S (S (S pos)))))))).
  destruct (fenceClose_matches
              (Regex.m_prev (advance (Regex.MState (Some "010"%char) (body +:+ tail) start [])
                               body))
              outro (start + String.length body)
              [(1, (start, start + String.length body))%nat]) as (e & He & Hcaps).
  exists e. split; [|exact Hcaps].
  apply any_star_scan.
  - rewrite append_length. lia.
  - intros b1 c b2 p' pos' Hsplit. cbn [Regex.m Regex.m_prev Regex.m_rest Regex.m_pos Regex.m_caps].
    apply fenceClose_needs_fence. cbn [Regex.m_rest].
    apply no_fence_before_close. apply (includes_suffix _ b1). rewrite <- Hsplit. exact Hbody.
  - rewrite advance_rest. cbn [Regex.m Regex.m_prev Regex.m_rest Regex.m_pos Regex.m_caps].
    exact He.
Qed.

(** The search passes a code unit that is not a backquote. *)
Lemma search_skip (c : ascii) (rest : string) (prev : option ascii) (pos : nat) :
  Ascii.eqb "`" c = false ->
  Regex.searchFrom Regex.flag_im re_htmlCodeBlock prev (String c rest) pos
  = Regex.searchFrom Regex.flag_im re_htmlCodeBlock (Some c) rest (S pos).
Proof.
  intros H. cbn [Regex.searchFrom]. unfold Regex.matchAt at 1.
  rewrite htmlCodeBlock_shape at 1. rewrite m_seq, m_bol, m_seq, m_lit by auto.
  cbn [Regex.m_rest]. rewrite H. by destruct (Regex.atBol _ _).
Qed.

Lemma search_skips (lead rest : string) :
  forall prev pos,
    occurs "`" lead = false ->
    exists prev',
      Regex.searchFrom Regex.flag_im re_htmlCodeBlock prev (lead +:+ rest) pos
      = Regex.searchFrom Regex.flag_im re_htmlCodeBlock prev' rest (pos + String.length lead)
      /\ (lead = EmptyString -> prev' = prev).
Proof.
  induction lead as [|c lead IH]; intros prev pos H.
  - exists prev. cbn [append String.length]. rewrite Nat.add_0_r. split; reflexivity.
  - cbn [occurs] in H. apply orb_false_elim in H as [Hc Hl].
    destruct (IH (Some c) (S pos) Hl) as (prev' & E & _).
    exists prev'. cbn [append String.length]. rewrite search_skip by exact Hc.
    rewrite E. split; [f_equal; lia | discriminate].
Qed.

Lemma search_here (fl : Regex.flags) (r : Regex.regex) (prev : option ascii)
  (rest : string) (pos : nat) (e : Regex.mstate) :
  Regex.matchAt fl r (Regex.MState prev rest pos []) = Some e ->
  Regex.searchFrom fl r prev rest pos = Some (pos, e).
Proof. intros H. destruct rest; cbn [Regex.searchFrom]; rewrite H; reflexivity. Qed.

Lemma occurs_app (c : ascii) (a b : string) :
  occurs c (a +:+ b) = occurs c a || occurs c b.
Proof.
  induction a as [|d a IH]; cbn [append occurs]; [reflexivity|].
  rewrite IH. apply orb_assoc.
Qed.

(** The fence is found behind the lines before it. *)
Lemma fence_found (intro outro : option string) (c0 : ascii) (t0 : string) :
  JS.includes (linesBefore intro) "`" = false ->
  JS.isWhiteSpace c0 = false ->
  JS.includes (String c0 t0) (eol +:+ "```") = false ->
  exists e,
    Regex.search Regex.flag_im re_htmlCodeBlock (fenced intro (String c0 t0) outro)
    = Some (String.length (linesBefore intro), e)
    /\ Regex.m_caps e
       = [(1, (8 + String.length (linesBefore intro),
               8 + String.length (linesBefore intro) + String.length (String c0 t0)))%nat].
Proof.
  intros Hi Hc0 Hbody. rewrite includes_occurs in Hi. unfold Regex.search, fenced.
  destruct intro as [t|]; cbn [linesBefore] in *.
  - rewrite occurs_app in Hi. apply orb_false_elim in Hi as [Ht _].
    rewrite append_assoc.
    destruct (search_skips t
                (eol +:+ "```html" +:+ eol +:+ String c0 t0 +:+ eol +:+ "```"
                 +:+ linesAfter outro) None 0%nat Ht) as (prev' & -> & _).
    cbn [eol append]. rewrite search_skip by reflexivity.
    destruct (fence_matches (Some "010"%char) (S (0 + String.length t)) c0 t0 outro
                eq_refl Hc0 Hbody) as (e & He & Hcaps).
    exists e. rewrite append_length. cbn [String.length eol].
    replace (String.length t + 1)%nat with (S (0 + String.length t)) by lia.
    split; [|exact Hcaps]. apply search_here. exact He.
  - destruct (fence_matches None 0%nat c0 t0 outro I Hc0 Hbody) as (e & He & Hcaps).
    exists e. cbn [String.length append]. split; [|exact Hcaps].
    apply search_here. exact He.
Qed.

(** X26.  A fence of type [html] is taken out of the message wherever
    it stands, not only when the message is nothing but the fence.  Let
    the lines before the fence hold no backquote, and let the text
    between the fence lines start with a code unit that is not white
    space and hold no line that starts with three backquotes.  Then the
    text handed on for rendering is that text, trimmed; the lines
    before and after the fence are dropped. *)
Theorem fence_content_is_extracted (intro outro : option string) (c0 : ascii) (t0 : string) :
  JS.includes (linesBefore intro) "`" = false ->
  JS.isWhiteSpace c0 = false ->
  JS.includes (String c0 t0) (eol +:+ "```") = false ->
  htmlForProcessing (Some (fenced intro (String c0 t0) outro))
  = Some (JS.trim (String c0 t0)).
Proof.
  intros Hi Hc0 Hbody.
  destruct (fence_found intro outro c0 t0 Hi Hc0 Hbody) as (e & Hs & Hcaps).
  unfold htmlForProcessing, Regex.exec. rewrite Hs.
  replace (String.length (fenced intro (String c0 t0) outro) =? 0)%nat with false.
  2:{ symmetry. apply Nat.eqb_neq. unfold fenced. rewrite append_length. cbn. lia. }
  unfold Regex.capture. cbn [Regex.r_caps Regex.r_input]. rewrite Hcaps.
  cbn [Regex.lookupCap List.find fst snd Nat.eqb fmap option_fmap option_map].
  assert (Hsub : JS.substring (8 + String.length (linesBefore intro))
                   (8 + String.length (linesBefore intro) + String.length (String c0 t0))
                   (fenced intro (String c0 t0) outro)
                 = String c0 t0).
  { unfold JS.substring, fenced.
    replace (8 + String.length (linesBefore intro) + String.length (String c0 t0)
             - (8 + String.length (linesBefore intro)))%nat
      with (String.length (String c0 t0)) by lia.
    replace (8 + String.length (linesBefore intro))%nat
      with (String.length (linesBefore intro +:+ "```html" +:+ eol))
      by (rewrite append_length; cbn; lia).
    rewrite <- (substring_mid (linesBefore intro +:+ "```html" +:+ eol) (String c0 t0)
                  (eol +:+ "```" +:+ linesAfter outro)) at 3.
    f_equal. rewrite !append_assoc. reflexivity. }
  rewrite Hsub. reflexivity.
Qed.

Lemma fence_content_is_extracted_witness :
  htmlForProcessing
    (Some (fenced (Some "Here is the sheet:") "<table><tr><td>HP</td></tr></table>"
             (Some "Tell me what you do.")))
  = Some (JS.trim "<table><tr><td>HP</td></tr></table>").
Proof.
  apply (fence_content_is_extracted (Some "Here is the sheet:") (Some "Tell me what you do.")
           "<" "table><tr><td>HP</td></tr></table>");
    reflexivity.
Defined.

(* ===================================================================== *)
(** ** Further properties: form controls *)
(* ===================================================================== *)

Lemma drop_app_length (a b : string) : JS.drop (String.length a) (a +:+ b) = b.
Proof. induction a as [|c a IH]; [reflexivity | exact IH]. Qed.

Lemma endsWith_app (a p : string) : endsWith (a +:+ p) p = true.
Proof.
  unfold endsWith. rewrite append_length.
  replace (String.length a + String.length p - String.length p)%nat
    with (String.length a) by lia.
  rewrite drop_app_length, String.eqb_refl, andb_true_r. apply Nat.leb_le. lia.
Qed.

Lemma nonEmpty_app (a b : string) : nonEmpty a = true -> nonEmpty (a +:+ b) = true.
Proof. destruct a; [discriminate | reflexivity]. Qed.

(** X27.  A colon at the end of a label makes no difference: a control
    labelled [Name:] and one labelled [Name] give the same line, with
    one colon and one space between label and value. *)
Theorem label_colon_is_optional (el : control) (label : string) :
  nonEmpty label = true ->
  endsWith label ":" = false ->
  inputToString (withLabel (label +:+ ":") el) = inputToString (withLabel label el).
Proof.
  intros Hn He. unfold inputToString.
  change (typeOf (withLabel (label +:+ ":") el)) with (typeOf el).
  change (typeOf (withLabel label el)) with (typeOf el).
  cbn [withLabel c_checked c_max c_tagName c_selectedText c_value c_label].
  rewrite (nonEmpty_app label ":" Hn), Hn, (endsWith_app label ":"), He.
  cbn [negb andb]. rewrite append_assoc. reflexivity.
Qed.

Lemma label_colon_is_optional_witness :
  inputToString (withLabel ("Volume" +:+ ":") volumeSlider)
  = inputToString (withLabel "Volume" volumeSlider).
Proof.
  apply (label_colon_is_optional volumeSlider "Volume"); reflexivity.
Defined.

Lemma collectInputs_skip (el : control) (before after : list control) :
  inputToString el = Some EmptyString ->
  forall output,
    collectInputs output (before ++ el :: after)%list
    = collectInputs output (before ++ after)%list.
Proof.
  intros H. induction before as [|b before IH]; intros output; cbn [app collectInputs].
  - rewrite H, append_nil_r. by destruct (c_inIframe el).
  - destruct (c_inIframe b); [apply IH|].
    destruct (inputToString b); [apply IH | reflexivity].
Qed.

(** X28.  A control without a label leaves no trace in the message that
    a submit button sends: with the control or without it, the text of
    the form is the same (and so is the failure, when a [select] of the
    form has no selected option).  A control whose type is [button],
    [submit] or [reset] is reported also without a label, and a
    [select] without a selected option fails before its label is
    looked at. *)
Theorem unlabelled_control_is_not_reported (before after : list control) (el : control) :
  c_label el = EmptyString ->
  isButtonType (typeOf el) = false ->
  inputToString el <> None ->
  extractDataFromInputs (before ++ el :: after)%list
  = extractDataFromInputs (before ++ after)%list.
Proof.
  intros Hl Hb Hok. unfold extractDataFromInputs. f_equal.
  apply collectInputs_skip. revert Hok. unfold inputToString.
  destruct (String.eqb (typeOf el) "radio" && negb (c_checked el)); [reflexivity|].
  destruct (if String.eqb (c_tagName el) "SELECT" then c_selectedText el
            else Some (c_value el)); [|congruence].
  rewrite Hl, Hb. reflexivity.
Qed.

Lemma unlabelled_control_is_not_reported_witness :
  extractDataFromInputs ([volumeSlider] ++ bareField :: [volumeSlider])%list
  = extractDataFromInputs ([volumeSlider] ++ [volumeSlider])%list.
Proof.
  apply (unlabelled_control_is_not_reported [volumeSlider] [volumeSlider] bareField).
  - reflexivity.
  - reflexivity.
  - discriminate.
Defined.

(* ===================================================================== *)
(** ** Worked instances *)
(* ===================================================================== *)

Example simpleHash_abc : Current.simpleHash "abc" = 96354%Z.
Proof. reflexivity. Qed.

Example simpleHash_empty : Current.simpleHash EmptyString = 0%Z.
Proof. reflexivity. Qed.

Example hashKey_scenarioA :
  Current.hashKey
    "const d=document.createElement('div');d.textContent='hi';root.appendChild(d);"
  = "1880721445".
Proof. vm_compute. reflexivity. Qed.

Example escapeRegExp_sample :
  Repair.escapeRegExp "f(x) = a.b*c[0] ? $1 : {y|z}^2 \ +"
  = "f\(x\) = a\.b\*c\[0\] \? \$1 : \{y\|z\}\^2 \\ \+".
Proof. vm_compute. reflexivity. Qed.

Example stringify_sample :
  JS.stringify ("say " +:+ dq +:+ "hi" +:+ dq +:+ "\" +:+ eol +:+ "`x`</script>")
  = dq +:+ "say \" +:+ dq +:+ "hi\" +:+ dq +:+ "\\\n`x`</script>" +:+ dq.
Proof. vm_compute. reflexivity. Qed.

Example parseFix_fenced :
  Repair.parseFix ("Here you go:" +:+ eol +:+ Repair.fence +:+ "javascript" +:+ eol
                   +:+ "  root.append('x');  " +:+ eol +:+ Repair.fence +:+ eol +:+ "Bye.")
  = "root.append('x');".
Proof. vm_compute. reflexivity. Qed.

Example parseFix_unfenced : Repair.parseFix "  root.append('x'); " = "root.append('x');".
Proof. vm_compute. reflexivity. Qed.

(** Scenario A: one context, marked processed and hidden behind it. *)
Example scenarioA_one_context :
  let run := Current.processMessage (fun _ => true) "http://localhost:8000" "7" scenarioA in
  map frameId (created (fst run)) = ["ember-frame-7-codeblock-1700000000000"]
  /\ map (fun f => List.length (libraryCodes f)) (created (fst run)) = [6%nat]
  /\ map emberProcessed (snd run) = [Some "true"]
  /\ map display (snd run) = ["none"]
  /\ processedByEmberJs (fst run) = true.
Proof. vm_compute. repeat split. Qed.

(** Scenario D: the second of two identical fragments is hidden. *)
Example scenarioD_second_hidden :
  let run := Current.processMessage sampleSyntaxOk "http://localhost:8000" "7"
               sameBlockTwice in
  List.length (created (fst run)) = 1%nat
  /\ map emberProcessed (snd run) = [Some "true"; Some "duplicate"]
  /\ map display (snd run) = ["none"; "none"].
Proof. vm_compute. repeat split. Qed.

(** Scenario C, second half: a reply with a new version replaces the
    fenced block of the message and triggers the re-render. *)
Example heal_applies_new_fix :
  Repair.newMes (Repair.attemptSelfHeal "5" healNew)
  = Some ("Look:" +:+ eol +:+ "---" +:+ eol +:+ "---" +:+ eol +:+ eol
          +:+ Repair.fence +:+ "javascript" +:+ eol +:+ "root.textContent = 'fixed';"
          +:+ eol +:+ Repair.fence)
  /\ Repair.effects (Repair.attemptSelfHeal "5" healNew)
     = [Repair.Rerender
          ("Look:" +:+ eol +:+ "---" +:+ eol +:+ "---" +:+ eol +:+ eol
           +:+ Repair.fence +:+ "javascript" +:+ eol +:+ "root.textContent = 'fixed';"
           +:+ eol +:+ Repair.fence)].
Proof. vm_compute. repeat split. Qed.

(** The classifier on a tagged block, a markup block with a script,
    and a style sheet. *)
Example classifier_samples :
  Current.isDirectJavaScript
    (Current.detectJavaScriptContent "language-javascript" "x = 1") = true
  /\ Current.isHtmlWithJavaScript
       (Current.detectJavaScriptContent "language-html"
          "<div></div><script>let x = 1;</script>") = true
  /\ Current.isJavaScript
       (Current.detectJavaScriptContent "language-css" "p { color: red }") = false
  /\ Current.isJavaScript
       (Current.detectJavaScriptContent EmptyString
          "function f() { return a && b; }") = false.
Proof. vm_compute. repeat split. Qed.

(** The fragment the spec names: one script, once as a raw script
    element and once as the markup block showing it.  The script runs
    once; the block is hidden as its duplicate. *)
Example raw_script_then_block :
  let run := Current.processMessage (fun _ => true) "http://localhost:8000" "7"
               scriptAndBlock in
  map frameId (created (fst run)) = ["ember-frame-7-script-1700000000000"]
  /\ map userCode (created (fst run)) = ["draw();"]
  /\ map emberProcessed (snd run) = [Some "duplicate"]
  /\ map display (snd run) = ["none"].
Proof. vm_compute. repeat split. Qed.

(** The same message when its script does not parse: the script is
    reported, nothing runs, and the block is hidden all the same. *)
Example raw_script_rejected :
  let run := Current.processMessage (fun _ => false) "http://localhost:8000" "7"
               scriptAndBlock in
  created (fst run) = []
  /\ console (fst run) = [ScriptSyntaxError "draw();"]
  /\ map emberProcessed (snd run) = [Some "duplicate"].
Proof. vm_compute. repeat split. Qed.

(** The first build on a block whose code holds three dashes: what is
    before them is gone, and the rest runs. *)
Example legacy_countdown :
  map userCode
    (created (fst (Legacy.processCodeBlock "http://localhost:8000" "5" startPass
                     countdownBlock (sampleEnv 1700000000000))))
  = ["1;"].
Proof. vm_compute. reflexivity. Qed.

(** A fix that holds a dollar sign before a quote: the replacement
    pattern is expanded to the text after the replaced block, and the
    fix that reaches the message is not the fix of the reply. *)
Example heal_expands_dollar_patterns :
  Repair.parseFix
    (Repair.fence +:+ "javascript" +:+ eol +:+ "root.textContent = '$' + 5;" +:+ eol
     +:+ Repair.fence)
  = "root.textContent = '$' + 5;"
  /\ Repair.newMes (Repair.attemptSelfHeal "5" healDollar)
     = Some ("Look:" +:+ eol +:+ "---" +:+ eol +:+ "---" +:+ eol +:+ eol
             +:+ Repair.fence +:+ "javascript" +:+ eol
             +:+ "root.textContent = '" +:+ eol +:+ "Done. + 5;"
             +:+ eol +:+ Repair.fence +:+ eol +:+ "Done.").
Proof. vm_compute. repeat split. Qed.

(** Cleaning message 1 up keeps the recorded maximum of message 12. *)
Example cleanup_keeps_message_12 :
  maxHeights (cleanupEmberElements "1" samplePage)
  = {[ "ember-frame-12-1700000000900" := 115%Z ]}.
Proof. apply map_eq. intros k. vm_compute. reflexivity. Qed.
